(** * F1 Statistics Dashboard: the season aggregation routines

    A shallow embedding of the aggregation methods of [F1Dashboard]
    (src/f1_dashboard.py): [count_podiums], [count_dnfs],
    [compare_drivers] and [export_full_season_details], together with
    the fragments of the Python runtime they rely on (exceptions and
    [try]/[except], insertion-ordered dictionaries, [sorted]); then of
    [get_race_results], [get_fastest_lap], [display_race_schedule],
    [export_all_time_race_data] and the menu's [get_valid_input].

    The data provider ([fastf1]) is external: it is a parameter of every
    method.  Output on [stdout] and the files written by [to_csv] are not
    modelled; the values the methods return are. *)

From Stdlib Require Import ZArith List String Bool Lia Permutation Sorted.
Import ListNotations.

Local Open Scope Z_scope.

(** ** Python runtime fragments *)

Module Py.

(** An exception value; every handler of the program is
    [except Exception], so only the fact of raising matters. *)
Inductive exn : Type :=
| Exception (msg : string)
| KeyError (key : string)
| IndexError.

Inductive result (A : Type) : Type :=
| Ok (a : A)
| Raise (e : exn).
Arguments Ok {A} a.
Arguments Raise {A} e.

(** A block of statements over the local variables [St]: it ends
    normally with a value or raises, and in both cases the variables
    keep what was assigned to them so far. *)
Definition M (St A : Type) : Type := St -> result A * St.

Definition ret {St A : Type} (a : A) : M St A := fun s => (Ok a, s).

Definition bind {St A B : Type} (m : M St A) (k : A -> M St B) : M St B :=
  fun s =>
    match m s with
    | (Ok a, s') => k a s'
    | (Raise e, s') => (Raise e, s')
    end.

Definition get {St : Type} : M St St := fun s => (Ok s, s).
Definition put {St : Type} (s : St) : M St unit := fun _ => (Ok tt, s).

(** A call that may raise and does not touch the local variables. *)
Definition call {St A : Type} (r : result A) : M St A := fun s => (r, s).

(** [try: body except Exception as e: handler e]. *)
Definition try_except {St A : Type} (body : M St A) (handler : exn -> M St A)
  : M St A :=
  fun s =>
    match body s with
    | (Ok a, s') => (Ok a, s')
    | (Raise e, s') => handler e s'
    end.

(** [for x in l: body x]; an exception leaving [body] leaves the loop. *)
Fixpoint for_each {St A : Type} (l : list A) (body : A -> M St unit)
  : M St unit :=
  match l with
  | [] => ret tt
  | x :: l' => bind (body x) (fun _ => for_each l' body)
  end.

(** [for i, x in enumerate(l, start)]. *)
Fixpoint for_each_from {St A : Type} (start : nat) (l : list A)
         (body : nat -> A -> M St unit) : M St unit :=
  match l with
  | [] => ret tt
  | x :: l' =>
      bind (body start x) (fun _ => for_each_from (S start) l' body)
  end.

(** A [dict] with string keys: Python keeps the keys in insertion
    order and each key once. *)
Definition dict (V : Type) : Type := list (string * V).

Fixpoint dict_get {V : Type} (k : string) (d : dict V) : option V :=
  match d with
  | [] => None
  | (k', v) :: d' => if String.eqb k k' then Some v else dict_get k d'
  end.

(** [k in d] *)
Definition dict_mem {V : Type} (k : string) (d : dict V) : bool :=
  match dict_get k d with Some _ => true | None => false end.

(** [d[k]] *)
Definition dict_getitem {V : Type} (k : string) (d : dict V) : result V :=
  match dict_get k d with Some v => Ok v | None => Raise (KeyError k) end.

(** [d[k] = v]: an existing key keeps its place, a new one goes last. *)
Fixpoint dict_set {V : Type} (k : string) (v : V) (d : dict V) : dict V :=
  match d with
  | [] => [(k, v)]
  | (k', v') :: d' =>
      if String.eqb k k' then (k', v) :: d' else (k', v') :: dict_set k v d'
  end.

(** A dict display [{k1: v1, k2: v2, ...}], evaluated left to right. *)
Definition dict_literal {V : Type} (items : list (string * V)) : dict V :=
  fold_left (fun d kv => dict_set (fst kv) (snd kv) d) items [].

(** [a[0]] on a sequence. *)
Definition item0 {A : Type} (a : list A) : result A :=
  match a with
  | [] => Raise IndexError
  | x :: _ => Ok x
  end.

Section Sorting.
Context {A K : Type} (key : A -> K) (ltb : K -> K -> bool).

(** Both sorts only ever ask [<] of two keys and are stable. *)
Fixpoint insert_asc (x : A) (l : list A) : list A :=
  match l with
  | [] => [x]
  | y :: l' =>
      if ltb (key y) (key x) then y :: insert_asc x l' else x :: y :: l'
  end.

(** [sorted(l, key=key)] *)
Definition sorted (l : list A) : list A := fold_right insert_asc [] l.

Fixpoint insert_desc (x : A) (l : list A) : list A :=
  match l with
  | [] => [x]
  | y :: l' =>
      if ltb (key x) (key y) then y :: insert_desc x l' else x :: y :: l'
  end.

(** [sorted(l, key=key, reverse=True)]: descending, and elements with
    equal keys stay in their original order. *)
Definition sorted_reverse (l : list A) : list A :=
  fold_right insert_desc [] l.
End Sorting.

End Py.

Import Py.

Declare Scope py_scope.
Delimit Scope py_scope with py.
Notation "x <- c ;; k" := (bind c (fun x => k))
  (at level 61, c at next level, right associativity) : py_scope.
Notation "c ;; k" := (bind c (fun _ => k))
  (at level 61, right associativity) : py_scope.
Local Open Scope py_scope.

(** ** Numbers in the [Points] column

    The provider hands points over as floating-point numbers and the
    program only adds them to the integer [0], adds them to each other
    and compares them when sorting.  No law of arithmetic is assumed of
    these operations. *)
Class Numeric (Pts : Type) : Type := {
  pts_zero : Pts;
  pts_add : Pts -> Pts -> Pts;
  pts_ltb : Pts -> Pts -> bool
}.

#[export] Instance Numeric_Z : Numeric Z := {|
  pts_zero := 0;
  pts_add := Z.add;
  pts_ltb := Z.ltb
|}.

(** ** The data the provider returns *)

Section Model.
Context {Pts : Type} `{Numeric Pts}.

(** A row of [session.results].  [Position] is a float column holding
    1.0, 2.0, ... or NaN ([None] here). *)
Record ResultRow : Type := {
  Abbreviation : string;
  FullName : string;
  TeamName : string;
  Position : option Z;
  Points : Pts;
  Status : string
}.

(** A loaded race session: [session.event['EventName']] and
    [session.results], rows in the provider's order. *)
Record Session : Type := {
  EventName : string;
  results : list ResultRow
}.

(** A row of the event schedule; [EventDate] is a timestamp. *)
Record Event : Type := {
  RoundNumber : Z;
  EventDate : Z
}.

(** [fastf1]: [get_event_schedule year], and [get_session year round]
    for [fastf1.get_session(year, round, 'R')] followed by
    [session.load()], either of which may raise. *)
Record Provider : Type := {
  get_event_schedule : Z -> result (list Event);
  get_session : Z -> Z -> result Session
}.

Record F1Dashboard : Type := {
  current_year : Z
}.

(** ** Column operations of the data frames *)

(** [<] on a [Position] column when sorting: NaN goes last. *)
Definition position_ltb (a b : option Z) : bool :=
  match a, b with
  | Some x, Some y => x <? y
  | Some _, None => true
  | None, _ => false
  end.

(** [results.sort_values('Position')] sorts with an algorithm that is
    not stable: rows with equal positions come out in an order of the
    algorithm's own.  [tie_order] stands for that order, whatever it is:
    a rearrangement of the rows that settles the ties.  Sorting the
    rearranged rows by position, rows without a position last, gives
    the table; every sorted rearrangement of the rows is obtained this
    way for some [tie_order]. *)
Class TieOrder : Type := {
  tie_order : list ResultRow -> list ResultRow;
  tie_order_perm : forall rows, Permutation (tie_order rows) rows
}.

Context `{TieOrder}.

Definition sort_values_Position (rows : list ResultRow) : list ResultRow :=
  sorted Position position_ltb (tie_order rows).

(** [value == 1] on a [Position] cell; NaN equals nothing. *)
Definition position_is (p : option Z) (n : Z) : bool :=
  match p with
  | Some x => x =? n
  | None => false
  end.

(** [race_schedule[race_schedule['EventDate'] < pd.Timestamp(now)]
    ['RoundNumber'].tolist()] *)
Definition completed_rounds (race_schedule : list Event) (now : Z) : list Z :=
  map RoundNumber (filter (fun ev => EventDate ev <? now) race_schedule).

(** ** [F1Dashboard.get_race_schedule] *)

Definition get_race_schedule {St : Type} (self : F1Dashboard)
           (fastf1 : Provider) (year : Z) : M St (option (list Event)) :=
  let year := if year =? 0 then current_year self else year in
  try_except
    (race_schedule <- call (get_event_schedule fastf1 year) ;;
     ret (Some race_schedule))
    (fun _ => ret None).

(** ** [F1Dashboard.count_podiums] *)

(** [if driver in counts: counts[driver] += 1 else: counts[driver] = 1] *)
Definition count_driver (driver : string) : M (dict Z) unit :=
  counts <- get ;;
  if dict_mem driver counts then
    n <- call (dict_getitem driver counts) ;;
    put (dict_set driver (n + 1) counts)
  else
    put (dict_set driver 1 counts).

Definition podium_drivers (session : Session) : list string :=
  map Abbreviation (firstn 3 (sort_values_Position (results session))).

(** The body of the loop over [completed_rounds]; the local variable is
    [podium_counts]. *)
Definition podium_round (fastf1 : Provider) (year round_num : Z)
  : M (dict Z) unit :=
  try_except
    (session <- call (get_session fastf1 year round_num) ;;
     for_each (podium_drivers session) count_driver)
    (fun _ => ret tt).

(** The method from its first statement to its [return]; the result is
    [None] for the bare [return], else the rows (Driver, Podiums). *)
Definition count_podiums_body (self : F1Dashboard) (fastf1 : Provider)
           (now year : Z) : M (dict Z) (option (list (string * Z))) :=
  race_schedule <- get_race_schedule self fastf1 year ;;
  match race_schedule with
  | None => ret None
  | Some race_schedule =>
      let completed := completed_rounds race_schedule now in
      for_each completed (podium_round fastf1 year) ;;
      podium_counts <- get ;;
      ret (Some (sorted_reverse snd Z.ltb podium_counts))
  end.

(** [now] is the reading of [datetime.now()]. *)
Definition count_podiums (self : F1Dashboard) (fastf1 : Provider)
           (now year : Z) : result (option (list (string * Z))) :=
  fst (count_podiums_body self fastf1 now year []).

(** ** [F1Dashboard.count_dnfs] *)

(** [results[~results['Status'].isin(['Finished'])]['Abbreviation']] *)
Definition dnf_drivers (session : Session) : list string :=
  map Abbreviation
      (filter (fun r => negb (String.eqb (Status r) "Finished"))
              (results session)).

Definition dnf_round (fastf1 : Provider) (year round_num : Z)
  : M (dict Z) unit :=
  try_except
    (session <- call (get_session fastf1 year round_num) ;;
     for_each (dnf_drivers session) count_driver)
    (fun _ => ret tt).

Definition count_dnfs_body (self : F1Dashboard) (fastf1 : Provider)
           (now year : Z) : M (dict Z) (option (list (string * Z))) :=
  race_schedule <- get_race_schedule self fastf1 year ;;
  match race_schedule with
  | None => ret None
  | Some race_schedule =>
      let completed := completed_rounds race_schedule now in
      for_each completed (dnf_round fastf1 year) ;;
      dnf_counts <- get ;;
      ret (Some (sorted_reverse snd Z.ltb dnf_counts))
  end.

Definition count_dnfs (self : F1Dashboard) (fastf1 : Provider)
           (now year : Z) : result (option (list (string * Z))) :=
  fst (count_dnfs_body self fastf1 now year []).

(** ** [F1Dashboard.compare_drivers] *)

(** A cell of the comparison table: the year and the win counts are
    integers, the points are numbers of the [Points] column. *)
Inductive cell : Type :=
| IntCell (z : Z)
| PtsCell (p : Pts).

(** The local variables of the method. *)
Record CompareVars : Type := {
  comparison_data : list (dict cell);
  driver1_points : Pts;
  driver2_points : Pts;
  driver1_wins : Z;
  driver2_wins : Z
}.

Definition set_comparison_data (v : list (dict cell)) (st : CompareVars) :=
  {| comparison_data := v;
     driver1_points := driver1_points st; driver2_points := driver2_points st;
     driver1_wins := driver1_wins st; driver2_wins := driver2_wins st |}.

Definition set_driver1_points (v : Pts) (st : CompareVars) :=
  {| comparison_data := comparison_data st;
     driver1_points := v; driver2_points := driver2_points st;
     driver1_wins := driver1_wins st; driver2_wins := driver2_wins st |}.

Definition set_driver2_points (v : Pts) (st : CompareVars) :=
  {| comparison_data := comparison_data st;
     driver1_points := driver1_points st; driver2_points := v;
     driver1_wins := driver1_wins st; driver2_wins := driver2_wins st |}.

Definition set_driver1_wins (v : Z) (st : CompareVars) :=
  {| comparison_data := comparison_data st;
     driver1_points := driver1_points st; driver2_points := driver2_points st;
     driver1_wins := v; driver2_wins := driver2_wins st |}.

Definition set_driver2_wins (v : Z) (st : CompareVars) :=
  {| comparison_data := comparison_data st;
     driver1_points := driver1_points st; driver2_points := driver2_points st;
     driver1_wins := driver1_wins st; driver2_wins := v |}.

(** [session.results[session.results['Abbreviation'] == driver]] *)
Definition driver_result (session : Session) (driver : string)
  : list ResultRow :=
  filter (fun r => String.eqb (Abbreviation r) driver) (results session).

(** [df.empty] *)
Definition empty {A : Type} (df : list A) : bool :=
  match df with [] => true | _ :: _ => false end.

(** The body of the loop over [completed_rounds]. *)
Definition compare_round (fastf1 : Provider) (year : Z)
           (driver1 driver2 : string) (round_num : Z) : M CompareVars unit :=
  try_except
    (session <- call (get_session fastf1 year round_num) ;;
     let driver1_result := driver_result session driver1 in
     let driver2_result := driver_result session driver2 in
     (if negb (empty driver1_result) then
        st <- get ;;
        p <- call (item0 (map Points driver1_result)) ;;
        put (set_driver1_points (pts_add (driver1_points st) p) st) ;;
        pos <- call (item0 (map Position driver1_result)) ;;
        if position_is pos 1 then
          st <- get ;; put (set_driver1_wins (driver1_wins st + 1) st)
        else ret tt
      else ret tt) ;;
     (if negb (empty driver2_result) then
        st <- get ;;
        p <- call (item0 (map Points driver2_result)) ;;
        put (set_driver2_points (pts_add (driver2_points st) p) st) ;;
        pos <- call (item0 (map Position driver2_result)) ;;
        if position_is pos 1 then
          st <- get ;; put (set_driver2_wins (driver2_wins st + 1) st)
        else ret tt
      else ret tt))
    (fun _ => ret tt).

(** The dict appended to [comparison_data] for a year. *)
Definition season_record (year : Z) (driver1 driver2 : string)
           (st : CompareVars) : dict cell :=
  dict_literal
    [ ("Year"%string, IntCell year);
      ((driver1 ++ " Points")%string, PtsCell (driver1_points st));
      ((driver2 ++ " Points")%string, PtsCell (driver2_points st));
      ((driver1 ++ " Wins")%string, IntCell (driver1_wins st));
      ((driver2 ++ " Wins")%string, IntCell (driver2_wins st)) ].

(** The body of the loop over [years]; [now] is the reading of
    [datetime.now()] made in this iteration. *)
Definition compare_year (self : F1Dashboard) (fastf1 : Provider)
           (driver1 driver2 : string) (now : Z) (year : Z)
  : M CompareVars unit :=
  try_except
    (st <- get ;;
     put (set_driver2_wins 0 (set_driver1_wins 0
           (set_driver2_points pts_zero (set_driver1_points pts_zero st)))) ;;
     race_schedule <- get_race_schedule self fastf1 year ;;
     match race_schedule with
     | None => ret tt
     | Some race_schedule =>
         let completed := completed_rounds race_schedule now in
         for_each completed (compare_round fastf1 year driver1 driver2) ;;
         st <- get ;;
         put (set_comparison_data
                (comparison_data st ++ [season_record year driver1 driver2 st])
                st)
     end)
    (fun _ => ret tt).

(** The variables on entry: only [comparison_data] is bound; the four
    counters are assigned before they are first read. *)
Definition compare_init : CompareVars :=
  {| comparison_data := [];
     driver1_points := pts_zero; driver2_points := pts_zero;
     driver1_wins := 0; driver2_wins := 0 |}.

Definition compare_drivers_body (self : F1Dashboard) (fastf1 : Provider)
           (clock : nat -> Z) (driver1 driver2 : string) (years : list Z)
  : M CompareVars (list (dict cell)) :=
  for_each_from 0 years
    (fun i year => compare_year self fastf1 driver1 driver2 (clock i) year) ;;
  st <- get ;;
  ret (comparison_data st).

(** [clock i] is the reading of [datetime.now()] made while the [i]-th
    element of [years] is processed. *)
Definition compare_drivers (self : F1Dashboard) (fastf1 : Provider)
           (clock : nat -> Z) (driver1 driver2 : string) (years : list Z)
  : result (list (dict cell)) :=
  fst (compare_drivers_body self fastf1 clock driver1 driver2 years
         compare_init).

(** ** [F1Dashboard.export_full_season_details] *)

(** A dict appended to [all_results]; its keys are fixed. *)
Record ExportRow : Type := {
  Round : Z;
  Race : string;
  Driver : string;
  row_FullName : string;
  Team : string;
  row_Position : option Z;
  row_Points : Pts;
  row_Status : string;
  CumulativePoints : Pts
}.

Record ExportVars : Type := {
  all_results : list ExportRow;
  driver_points : dict Pts;
  team_points : dict Pts
}.

Definition set_all_results (v : list ExportRow) (st : ExportVars) :=
  {| all_results := v;
     driver_points := driver_points st; team_points := team_points st |}.

Definition set_driver_points (v : dict Pts) (st : ExportVars) :=
  {| all_results := all_results st;
     driver_points := v; team_points := team_points st |}.

Definition set_team_points (v : dict Pts) (st : ExportVars) :=
  {| all_results := all_results st;
     driver_points := driver_points st; team_points := v |}.

(** The body of the loop over [session.results.iterrows()]. *)
Definition export_row (round_num : Z) (race_name : string)
           (result : ResultRow) : M ExportVars unit :=
  let driver := Abbreviation result in
  let team := TeamName result in
  let points := Points result in
  st <- get ;;
  (if negb (dict_mem driver (driver_points st)) then
     put (set_driver_points (dict_set driver pts_zero (driver_points st)) st)
   else ret tt) ;;
  st <- get ;;
  p <- call (dict_getitem driver (driver_points st)) ;;
  put (set_driver_points
         (dict_set driver (pts_add p points) (driver_points st)) st) ;;
  st <- get ;;
  (if negb (dict_mem team (team_points st)) then
     put (set_team_points (dict_set team pts_zero (team_points st)) st)
   else ret tt) ;;
  st <- get ;;
  p <- call (dict_getitem team (team_points st)) ;;
  put (set_team_points
         (dict_set team (pts_add p points) (team_points st)) st) ;;
  st <- get ;;
  c <- call (dict_getitem driver (driver_points st)) ;;
  put (set_all_results
         (all_results st ++
          [ {| Round := round_num;
               Race := race_name;
               Driver := driver;
               row_FullName := FullName result;
               Team := team;
               row_Position := Position result;
               row_Points := points;
               row_Status := Status result;
               CumulativePoints := c |} ])
         st).

(** The body of the loop over [completed_rounds]. *)
Definition export_round (fastf1 : Provider) (year round_num : Z)
  : M ExportVars unit :=
  try_except
    (session <- call (get_session fastf1 year round_num) ;;
     let race_name := EventName session in
     for_each (results session) (export_row round_num race_name))
    (fun _ => ret tt).

Definition export_init : ExportVars :=
  {| all_results := []; driver_points := []; team_points := [] |}.

(** The three tables returned: every result row, the driver standings
    and the team standings. *)
Definition export_full_season_details_body (self : F1Dashboard)
           (fastf1 : Provider) (now year : Z)
  : M ExportVars
      (option (list ExportRow * list (string * Pts) * list (string * Pts))) :=
  race_schedule <- get_race_schedule self fastf1 year ;;
  match race_schedule with
  | None => ret None
  | Some race_schedule =>
      put export_init ;;
      let completed := completed_rounds race_schedule now in
      for_each completed (export_round fastf1 year) ;;
      st <- get ;;
      let results_df := all_results st in
      let driver_standings := sorted_reverse snd pts_ltb (driver_points st) in
      let team_standings := sorted_reverse snd pts_ltb (team_points st) in
      ret (Some (results_df, driver_standings, team_standings))
  end.

Definition export_full_season_details (self : F1Dashboard)
           (fastf1 : Provider) (now year : Z)
  : result
      (option (list ExportRow * list (string * Pts) * list (string * Pts))) :=
  fst (export_full_season_details_body self fastf1 now year export_init).

End Model.

Arguments ResultRow : clear implicits.
Arguments TieOrder : clear implicits.
Arguments Session : clear implicits.
Arguments Provider : clear implicits.
Arguments cell : clear implicits.
Arguments CompareVars : clear implicits.
Arguments ExportRow : clear implicits.
Arguments ExportVars : clear implicits.

(** ** What the loops compute

    Each method is a loop over the completed rounds whose body loads a
    session and folds its rows into the local variables.  The functions
    of this part state, without exceptions or mutable variables, what
    the loops leave in the variables; the lemmas further down prove
    that the methods compute exactly that. *)

Section Meaning.
Context {Pts : Type} `{Numeric Pts} `{TieOrder Pts}.

(** The year whose schedule [get_race_schedule] asks for:
    [year or self.current_year]. *)
Definition effective_year (self : F1Dashboard) (year : Z) : Z :=
  if year =? 0 then current_year self else year.

(** The sessions of the rounds whose fetch and load succeeded, in the
    order of the rounds. *)
Definition loaded_sessions (fastf1 : Provider Pts) (year : Z) (rounds : list Z)
  : list (Session Pts) :=
  flat_map (fun r => match get_session fastf1 year r with
                     | Ok session => [session]
                     | Raise _ => []
                     end) rounds.

(** The effect of one round on the variables [St], given the effect [f]
    of a loaded session: a round that fails to load leaves them alone. *)
Definition on_round {St : Type} (fastf1 : Provider Pts) (year : Z)
           (f : Z -> Session Pts -> St -> St) (st : St) (round_num : Z) : St :=
  match get_session fastf1 year round_num with
  | Ok session => f round_num session st
  | Raise _ => st
  end.

(** The sum of the counts of a tally over all its drivers. *)
Definition tally_sum (tally : list (string * Z)) : Z :=
  fold_right Z.add 0 (map snd tally).

Definition total (l : list Z) : Z := fold_right Z.add 0 l.

Definition len {A : Type} (l : list A) : Z := Z.of_nat (List.length l).

(** One more for [driver]. *)
Fixpoint bump (driver : string) (counts : dict Z) : dict Z :=
  match counts with
  | [] => [(driver, 1)]
  | (k, n) :: counts' =>
      if String.eqb driver k then (k, n + 1) :: counts'
      else (k, n) :: bump driver counts'
  end.

Definition bump_all (drivers : list string) (counts : dict Z) : dict Z :=
  fold_left (fun c d => bump d c) drivers counts.

Definition podium_session (_ : Z) (session : Session Pts) (counts : dict Z) :=
  bump_all (podium_drivers session) counts.

Definition dnf_session (_ : Z) (session : Session Pts) (counts : dict Z) :=
  bump_all (dnf_drivers session) counts.

(** The rows of a session whose status is not exactly [Finished]. *)
Definition not_finished (session : Session Pts) : list (ResultRow Pts) :=
  filter (fun r => negb (String.eqb (Status r) "Finished")) (results session).

(** The effect of a loaded session on one driver's two counters. *)
Definition add_result (rows : list (ResultRow Pts)) (pw : Pts * Z) : Pts * Z :=
  match rows with
  | [] => pw
  | r :: _ =>
      (pts_add (fst pw) (Points r),
       if position_is (Position r) 1 then snd pw + 1 else snd pw)
  end.

Definition compare_session (driver1 driver2 : string) (_ : Z)
           (session : Session Pts) (st : CompareVars Pts) : CompareVars Pts :=
  let pw1 := add_result (driver_result session driver1)
                        (driver1_points st, driver1_wins st) in
  let pw2 := add_result (driver_result session driver2)
                        (driver2_points st, driver2_wins st) in
  {| comparison_data := comparison_data st;
     driver1_points := fst pw1; driver2_points := fst pw2;
     driver1_wins := snd pw1; driver2_wins := snd pw2 |}.

(** The counters of one season: from zero, over the given rounds. *)
Definition season_totals (fastf1 : Provider Pts) (year : Z)
           (driver1 driver2 : string) (rounds : list Z) : CompareVars Pts :=
  fold_left (on_round fastf1 year (compare_session driver1 driver2))
            rounds compare_init.

(** The records one element of [years] adds to the comparison. *)
Definition year_records (self : F1Dashboard) (fastf1 : Provider Pts)
           (driver1 driver2 : string) (now year : Z) : list (dict (cell Pts)) :=
  match get_event_schedule fastf1 (effective_year self year) with
  | Raise _ => []
  | Ok race_schedule =>
      [ season_record year driver1 driver2
          (season_totals fastf1 year driver1 driver2
             (completed_rounds race_schedule now)) ]
  end.

(** [enumerate(l, start)] *)
Fixpoint enumerate {A : Type} (start : nat) (l : list A) : list (nat * A) :=
  match l with
  | [] => []
  | x :: l' => (start, x) :: enumerate (S start) l'
  end.

(** The points of [driver] added up in the order of the rows, from [0]. *)
Definition driver_sum (driver : string) (rows : list (ResultRow Pts)) : Pts :=
  fold_left pts_add
    (map Points
         (filter (fun r => String.eqb (Abbreviation r) driver) rows))
    pts_zero.

(** [d[k] = d.get(k, 0) + p] *)
Definition add_points (k : string) (p : Pts) (d : dict Pts) : dict Pts :=
  match dict_get k d with
  | Some q => dict_set k (pts_add q p) d
  | None => dict_set k (pts_add pts_zero p) d
  end.

Definition export_row_step (round_num : Z) (race_name : string)
           (st : ExportVars Pts) (result : ResultRow Pts) : ExportVars Pts :=
  let dp := add_points (Abbreviation result) (Points result)
                       (driver_points st) in
  let tp := add_points (TeamName result) (Points result) (team_points st) in
  {| all_results :=
       all_results st ++
       [ {| Round := round_num;
            Race := race_name;
            Driver := Abbreviation result;
            row_FullName := FullName result;
            Team := TeamName result;
            row_Position := Position result;
            row_Points := Points result;
            row_Status := Status result;
            CumulativePoints :=
              match dict_get (Abbreviation result) dp with
              | Some c => c
              | None => pts_zero
              end |} ];
     driver_points := dp;
     team_points := tp |}.

Definition export_session (round_num : Z) (session : Session Pts)
           (st : ExportVars Pts) : ExportVars Pts :=
  fold_left (export_row_step round_num (EventName session))
            (results session) st.

(** The result rows of all the given sessions, in processing order. *)
Definition season_rows (sessions : list (Session Pts))
  : list (ResultRow Pts) :=
  flat_map results sessions.

(** What a loop over the completed rounds of a season leaves in the
    variables, if the rounds of the season can be listed at all. *)
Definition season_loop {St : Type} (self : F1Dashboard)
           (fastf1 : Provider Pts) (f : Z -> Session Pts -> St -> St)
           (now year : Z) (st : St) : option St :=
  match get_event_schedule fastf1 (effective_year self year) with
  | Ok race_schedule =>
      Some (fold_left (on_round fastf1 year f)
                      (completed_rounds race_schedule now) st)
  | Raise _ => None
  end.

(** A loop body goes through every round it is given: whatever rounds
    fail to load, the loop ends normally, and each round in turn has had
    its effect, which is none for a round that failed. *)
Definition runs_every_round {St : Type} (fastf1 : Provider Pts) (year : Z)
           (body : Z -> M St unit) (f : Z -> Session Pts -> St -> St)
  : Prop :=
  forall (rounds : list Z) (st : St),
    for_each rounds body st =
    (Ok tt, fold_left (on_round fastf1 year f) rounds st).

(** The years of a list whose rounds the provider can list. *)
Definition listed_years (self : F1Dashboard) (fastf1 : Provider Pts)
           (years : list Z) : list Z :=
  filter (fun year =>
            match get_event_schedule fastf1 (effective_year self year) with
            | Ok _ => true
            | Raise _ => false
            end) years.

(** How a loaded round may change one driver's two counters, from
    [points] and [wins] to [points'] and [wins']: not at all if no row
    carries the driver's abbreviation, and one more win exactly when the
    first row that carries it has position 1. *)
Definition lookup_contribution (session : Session Pts) (driver : string)
           (points : Pts) (wins : Z) (points' : Pts) (wins' : Z) : Prop :=
  ((forall r, In r (results session) -> Abbreviation r <> driver) ->
   points' = points /\ wins' = wins) /\
  (forall row, hd_error (driver_result session driver) = Some row ->
               points' = pts_add points (Points row)) /\
  (wins' = wins + 1 \/ wins' = wins) /\
  (wins' = wins + 1 <->
   exists row, hd_error (driver_result session driver) = Some row /\
               Position row = Some 1).

(** The result rows of the loaded rounds, each with its round number,
    in processing order. *)
Definition season_log (fastf1 : Provider Pts) (year : Z) (rounds : list Z)
  : list (Z * ResultRow Pts) :=
  flat_map (fun r => match get_session fastf1 year r with
                     | Ok session => map (pair r) (results session)
                     | Raise _ => []
                     end) rounds.

Definition has_driver (driver : string) (rows : list (ResultRow Pts)) : bool :=
  existsb (fun r => String.eqb (Abbreviation r) driver) rows.

(** What the variables of the season export hold once the rows of [log]
    have been processed. *)
Definition export_invariant (log : list (Z * ResultRow Pts))
           (st : ExportVars Pts) : Prop :=
  let rows := map snd log in
  (forall d, dict_get d (driver_points st) =
             if has_driver d rows then Some (driver_sum d rows) else None) /\
  NoDup (map fst (driver_points st)) /\
  map Round (all_results st) = map fst log /\
  map Driver (all_results st) = map Abbreviation rows /\
  map row_Points (all_results st) = map Points rows /\
  (forall n row, nth_error (all_results st) n = Some row ->
                 CumulativePoints row =
                 driver_sum (Driver row) (firstn (S n) rows)).

End Meaning.

(** ** A small provider to run the methods on *)

(** A sort that leaves tied rows in the provider's order. *)
#[export] Instance provider_order : TieOrder Z := {|
  tie_order := fun rows => rows;
  tie_order_perm := fun rows => Permutation_refl rows
|}.

Module Sample.

Definition row (abbr team : string) (pos : option Z) (status : string)
           (pts : Z) : ResultRow Z :=
  {| Abbreviation := abbr; FullName := abbr; TeamName := team;
     Position := pos; Points := pts; Status := status |}.

Definition bahrain : Session Z :=
  {| EventName := "Bahrain Grand Prix";
     results := [ row "VER" "Red Bull" (Some 1) "Finished" 25;
                  row "HAM" "Mercedes" (Some 2) "Finished" 18;
                  row "PER" "Red Bull" (Some 3) "Finished" 15;
                  row "ALO" "Alpine" (Some 9) "Finished" 2 ] |}.

Definition imola : Session Z :=
  {| EventName := "Emilia Romagna Grand Prix";
     results := [ row "VER" "Red Bull" (Some 1) "Finished" 25;
                  row "HAM" "Mercedes" None "DNF" 0 ] |}.

Definition monza : Session Z :=
  {| EventName := "Italian Grand Prix";
     results := [ row "ALO" "Alpine" (Some 1) "Finished" 25 ] |}.

Definition spa : Session Z :=
  {| EventName := "Belgian Grand Prix";
     results := [ row "HAM" "Mercedes" (Some 1) "Finished" 25;
                  row "VER" "Red Bull" (Some 2) "Finished" 18;
                  row "PER" "Red Bull" None "Retired" 0 ] |}.

Definition unavailable {A : Type} : result A :=
  Raise (Exception "no data").

Definition calendar_2021 : list Event :=
  [ {| RoundNumber := 1; EventDate := 100 |};
    {| RoundNumber := 2; EventDate := 200 |};
    {| RoundNumber := 3; EventDate := 900 |} ].

Definition calendar_2021_without_round2 : list Event :=
  [ {| RoundNumber := 1; EventDate := 100 |};
    {| RoundNumber := 3; EventDate := 900 |} ].

Definition calendar_2022 : list Event :=
  [ {| RoundNumber := 1; EventDate := 100 |} ].

Definition calendar_2023 : list Event :=
  [ {| RoundNumber := 1; EventDate := 100 |};
    {| RoundNumber := 2; EventDate := 200 |} ].

Definition schedule (year : Z) : result (list Event) :=
  if year =? 2021 then Ok calendar_2021
  else if year =? 2022 then Ok calendar_2022
  else if year =? 2023 then Ok calendar_2023
  else unavailable.

Definition session (year round_num : Z) : result (Session Z) :=
  if (year =? 2021) && (round_num =? 1) then Ok bahrain
  else if (year =? 2022) && (round_num =? 1) then Ok imola
  else if (year =? 2023) && (round_num =? 1) then Ok bahrain
  else if (year =? 2023) && (round_num =? 2) then Ok spa
  else unavailable.

(** Round 2 of 2021 is on the calendar and cannot be loaded; round 3 of
    2021 has not been held at time [now]; no calendar is to be had for
    any year but 2021, 2022 and 2023. *)
Definition fastf1 : Provider Z :=
  {| get_event_schedule := schedule; get_session := session |}.

(** The same provider with round 2 of 2021 taken off the calendar. *)
Definition fastf1_without_round2 : Provider Z :=
  {| get_event_schedule := fun year =>
       if year =? 2021 then Ok calendar_2021_without_round2
       else schedule year;
     get_session := session |}.

(** The same provider, except that it would have data for round 3. *)
Definition fastf1_round3_known : Provider Z :=
  {| get_event_schedule := schedule;
     get_session := fun year round_num =>
       if (year =? 2021) && (round_num =? 3) then Ok monza
       else session year round_num |}.

Definition dashboard : F1Dashboard := {| current_year := 2024 |}.

Definition now : Z := 500.

End Sample.

(** ** The rest of the dashboard: whole sessions *)

Section Races.
Context {Pts : Type} `{Numeric Pts} `{TieOrder Pts}.

(** A row of [session.laps]; [LapTime] is a time span. *)
Record Lap : Type := {
  lap_Driver : string;
  lap_Team : string;
  LapTime : Z;
  LapNumber : Z;
  Compound : string
}.

(** A value held by an event or by the table of races. *)
Inductive info : Type :=
| InfoInt (z : Z)
| InfoStr (s : string)
| InfoDate (t : Z).

(** A loaded race session with everything the dashboard reads from it:
    the event name and the results ([race]), the other fields of
    [session.event] by their labels ([session.event[label]] raises
    [KeyError] when the event has no such label), and
    [session.laps.pick_fastest()], which may raise. *)
Record RaceSession : Type := {
  race : Session Pts;
  event : dict info;
  pick_fastest : result Lap
}.

(** [fastf1] with whole sessions. *)
Record RaceProvider : Type := {
  race_schedule_of : Z -> result (list Event);
  race_session_of : Z -> Z -> result RaceSession
}.

(** The part of the provider the season aggregations read. *)
Definition provider_of (fastf1 : RaceProvider) : Provider Pts :=
  {| get_event_schedule := race_schedule_of fastf1;
     get_session := fun year round_num =>
       match race_session_of fastf1 year round_num with
       | Ok session => Ok (race session)
       | Raise e => Raise e
       end |}.

(** ** [F1Dashboard.get_race_results] and [get_fastest_lap] *)

Definition get_race_results {St : Type} (fastf1 : RaceProvider)
           (year race_round : Z) : M St (option RaceSession) :=
  try_except
    (session <- call (race_session_of fastf1 year race_round) ;;
     ret (Some session))
    (fun _ => ret None).

Definition get_fastest_lap_body (fastf1 : RaceProvider)
           (year race_round : Z) : M unit (option Lap) :=
  session <- get_race_results fastf1 year race_round ;;
  match session with
  | Some session =>
      try_except
        (fastest <- call (pick_fastest session) ;;
         ret (Some fastest))
        (fun _ => ret None)
  | None => ret None
  end.

Definition get_fastest_lap (fastf1 : RaceProvider) (year race_round : Z)
  : result (option Lap) :=
  fst (get_fastest_lap_body fastf1 year race_round tt).

(** ** [F1Dashboard.display_race_schedule] *)

(** [race_schedule[race_schedule['EventDate'] > pd.Timestamp(now)]
    .head(1)], the table shown as the next upcoming race. *)
Definition upcoming (race_schedule : list Event) (now : Z) : list Event :=
  firstn 1 (filter (fun ev => now <? EventDate ev) race_schedule).

(** The method returns the schedule it displays, or nothing. *)
Definition display_race_schedule (self : F1Dashboard)
           (fastf1 : Provider Pts) (year : Z) : result (option (list Event)) :=
  fst ((race_schedule <- get_race_schedule self fastf1 year ;;
        match race_schedule with
        | Some race_schedule => ret (Some race_schedule)
        | None => ret None
        end) tt).

(** ** [F1Dashboard.export_all_time_race_data] *)

(** The local variables of the method that outlive an iteration. *)
Record AllTimeVars : Type := {
  all_races : list (dict info);
  race_info : dict info
}.

Definition set_all_races (v : list (dict info)) (st : AllTimeVars) :=
  {| all_races := v; race_info := race_info st |}.

Definition set_race_info (v : dict info) (st : AllTimeVars) :=
  {| all_races := all_races st; race_info := v |}.

(** [race_info[k] = v] *)
Definition set_info (k : string) (v : info) : M AllTimeVars unit :=
  st <- get ;;
  put (set_race_info (dict_set k v (race_info st)) st).

(** [range(lo, hi)] *)
Definition range (lo hi : Z) : list Z :=
  map (fun i => lo + Z.of_nat i) (seq 0 (Z.to_nat (hi - lo))).

(** The body of the loop over [completed_rounds]; [str] is Python's
    [str] on a time span. *)
Definition all_time_round (fastf1 : RaceProvider) (str : Z -> string)
           (year round_num : Z) : M AllTimeVars unit :=
  try_except
    (session <- call (race_session_of fastf1 year round_num) ;;
     date <- call (dict_getitem "EventDate" (event session)) ;;
     circuit <- call (dict_getitem "CircuitName" (event session)) ;;
     country <- call (dict_getitem "Country" (event session)) ;;
     st <- get ;;
     put (set_race_info
            (dict_literal
               [ ("Year"%string, InfoInt year);
                 ("Round"%string, InfoInt round_num);
                 ("Name"%string, InfoStr (EventName (race session)));
                 ("Date"%string, date);
                 ("Circuit"%string, circuit);
                 ("Country"%string, country) ])
            st) ;;
     winner <- call (item0 (sort_values_Position (results (race session)))) ;;
     set_info "Winner" (InfoStr (FullName winner)) ;;
     set_info "WinningTeam" (InfoStr (TeamName winner)) ;;
     try_except
       (fastest <- call (pick_fastest session) ;;
        set_info "FastestLapDriver" (InfoStr (lap_Driver fastest)) ;;
        set_info "FastestLapTime" (InfoStr (str (LapTime fastest))))
       (fun _ =>
          set_info "FastestLapDriver" (InfoStr "N/A") ;;
          set_info "FastestLapTime" (InfoStr "N/A")) ;;
     st <- get ;;
     put (set_all_races (all_races st ++ [race_info st]) st))
    (fun _ => ret tt).

(** The body of the loop over the years; [now] is the reading of
    [datetime.now()] made in this iteration. *)
Definition all_time_year (self : F1Dashboard) (fastf1 : RaceProvider)
           (str : Z -> string) (now year : Z) : M AllTimeVars unit :=
  try_except
    (race_schedule <- get_race_schedule self (provider_of fastf1) year ;;
     match race_schedule with
     | None => ret tt
     | Some race_schedule =>
         let completed := completed_rounds race_schedule now in
         for_each completed (all_time_round fastf1 str year)
     end)
    (fun _ => ret tt).

Definition all_time_init : AllTimeVars :=
  {| all_races := []; race_info := [] |}.

(** [end_year or self.current_year], [end_year] defaulting to [None]. *)
Definition last_year (self : F1Dashboard) (end_year : option Z) : Z :=
  match end_year with
  | Some e => if e =? 0 then current_year self else e
  | None => current_year self
  end.

Definition export_all_time_race_data_body (self : F1Dashboard)
           (fastf1 : RaceProvider) (str : Z -> string) (clock : nat -> Z)
           (start_year : Z) (end_year : option Z)
  : M AllTimeVars (list (dict info)) :=
  let end_year := last_year self end_year in
  for_each_from 0 (range start_year (end_year + 1))
    (fun i year => all_time_year self fastf1 str (clock i) year) ;;
  st <- get ;;
  ret (all_races st).

(** [clock i] is the reading of [datetime.now()] made in the [i]-th
    iteration of the loop over the years. *)
Definition export_all_time_race_data (self : F1Dashboard)
           (fastf1 : RaceProvider) (str : Z -> string) (clock : nat -> Z)
           (start_year : Z) (end_year : option Z)
  : result (list (dict info)) :=
  fst (export_all_time_race_data_body self fastf1 str clock start_year
         end_year all_time_init).

End Races.

Arguments RaceSession : clear implicits.
Arguments RaceProvider : clear implicits.

(** ** [get_valid_input] *)

Section Input.

(** Python's [int] on a string: [None] when it raises [ValueError]. *)
Variable int : string -> option Z.

(** What the function returns: the text as typed, or a number. *)
Inductive answer : Type :=
| Text (s : string)
| Number (n : Z).

(** [stdin] holds the lines still to be read; [input] raises [EOFError]
    when there is none, and no handler of the function catches it.  Each
    turn of the [while True] loop reads one line, so the loop is a
    recursion on [stdin].  The result comes with the lines left. *)
Fixpoint get_valid_input (valid_range : option (Z * Z)) (stdin : list string)
  : result answer * list string :=
  match stdin with
  | [] => (Raise (Exception "EOFError"), [])
  | value :: stdin' =>
      match valid_range with
      | None => (Ok (Text value), stdin')
      | Some (lo, hi) =>
          match int value with
          | Some value =>
              if (lo <=? value) && (value <=? hi)
              then (Ok (Number value), stdin')
              else get_valid_input valid_range stdin'
          | None => get_valid_input valid_range stdin'
          end
      end
  end.

End Input.

(** ** What the rest computes *)

Section MoreMeaning.
Context {Pts : Type} `{Numeric Pts} `{TieOrder Pts}.

(** How often [driver] occurs in a list of abbreviations. *)
Definition occurrences (driver : string) (drivers : list string) : Z :=
  len (filter (String.eqb driver) drivers).

(** A tally in non-increasing order of count. *)
Definition descending (tally : list (string * Z)) : Prop :=
  StronglySorted (fun a b => snd b <= snd a) tally.

(** The points of the rows whose [key] column is [k], added up in the
    order of the rows, from [0]; and whether there is such a row. *)
Definition key_sum (key : ResultRow Pts -> string) (k : string)
           (rows : list (ResultRow Pts)) : Pts :=
  fold_left pts_add
    (map Points (filter (fun r => String.eqb (key r) k) rows))
    pts_zero.

Definition has_key (key : ResultRow Pts -> string) (k : string)
           (rows : list (ResultRow Pts)) : bool :=
  existsb (fun r => String.eqb (key r) k) rows.

(** A points table as the season export keeps it, after [rows]. *)
Definition points_table (key : ResultRow Pts -> string)
           (rows : list (ResultRow Pts)) (table : dict Pts) : Prop :=
  NoDup (map fst table) /\
  forall k, dict_get k table =
            if has_key key k rows then Some (key_sum key k rows) else None.

(** An exported row without its running total. *)
Definition forget_cumulative (row : ExportRow Pts) : ExportRow Pts :=
  {| Round := Round row;
     Race := Race row;
     Driver := Driver row;
     row_FullName := row_FullName row;
     Team := Team row;
     row_Position := row_Position row;
     row_Points := row_Points row;
     row_Status := row_Status row;
     CumulativePoints := pts_zero |}.

(** The provider's row as the export copies it. *)
Definition copied_row (round_num : Z) (race_name : string)
           (x : ResultRow Pts) : ExportRow Pts :=
  {| Round := round_num;
     Race := race_name;
     Driver := Abbreviation x;
     row_FullName := FullName x;
     Team := TeamName x;
     row_Position := Position x;
     row_Points := Points x;
     row_Status := Status x;
     CumulativePoints := pts_zero |}.

Definition copied_rows (fastf1 : Provider Pts) (year : Z) (rounds : list Z)
  : list (ExportRow Pts) :=
  flat_map (fun r => match get_session fastf1 year r with
                     | Ok session =>
                         map (copied_row r (EventName session))
                             (results session)
                     | Raise _ => []
                     end) rounds.

(** The two fastest-lap cells of a race. *)
Definition fastest_cells (str : Z -> string) (session : RaceSession Pts)
  : string * string :=
  match pick_fastest session with
  | Ok fastest => (lap_Driver fastest, str (LapTime fastest))
  | Raise _ => ("N/A"%string, "N/A"%string)
  end.

(** The three fields of the event the table of races copies, when the
    event has all three labels. *)
Definition event_fields (session : RaceSession Pts)
  : option (info * info * info) :=
  match dict_get "EventDate" (event session),
        dict_get "CircuitName" (event session),
        dict_get "Country" (event session) with
  | Some date, Some circuit, Some country => Some (date, circuit, country)
  | _, _, _ => None
  end.

(** The row of the table of races for a session, the fields of its
    event and its winner. *)
Definition race_info_of (str : Z -> string) (year round_num : Z)
           (session : RaceSession Pts) (fields : info * info * info)
           (winner : ResultRow Pts) : dict info :=
  [ ("Year"%string, InfoInt year);
    ("Round"%string, InfoInt round_num);
    ("Name"%string, InfoStr (EventName (race session)));
    ("Date"%string, fst (fst fields));
    ("Circuit"%string, snd (fst fields));
    ("Country"%string, snd fields);
    ("Winner"%string, InfoStr (FullName winner));
    ("WinningTeam"%string, InfoStr (TeamName winner));
    ("FastestLapDriver"%string, InfoStr (fst (fastest_cells str session)));
    ("FastestLapTime"%string, InfoStr (snd (fastest_cells str session))) ].

(** The rows one round adds to the table of races. *)
Definition round_races (fastf1 : RaceProvider Pts) (str : Z -> string)
           (year round_num : Z) : list (dict info) :=
  match race_session_of fastf1 year round_num with
  | Ok session =>
      match event_fields session,
            sort_values_Position (results (race session)) with
      | Some fields, winner :: _ =>
          [race_info_of str year round_num session fields winner]
      | _, _ => []
      end
  | Raise _ => []
  end.

(** The rows one year adds to the table of races. *)
Definition year_races (self : F1Dashboard) (fastf1 : RaceProvider Pts)
           (str : Z -> string) (now year : Z) : list (dict info) :=
  match race_schedule_of fastf1 (effective_year self year) with
  | Ok race_schedule =>
      flat_map (round_races fastf1 str year)
               (completed_rounds race_schedule now)
  | Raise _ => []
  end.

(** A round that gets a row: it loads, its event has the three labels
    and it has at least one result row. *)
Definition gets_a_row (fastf1 : RaceProvider Pts) (year round_num : Z)
  : bool :=
  match race_session_of fastf1 year round_num with
  | Ok session =>
      match event_fields session with
      | Some _ => negb (empty (results (race session)))
      | None => false
      end
  | Raise _ => false
  end.

(** The years and rounds that get a row in the table of races. *)
Definition recorded_rounds (self : F1Dashboard) (fastf1 : RaceProvider Pts)
           (clock : nat -> Z) (years : list (nat * Z)) : list (Z * Z) :=
  flat_map
    (fun iy =>
       match race_schedule_of fastf1 (effective_year self (snd iy)) with
       | Ok race_schedule =>
           map (pair (snd iy))
               (filter (gets_a_row fastf1 (snd iy))
                       (completed_rounds race_schedule (clock (fst iy))))
       | Raise _ => []
       end) years.

(** The row [compare_drivers] reads for [driver] in each of the given
    sessions: the first one with the driver's abbreviation, if any. *)
Definition first_rows (driver : string) (sessions : list (Session Pts))
  : list (ResultRow Pts) :=
  flat_map (fun session => firstn 1 (driver_result session driver)) sessions.

(** The points of the given rows added up from [0], and the number of
    them that have position 1. *)
Definition points_of (rows : list (ResultRow Pts)) : Pts :=
  fold_left pts_add (map Points rows) pts_zero.

Definition wins_of (rows : list (ResultRow Pts)) : Z :=
  len (filter (fun r => position_is (Position r) 1) rows).

(** The counters of a season in terms of the rows of its sessions. *)
Definition counters_of (driver1 driver2 : string)
           (sessions : list (Session Pts)) : CompareVars Pts :=
  {| comparison_data := [];
     driver1_points := points_of (first_rows driver1 sessions);
     driver2_points := points_of (first_rows driver2 sessions);
     driver1_wins := wins_of (first_rows driver1 sessions);
     driver2_wins := wins_of (first_rows driver2 sessions) |}.

(** A line [get_valid_input] reads and does not accept. *)
Definition rejected (int : string -> option Z) (lo hi : Z) (line : string)
  : Prop :=
  match int line with
  | Some v => ~ (lo <= v <= hi)
  | None => True
  end.

End MoreMeaning.

(** ** Whole sessions to run the rest on *)

Module SampleRaces.

Definition lap : Lap :=
  {| lap_Driver := "HAM"; lap_Team := "Mercedes"; LapTime := 90000;
     LapNumber := 44; Compound := "SOFT" |}.

Definition event_of (date : Z) (circuit country : string) : dict info :=
  [ ("EventDate"%string, InfoDate date);
    ("CircuitName"%string, InfoStr circuit);
    ("Country"%string, InfoStr country) ].

Definition bahrain : RaceSession Z :=
  {| race := Sample.bahrain;
     event := event_of 100 "Bahrain International Circuit" "Bahrain";
     pick_fastest := Ok lap |}.

(** Results without lap data. *)
Definition spa : RaceSession Z :=
  {| race := Sample.spa;
     event := event_of 200 "Spa-Francorchamps" "Belgium";
     pick_fastest := Sample.unavailable |}.

(** A session that loads with no result rows. *)
Definition void : RaceSession Z :=
  {| race := {| EventName := "Void Grand Prix"; results := [] |};
     event := event_of 300 "Nowhere" "None";
     pick_fastest := Sample.unavailable |}.

(** An event without the label [CircuitName]. *)
Definition plain (session : RaceSession Z) : RaceSession Z :=
  {| race := race session;
     event := [ ("EventDate"%string, InfoDate 100);
                ("Country"%string, InfoStr "Bahrain") ];
     pick_fastest := pick_fastest session |}.

Definition calendar : list Event :=
  [ {| RoundNumber := 1; EventDate := 100 |};
    {| RoundNumber := 2; EventDate := 200 |};
    {| RoundNumber := 3; EventDate := 300 |};
    {| RoundNumber := 4; EventDate := 500 |};
    {| RoundNumber := 5; EventDate := 900 |} ].

(** 2023 has five rounds: two load with results, the third loads with
    none, the fourth is dated [Sample.now] and the fifth later. *)
Definition race_session_of_fastf1 (year round_num : Z)
  : result (RaceSession Z) :=
  if negb (year =? 2023) then Sample.unavailable
  else if round_num =? 1 then Ok bahrain
  else if round_num =? 2 then Ok spa
  else if round_num =? 3 then Ok void
  else Sample.unavailable.

Definition fastf1 : RaceProvider Z :=
  {| race_schedule_of := fun year =>
       if year =? 2023 then Ok calendar else Sample.unavailable;
     race_session_of := race_session_of_fastf1 |}.

(** The same provider with events that have no label [CircuitName]. *)
Definition fastf1_plain : RaceProvider Z :=
  {| race_schedule_of := race_schedule_of fastf1;
     race_session_of := fun year round_num =>
       match race_session_of fastf1 year round_num with
       | Ok session => Ok (plain session)
       | Raise e => Raise e
       end |}.

Definition str (t : Z) : string := "0 days 00:01:30".

(** Python's [int] on the few lines used below. *)
Definition int (line : string) : option Z :=
  if String.eqb line "7" then Some 7
  else if String.eqb line "3" then Some 3
  else if String.eqb line "2023" then Some 2023
  else None.

End SampleRaces.

(** ** The blocks run to their end *)

Section Properties.
Context {Pts : Type} `{Numeric Pts} `{TieOrder Pts}.

Lemma for_each_steps {St A : Type} (body : A -> M St unit)
      (step : St -> A -> St) :
  (forall x s, body x s = (Ok tt, step s x)) ->
  forall l s, for_each l body s = (Ok tt, fold_left step l s).
Proof.
  intros Hbody l. induction l as [|x l IH]; intros s; simpl.
  - reflexivity.
  - unfold bind. rewrite Hbody. apply IH.
Qed.

Lemma dict_set_bump (driver : string) (counts : dict Z) :
  match dict_get driver counts with
  | Some n => dict_set driver (n + 1) counts
  | None => dict_set driver 1 counts
  end = bump driver counts.
Proof.
  induction counts as [|[k n] counts IH]; simpl.
  - reflexivity.
  - destruct (String.eqb driver k); [reflexivity|].
    destruct (dict_get driver counts); simpl; rewrite <- IH; reflexivity.
Qed.

Lemma count_driver_run (driver : string) (counts : dict Z) :
  count_driver driver counts = (Ok tt, bump driver counts).
Proof.
  unfold count_driver, bind, get, dict_mem, call, dict_getitem, put.
  rewrite <- dict_set_bump.
  destruct (dict_get driver counts); reflexivity.
Qed.

Lemma count_all_run (drivers : list string) (counts : dict Z) :
  for_each drivers count_driver counts = (Ok tt, bump_all drivers counts).
Proof.
  apply (for_each_steps count_driver (fun c d => bump d c)).
  intros x s. apply count_driver_run.
Qed.

Lemma get_race_schedule_run {St : Type} (self : F1Dashboard)
      (fastf1 : Provider Pts) (year : Z) (s : St) :
  get_race_schedule self fastf1 year s =
  (Ok match get_event_schedule fastf1 (effective_year self year) with
      | Ok race_schedule => Some race_schedule
      | Raise _ => None
      end, s).
Proof.
  unfold get_race_schedule, try_except, bind, call, ret, effective_year.
  destruct (get_event_schedule fastf1 _); reflexivity.
Qed.

Lemma podium_round_run (fastf1 : Provider Pts) (year round_num : Z)
      (counts : dict Z) :
  podium_round fastf1 year round_num counts =
  (Ok tt, on_round fastf1 year podium_session counts round_num).
Proof.
  unfold podium_round, on_round, try_except, bind, call, podium_session.
  destruct (get_session fastf1 year round_num); [|reflexivity].
  rewrite count_all_run. reflexivity.
Qed.

Lemma dnf_round_run (fastf1 : Provider Pts) (year round_num : Z)
      (counts : dict Z) :
  dnf_round fastf1 year round_num counts =
  (Ok tt, on_round fastf1 year dnf_session counts round_num).
Proof.
  unfold dnf_round, on_round, try_except, bind, call, dnf_session.
  destruct (get_session fastf1 year round_num); [|reflexivity].
  rewrite count_all_run. reflexivity.
Qed.

Lemma count_podiums_run (self : F1Dashboard) (fastf1 : Provider Pts)
      (now year : Z) :
  count_podiums self fastf1 now year =
  Ok match get_event_schedule fastf1 (effective_year self year) with
     | Ok race_schedule =>
         Some (sorted_reverse snd Z.ltb
                 (fold_left (on_round fastf1 year podium_session)
                            (completed_rounds race_schedule now) []))
     | Raise _ => None
     end.
Proof.
  unfold count_podiums, count_podiums_body, bind.
  rewrite get_race_schedule_run.
  destruct (get_event_schedule fastf1 _); [|reflexivity].
  rewrite (for_each_steps _ _ (podium_round_run fastf1 year)).
  reflexivity.
Qed.

Lemma count_dnfs_run (self : F1Dashboard) (fastf1 : Provider Pts)
      (now year : Z) :
  count_dnfs self fastf1 now year =
  Ok match get_event_schedule fastf1 (effective_year self year) with
     | Ok race_schedule =>
         Some (sorted_reverse snd Z.ltb
                 (fold_left (on_round fastf1 year dnf_session)
                            (completed_rounds race_schedule now) []))
     | Raise _ => None
     end.
Proof.
  unfold count_dnfs, count_dnfs_body, bind.
  rewrite get_race_schedule_run.
  destruct (get_event_schedule fastf1 _); [|reflexivity].
  rewrite (for_each_steps _ _ (dnf_round_run fastf1 year)).
  reflexivity.
Qed.

Lemma compare_round_run (fastf1 : Provider Pts) (year : Z)
      (driver1 driver2 : string) (round_num : Z) (st : CompareVars Pts) :
  compare_round fastf1 year driver1 driver2 round_num st =
  (Ok tt,
   on_round fastf1 year (compare_session driver1 driver2) st round_num).
Proof.
  unfold compare_round, on_round, try_except, bind, call, compare_session.
  destruct (get_session fastf1 year round_num) as [session|e];
    [|reflexivity].
  destruct st as [data p1 p2 w1 w2].
  destruct (driver_result session driver1) as [|r1 rows1];
    destruct (driver_result session driver2) as [|r2 rows2]; simpl;
    try destruct (position_is (Position r1) 1);
    try destruct (position_is (Position r2) 1); reflexivity.
Qed.

Lemma compare_session_frame (driver1 driver2 : string) (round_num : Z)
      (session : Session Pts) (data : list (dict (cell Pts)))
      (st : CompareVars Pts) :
  compare_session driver1 driver2 round_num session
                  (set_comparison_data data st) =
  set_comparison_data data
    (compare_session driver1 driver2 round_num session st).
Proof. reflexivity. Qed.

Lemma compare_rounds_frame (fastf1 : Provider Pts) (year : Z)
      (driver1 driver2 : string) (data : list (dict (cell Pts)))
      (rounds : list Z) (st : CompareVars Pts) :
  fold_left (on_round fastf1 year (compare_session driver1 driver2)) rounds
            (set_comparison_data data st) =
  set_comparison_data data
    (fold_left (on_round fastf1 year (compare_session driver1 driver2))
               rounds st).
Proof.
  revert st. induction rounds as [|r rounds IH]; intros st; simpl.
  - reflexivity.
  - rewrite <- IH. f_equal. unfold on_round.
    destruct (get_session fastf1 year r); reflexivity.
Qed.

Lemma compare_year_run (self : F1Dashboard) (fastf1 : Provider Pts)
      (driver1 driver2 : string) (now year : Z) (st : CompareVars Pts) :
  exists st',
    compare_year self fastf1 driver1 driver2 now year st = (Ok tt, st') /\
    comparison_data st' =
    comparison_data st ++ year_records self fastf1 driver1 driver2 now year.
Proof.
  unfold compare_year, try_except, bind, get, put, year_records.
  rewrite get_race_schedule_run.
  destruct (get_event_schedule fastf1 _) as [race_schedule|e].
  - rewrite (for_each_steps _ _
               (compare_round_run fastf1 year driver1 driver2)).
    eexists; split; [reflexivity|]. simpl.
    change (set_driver2_wins 0 (set_driver1_wins 0
              (set_driver2_points pts_zero
                 (set_driver1_points pts_zero st))))
      with (set_comparison_data (comparison_data st) compare_init).
    rewrite compare_rounds_frame. reflexivity.
  - eexists; split; [reflexivity|]. simpl. symmetry. apply app_nil_r.
Qed.

Lemma compare_years_run (self : F1Dashboard) (fastf1 : Provider Pts)
      (clock : nat -> Z) (driver1 driver2 : string) (years : list Z) :
  forall (start : nat) (st : CompareVars Pts),
  exists st',
    for_each_from start years
      (fun i year => compare_year self fastf1 driver1 driver2 (clock i) year)
      st = (Ok tt, st') /\
    comparison_data st' =
    comparison_data st ++
    List.concat (map (fun iy => year_records self fastf1 driver1 driver2
                             (clock (fst iy)) (snd iy))
                (enumerate start years)).
Proof.
  induction years as [|year years IH]; intros start st; simpl.
  - eexists; split; [reflexivity|]. symmetry. apply app_nil_r.
  - unfold bind.
    destruct (compare_year_run self fastf1 driver1 driver2 (clock start)
                               year st) as (st1 & Hrun & Hdata).
    rewrite Hrun.
    destruct (IH (S start) st1) as (st2 & Hrun2 & Hdata2).
    exists st2. split; [exact Hrun2|].
    rewrite Hdata2, Hdata, <- app_assoc. reflexivity.
Qed.

Lemma compare_drivers_run (self : F1Dashboard) (fastf1 : Provider Pts)
      (clock : nat -> Z) (driver1 driver2 : string) (years : list Z) :
  compare_drivers self fastf1 clock driver1 driver2 years =
  Ok (List.concat (map (fun iy => year_records self fastf1 driver1 driver2
                               (clock (fst iy)) (snd iy))
                  (enumerate 0 years))).
Proof.
  unfold compare_drivers, compare_drivers_body, bind.
  destruct (compare_years_run self fastf1 clock driver1 driver2 years 0
                              compare_init) as (st & Hrun & Hdata).
  rewrite Hrun. simpl. rewrite Hdata. reflexivity.
Qed.

Lemma dict_get_set_same {V : Type} (k : string) (v : V) (d : dict V) :
  dict_get k (dict_set k v d) = Some v.
Proof.
  induction d as [|[k' v'] d IH]; simpl.
  - rewrite String.eqb_refl. reflexivity.
  - destruct (String.eqb k k') eqn:E; simpl; rewrite E; auto.
Qed.

Lemma dict_set_set {V : Type} (k : string) (v w : V) (d : dict V) :
  dict_set k v (dict_set k w d) = dict_set k v d.
Proof.
  induction d as [|[k' v'] d IH]; simpl.
  - rewrite String.eqb_refl. reflexivity.
  - destruct (String.eqb k k') eqn:E; simpl; rewrite E; congruence.
Qed.

Lemma dict_get_add_points (k : string) (p : Pts) (d : dict Pts) :
  dict_get k (add_points k p d) =
  Some (pts_add match dict_get k d with Some q => q | None => pts_zero end
                p).
Proof.
  unfold add_points. destruct (dict_get k d); apply dict_get_set_same.
Qed.

(** The three statements that keep one of the two point tables. *)
Lemma add_points_run (k : string) (p : Pts) (d : dict Pts) :
  let d1 := if negb (dict_mem k d) then dict_set k pts_zero d else d in
  exists q, dict_getitem k d1 = Ok q /\
            dict_set k (pts_add q p) d1 = add_points k p d.
Proof.
  unfold dict_mem, dict_getitem, add_points.
  destruct (dict_get k d) as [q|] eqn:E; simpl.
  - rewrite E. exists q. split; reflexivity.
  - rewrite dict_get_set_same. exists pts_zero. split; [reflexivity|].
    apply dict_set_set.
Qed.

Lemma export_row_run (round_num : Z) (race_name : string)
      (result : ResultRow Pts) (st : ExportVars Pts) :
  export_row round_num race_name result st =
  (Ok tt, export_row_step round_num race_name st result).
Proof.
  destruct st as [rows dp tp].
  unfold export_row, export_row_step, bind, get, put, call, ret. simpl.
  destruct (add_points_run (Abbreviation result) (Points result) dp)
    as (q & Hq & Hset).
  destruct (add_points_run (TeamName result) (Points result) tp)
    as (q' & Hq' & Hset').
  simpl in Hq, Hset, Hq', Hset'.
  destruct (negb (dict_mem (Abbreviation result) dp)); simpl;
    rewrite Hq; simpl; rewrite Hset;
    destruct (negb (dict_mem (TeamName result) tp)); simpl;
    rewrite Hq'; simpl; rewrite Hset';
    rewrite dict_get_add_points; unfold dict_getitem;
    rewrite dict_get_add_points; reflexivity.
Qed.

Lemma export_round_run (fastf1 : Provider Pts) (year round_num : Z)
      (st : ExportVars Pts) :
  export_round fastf1 year round_num st =
  (Ok tt, on_round fastf1 year export_session st round_num).
Proof.
  unfold export_round, on_round, try_except, bind, call, export_session.
  destruct (get_session fastf1 year round_num) as [session|e];
    [|reflexivity].
  rewrite (for_each_steps _ _
             (export_row_run round_num (EventName session))).
  reflexivity.
Qed.

Lemma export_full_season_details_run (self : F1Dashboard)
      (fastf1 : Provider Pts) (now year : Z) :
  export_full_season_details self fastf1 now year =
  Ok match get_event_schedule fastf1 (effective_year self year) with
     | Ok race_schedule =>
         let st := fold_left (on_round fastf1 year export_session)
                             (completed_rounds race_schedule now)
                             export_init in
         Some (all_results st,
               sorted_reverse snd pts_ltb (driver_points st),
               sorted_reverse snd pts_ltb (team_points st))
     | Raise _ => None
     end.
Proof.
  unfold export_full_season_details, export_full_season_details_body, bind.
  rewrite get_race_schedule_run.
  destruct (get_event_schedule fastf1 _); [|reflexivity].
  unfold put.
  rewrite (for_each_steps _ _ (export_round_run fastf1 year)).
  reflexivity.
Qed.


(** ** Tallies *)

Lemma tally_sum_perm (l l' : list (string * Z)) :
  Permutation l l' -> tally_sum l = tally_sum l'.
Proof.
  unfold tally_sum. induction 1; simpl; lia.
Qed.

Lemma insert_desc_perm {A K : Type} (key : A -> K) (ltb : K -> K -> bool)
      (x : A) (l : list A) :
  Permutation (insert_desc key ltb x l) (x :: l).
Proof.
  induction l as [|y l IH]; simpl.
  - apply Permutation_refl.
  - destruct (ltb (key x) (key y)).
    + eapply perm_trans; [apply perm_skip, IH | apply perm_swap].
    + apply Permutation_refl.
Qed.

Lemma sorted_reverse_perm {A K : Type} (key : A -> K) (ltb : K -> K -> bool)
      (l : list A) :
  Permutation (sorted_reverse key ltb l) l.
Proof.
  induction l as [|x l IH]; simpl.
  - apply perm_nil.
  - eapply perm_trans; [apply insert_desc_perm | apply perm_skip, IH].
Qed.

Lemma insert_asc_perm {A K : Type} (key : A -> K) (ltb : K -> K -> bool)
      (x : A) (l : list A) :
  Permutation (insert_asc key ltb x l) (x :: l).
Proof.
  induction l as [|y l IH]; simpl.
  - apply Permutation_refl.
  - destruct (ltb (key y) (key x)).
    + eapply perm_trans; [apply perm_skip, IH | apply perm_swap].
    + apply Permutation_refl.
Qed.

Lemma sorted_perm {A K : Type} (key : A -> K) (ltb : K -> K -> bool)
      (l : list A) :
  Permutation (sorted key ltb l) l.
Proof.
  induction l as [|x l IH]; simpl.
  - apply perm_nil.
  - eapply perm_trans; [apply insert_asc_perm | apply perm_skip, IH].
Qed.

Lemma len_app {A : Type} (l l' : list A) : len (l ++ l') = len l + len l'.
Proof. unfold len. rewrite length_app. lia. Qed.

Lemma len_nonneg {A : Type} (l : list A) : 0 <= len l.
Proof. unfold len. lia. Qed.

Lemma bump_sum (driver : string) (counts : dict Z) :
  tally_sum (bump driver counts) = tally_sum counts + 1.
Proof.
  unfold tally_sum.
  induction counts as [|[k n] counts IH]; simpl; [reflexivity|].
  destruct (String.eqb driver k); simpl; lia.
Qed.

Lemma bump_keys (driver k : string) (counts : dict Z) :
  In k (map fst (bump driver counts)) <->
  k = driver \/ In k (map fst counts).
Proof.
  induction counts as [|[k' n] counts IH]; simpl.
  - intuition.
  - destruct (String.eqb_spec driver k') as [->|Hne]; simpl.
    + intuition.
    + rewrite IH. intuition.
Qed.

Lemma bump_positive (driver : string) (counts : dict Z) :
  Forall (fun kv => 1 <= snd kv) counts ->
  Forall (fun kv => 1 <= snd kv) (bump driver counts).
Proof.
  induction 1 as [|[k n] counts Hk Hrest IH]; simpl.
  - constructor; [simpl; lia | constructor].
  - simpl in Hk. destruct (String.eqb driver k); constructor; simpl;
      auto; lia.
Qed.

Lemma bump_all_app (ds ds' : list string) (counts : dict Z) :
  bump_all (ds ++ ds') counts = bump_all ds' (bump_all ds counts).
Proof. apply fold_left_app. Qed.

Lemma bump_all_sum (drivers : list string) (counts : dict Z) :
  tally_sum (bump_all drivers counts) = tally_sum counts + len drivers.
Proof.
  revert counts. unfold bump_all, len.
  induction drivers as [|d drivers IH]; intros counts; simpl fold_left.
  - simpl. lia.
  - rewrite IH, bump_sum. simpl List.length. lia.
Qed.

Lemma bump_all_keys (drivers : list string) (k : string) (counts : dict Z) :
  In k (map fst (bump_all drivers counts)) <->
  In k drivers \/ In k (map fst counts).
Proof.
  revert counts. unfold bump_all.
  induction drivers as [|d drivers IH]; intros counts; simpl.
  - intuition.
  - rewrite IH, bump_keys. intuition.
Qed.

Lemma bump_all_positive (drivers : list string) (counts : dict Z) :
  Forall (fun kv => 1 <= snd kv) counts ->
  Forall (fun kv => 1 <= snd kv) (bump_all drivers counts).
Proof.
  revert counts. unfold bump_all.
  induction drivers as [|d drivers IH]; intros counts Hc; simpl.
  - exact Hc.
  - apply IH, bump_positive, Hc.
Qed.

(** A counting loop over rounds counts the drivers of the loaded
    sessions, in order. *)
Lemma rounds_tally (fastf1 : Provider Pts) (year : Z)
      (drivers_of : Session Pts -> list string) (rounds : list Z)
      (counts : dict Z) :
  fold_left
    (on_round fastf1 year (fun _ s c => bump_all (drivers_of s) c))
    rounds counts =
  bump_all (flat_map drivers_of (loaded_sessions fastf1 year rounds)) counts.
Proof.
  revert counts. induction rounds as [|r rounds IH]; intros counts; simpl.
  - reflexivity.
  - rewrite IH. unfold on_round.
    destruct (get_session fastf1 year r) as [session|e]; simpl.
    + rewrite bump_all_app. reflexivity.
    + reflexivity.
Qed.

Lemma len_flat_map {A B : Type} (f : A -> list B) (l : list A) :
  len (flat_map f l) = total (map (fun x => len (f x)) l).
Proof.
  induction l as [|x l IH]; simpl.
  - reflexivity.
  - rewrite len_app, IH. reflexivity.
Qed.

Lemma total_const {A : Type} (f : A -> Z) (c : Z) (l : list A) :
  (forall x, In x l -> f x = c) -> total (map f l) = c * len l.
Proof.
  unfold len. induction l as [|x l IH]; intros Hc; simpl total.
  - simpl. lia.
  - rewrite IH by (intros y Hy; apply Hc; right; exact Hy).
    rewrite (Hc x) by (left; reflexivity). simpl List.length. lia.
Qed.

Lemma total_ext {A : Type} (f g : A -> Z) (l : list A) :
  (forall x, In x l -> f x = g x) -> total (map f l) = total (map g l).
Proof.
  induction l as [|x l IH]; intros Hfg; simpl.
  - reflexivity.
  - rewrite IH by (intros y Hy; apply Hfg; right; exact Hy).
    rewrite (Hfg x) by (left; reflexivity). reflexivity.
Qed.

Lemma sort_values_Position_perm (rows : list (ResultRow Pts)) :
  Permutation (sort_values_Position rows) rows.
Proof.
  unfold sort_values_Position.
  eapply perm_trans; [apply sorted_perm | apply tie_order_perm].
Qed.

Lemma len_podium_drivers (session : Session Pts) :
  len (podium_drivers session) = Z.min 3 (len (results session)).
Proof.
  unfold podium_drivers, len.
  rewrite length_map, length_firstn.
  rewrite (Permutation_length (sort_values_Position_perm _)).
  lia.
Qed.

Lemma len_dnf_drivers (session : Session Pts) :
  len (dnf_drivers session) = len (not_finished session).
Proof.
  unfold dnf_drivers, not_finished, len. rewrite length_map. reflexivity.
Qed.

(** The rows of the table a counting method returns, from the drivers it
    counted. *)
Lemma returned_tally (drivers : list string) :
  let tally := sorted_reverse snd Z.ltb (bump_all drivers []) in
  tally_sum tally = len drivers /\
  (forall d n, In (d, n) tally -> 1 <= n) /\
  (forall d, In d (map fst tally) <-> In d drivers).
Proof.
  intros tally.
  assert (Hperm : Permutation tally (bump_all drivers []))
    by apply sorted_reverse_perm.
  split; [|split].
  - rewrite (tally_sum_perm _ _ Hperm), bump_all_sum. reflexivity.
  - intros d n Hin.
    assert (Hpos : Forall (fun kv => 1 <= snd kv) (bump_all drivers []))
      by (apply bump_all_positive; constructor).
    rewrite Forall_forall in Hpos.
    apply (Hpos (d, n)). eapply Permutation_in; eassumption.
  - intros d. split; intros Hin.
    + assert (Hkey : In d (map fst (bump_all drivers [])))
        by (eapply Permutation_in;
            [apply Permutation_map, Hperm | exact Hin]).
      apply bump_all_keys in Hkey. destruct Hkey as [Hkey|[]]. exact Hkey.
    + eapply Permutation_in;
        [apply Permutation_map, Permutation_sym, Hperm |].
      apply bump_all_keys. left. exact Hin.
Qed.

(** ** The podium and DNF tallies *)

(** C1 (as the code has it): when the rounds of the year can be listed,
    [count_podiums] returns a tally whose counts add up to the sum, over
    the rounds that loaded, of the smaller of 3 and the number of result
    rows; when every loaded round has at least three rows, that is 3
    times the number of loaded rounds. *)
Theorem count_podiums_sum (self : F1Dashboard) (fastf1 : Provider Pts)
        (now year : Z) (race_schedule : list Event) :
  get_event_schedule fastf1 (effective_year self year) = Ok race_schedule ->
  let sessions :=
    loaded_sessions fastf1 year (completed_rounds race_schedule now) in
  exists tally,
    count_podiums self fastf1 now year = Ok (Some tally) /\
    tally_sum tally =
      total (map (fun s => Z.min 3 (len (results s))) sessions) /\
    ((forall s, In s sessions -> 3 <= len (results s)) ->
     tally_sum tally = 3 * len sessions).
Proof.
  intros Hsched sessions.
  rewrite count_podiums_run, Hsched.
  eexists. split; [reflexivity|].
  unfold podium_session. rewrite rounds_tally. fold sessions.
  destruct (returned_tally (flat_map podium_drivers sessions))
    as (Hsum & _ & _).
  rewrite Hsum, len_flat_map.
  rewrite (total_ext _ (fun s => Z.min 3 (len (results s))))
    by (intros s _; apply len_podium_drivers).
  split; [reflexivity|].
  intros Hrows. apply total_const.
  intros s Hs. specialize (Hrows s Hs). lia.
Qed.

(** C2: when the rounds of the year can be listed, [count_dnfs] returns
    a tally whose counts add up to the number of result rows, over the
    rounds that loaded, whose status is not exactly [Finished]. *)
Theorem count_dnfs_sum (self : F1Dashboard) (fastf1 : Provider Pts)
        (now year : Z) (race_schedule : list Event) :
  get_event_schedule fastf1 (effective_year self year) = Ok race_schedule ->
  let sessions :=
    loaded_sessions fastf1 year (completed_rounds race_schedule now) in
  exists tally,
    count_dnfs self fastf1 now year = Ok (Some tally) /\
    tally_sum tally = total (map (fun s => len (not_finished s)) sessions).
Proof.
  intros Hsched sessions.
  rewrite count_dnfs_run, Hsched.
  eexists. split; [reflexivity|].
  unfold dnf_session. rewrite rounds_tally. fold sessions.
  destruct (returned_tally (flat_map dnf_drivers sessions))
    as (Hsum & _ & _).
  rewrite Hsum, len_flat_map.
  apply total_ext. intros s _. apply len_dnf_drivers.
Qed.

(** C9: every row of the table returned by [count_podiums] and by
    [count_dnfs] has a count of at least 1, and a driver has a row
    exactly when some loaded round counted that driver. *)
Theorem tallies_hold_no_zero (self : F1Dashboard) (fastf1 : Provider Pts)
        (now year : Z) (race_schedule : list Event) :
  get_event_schedule fastf1 (effective_year self year) = Ok race_schedule ->
  let sessions :=
    loaded_sessions fastf1 year (completed_rounds race_schedule now) in
  (exists tally,
     count_podiums self fastf1 now year = Ok (Some tally) /\
     (forall d n, In (d, n) tally -> 1 <= n) /\
     (forall d, In d (map fst tally) <->
                In d (flat_map podium_drivers sessions))) /\
  (exists tally,
     count_dnfs self fastf1 now year = Ok (Some tally) /\
     (forall d n, In (d, n) tally -> 1 <= n) /\
     (forall d, In d (map fst tally) <->
                In d (flat_map dnf_drivers sessions))).
Proof.
  intros Hsched sessions. split.
  - rewrite count_podiums_run, Hsched.
    eexists. split; [reflexivity|].
    unfold podium_session. rewrite rounds_tally. fold sessions.
    apply (returned_tally (flat_map podium_drivers sessions)).
  - rewrite count_dnfs_run, Hsched.
    eexists. split; [reflexivity|].
    unfold dnf_session. rewrite rounds_tally. fold sessions.
    apply (returned_tally (flat_map dnf_drivers sessions)).
Qed.

(** ** Rounds that fail and rounds that are not yet held *)

Lemma on_round_failed {St : Type} (fastf1 : Provider Pts) (year : Z)
      (f : Z -> Session Pts -> St -> St) (st : St) (r : Z) (ex : exn) :
  get_session fastf1 year r = Raise ex -> on_round fastf1 year f st r = st.
Proof. unfold on_round. intros ->. reflexivity. Qed.

Lemma rounds_same_sessions {St : Type} (fastf1 fastf1' : Provider Pts)
      (year : Z) (f : Z -> Session Pts -> St -> St) (rounds : list Z) :
  (forall r, In r rounds ->
             get_session fastf1' year r = get_session fastf1 year r) ->
  forall st,
    fold_left (on_round fastf1' year f) rounds st =
    fold_left (on_round fastf1 year f) rounds st.
Proof.
  induction rounds as [|r rounds IH]; intros Hsame st; simpl.
  - reflexivity.
  - unfold on_round at 2 4. rewrite (Hsame r) by (left; reflexivity).
    apply IH. intros r' Hr'. apply Hsame. right. exact Hr'.
Qed.

Lemma completed_rounds_app (s1 s2 : list Event) (now : Z) :
  completed_rounds (s1 ++ s2) now =
  completed_rounds s1 now ++ completed_rounds s2 now.
Proof.
  unfold completed_rounds. rewrite filter_app, map_app. reflexivity.
Qed.

Lemma completed_rounds_In (race_schedule : list Event) (now r : Z) :
  In r (completed_rounds race_schedule now) <->
  exists ev, In ev race_schedule /\ RoundNumber ev = r /\ EventDate ev < now.
Proof.
  unfold completed_rounds. rewrite in_map_iff. split.
  - intros (ev & Hr & Hin). apply filter_In in Hin. destruct Hin as [Hin Hlt].
    exists ev. repeat split; auto. apply Z.ltb_lt. exact Hlt.
  - intros (ev & Hin & Hr & Hlt). exists ev. split; [exact Hr|].
    apply filter_In. split; [exact Hin|]. apply Z.ltb_lt. exact Hlt.
Qed.

Lemma rounds_skip_failed {St : Type} (fastf1 : Provider Pts) (year : Z)
      (f : Z -> Session Pts -> St -> St) (before after : list Event)
      (failed : Event) (now : Z) (ex : exn) (st : St) :
  get_session fastf1 year (RoundNumber failed) = Raise ex ->
  fold_left (on_round fastf1 year f)
            (completed_rounds (before ++ failed :: after) now) st =
  fold_left (on_round fastf1 year f)
            (completed_rounds (before ++ after) now) st.
Proof.
  intros Hfail.
  rewrite !completed_rounds_app, !fold_left_app.
  generalize (fold_left (on_round fastf1 year f)
                        (completed_rounds before now) st) as st1.
  intros st1. unfold completed_rounds. simpl.
  destruct (EventDate failed <? now); [|reflexivity].
  simpl. rewrite (on_round_failed _ _ _ _ _ ex Hfail). reflexivity.
Qed.

Lemma count_podiums_loop (self : F1Dashboard) (fastf1 : Provider Pts)
      (now year : Z) :
  count_podiums self fastf1 now year =
  Ok (option_map (sorted_reverse snd Z.ltb)
                 (season_loop self fastf1 podium_session now year [])).
Proof.
  rewrite count_podiums_run. unfold season_loop.
  destruct (get_event_schedule fastf1 _); reflexivity.
Qed.

Lemma count_dnfs_loop (self : F1Dashboard) (fastf1 : Provider Pts)
      (now year : Z) :
  count_dnfs self fastf1 now year =
  Ok (option_map (sorted_reverse snd Z.ltb)
                 (season_loop self fastf1 dnf_session now year [])).
Proof.
  rewrite count_dnfs_run. unfold season_loop.
  destruct (get_event_schedule fastf1 _); reflexivity.
Qed.

Lemma export_full_season_details_loop (self : F1Dashboard)
      (fastf1 : Provider Pts) (now year : Z) :
  export_full_season_details self fastf1 now year =
  Ok (option_map
        (fun st => (all_results st,
                    sorted_reverse snd pts_ltb (driver_points st),
                    sorted_reverse snd pts_ltb (team_points st)))
        (season_loop self fastf1 export_session now year export_init)).
Proof.
  rewrite export_full_season_details_run. unfold season_loop.
  destruct (get_event_schedule fastf1 _); reflexivity.
Qed.

Lemma year_records_loop (self : F1Dashboard) (fastf1 : Provider Pts)
      (driver1 driver2 : string) (now year : Z) :
  year_records self fastf1 driver1 driver2 now year =
  match season_loop self fastf1 (compare_session driver1 driver2) now year
                    compare_init with
  | Some totals => [season_record year driver1 driver2 totals]
  | None => []
  end.
Proof.
  unfold year_records, season_loop, season_totals.
  destruct (get_event_schedule fastf1 _); reflexivity.
Qed.

(** Taking a round that fails to load off the calendar changes no
    season loop. *)
Lemma season_loop_without_failed {St : Type} (self : F1Dashboard)
      (fastf1 fastf1' : Provider Pts) (season : Z)
      (before after : list Event) (failed : Event)
      (f : Z -> Session Pts -> St -> St) (now year : Z) (st : St) :
  (forall y r, get_session fastf1' y r = get_session fastf1 y r) ->
  (forall y, y <> season ->
             get_event_schedule fastf1' y = get_event_schedule fastf1 y) ->
  get_event_schedule fastf1 season = Ok (before ++ failed :: after) ->
  get_event_schedule fastf1' season = Ok (before ++ after) ->
  (forall y, effective_year self y = season ->
             exists ex, get_session fastf1 y (RoundNumber failed) = Raise ex) ->
  season_loop self fastf1 f now year st =
  season_loop self fastf1' f now year st.
Proof.
  intros Hsess Hother Hsched Hsched' Hfail. unfold season_loop.
  destruct (Z.eq_dec (effective_year self year) season) as [Heq|Hne].
  - rewrite Heq, Hsched, Hsched'. f_equal.
    destruct (Hfail year Heq) as (ex & Hex).
    rewrite (rounds_skip_failed _ _ _ _ _ _ _ ex _ Hex).
    symmetry. apply rounds_same_sessions. intros r _. apply Hsess.
  - rewrite (Hother _ Hne).
    destruct (get_event_schedule fastf1 (effective_year self year));
      [|reflexivity].
    f_equal. symmetry. apply rounds_same_sessions. intros r _. apply Hsess.
Qed.

Lemma compare_drivers_same_records (self : F1Dashboard)
      (fastf1 fastf1' : Provider Pts) (clock : nat -> Z)
      (driver1 driver2 : string) (years : list Z) :
  (forall now year,
      year_records self fastf1 driver1 driver2 now year =
      year_records self fastf1' driver1 driver2 now year) ->
  compare_drivers self fastf1 clock driver1 driver2 years =
  compare_drivers self fastf1' clock driver1 driver2 years.
Proof.
  intros Hsame. rewrite !compare_drivers_run. do 2 f_equal.
  apply map_ext. intros iy. apply Hsame.
Qed.

(** C3: if a round of a season fails to load, every aggregation returns
    what it returns when that round is not on the calendar at all:
    the podium tally, the DNF tally, the three tables of the season
    export and the comparison of two drivers. *)
Theorem failed_round_contributes_nothing (self : F1Dashboard)
        (fastf1 fastf1' : Provider Pts) (season : Z)
        (before after : list Event) (failed : Event) :
  (forall y r, get_session fastf1' y r = get_session fastf1 y r) ->
  (forall y, y <> season ->
             get_event_schedule fastf1' y = get_event_schedule fastf1 y) ->
  get_event_schedule fastf1 season = Ok (before ++ failed :: after) ->
  get_event_schedule fastf1' season = Ok (before ++ after) ->
  (forall y, effective_year self y = season ->
             exists ex, get_session fastf1 y (RoundNumber failed) = Raise ex) ->
  (forall now year,
      count_podiums self fastf1 now year =
      count_podiums self fastf1' now year /\
      count_dnfs self fastf1 now year = count_dnfs self fastf1' now year /\
      export_full_season_details self fastf1 now year =
      export_full_season_details self fastf1' now year) /\
  (forall clock driver1 driver2 years,
      compare_drivers self fastf1 clock driver1 driver2 years =
      compare_drivers self fastf1' clock driver1 driver2 years).
Proof.
  intros Hsess Hother Hsched Hsched' Hfail.
  assert (Hloop : forall (St : Type) (f : Z -> Session Pts -> St -> St)
                         now year st,
             season_loop self fastf1 f now year st =
             season_loop self fastf1' f now year st)
    by (intros; eapply season_loop_without_failed; eassumption).
  split.
  - intros now year.
    rewrite !count_podiums_loop, !count_dnfs_loop,
      !export_full_season_details_loop, !Hloop.
    repeat split.
  - intros clock driver1 driver2 years.
    apply compare_drivers_same_records. intros now year.
    rewrite !year_records_loop, Hloop. reflexivity.
Qed.

(** ** Comparing two drivers *)

Lemma position_is_1 (p : option Z) : position_is p 1 = true <-> p = Some 1.
Proof.
  destruct p as [x|]; simpl.
  - rewrite Z.eqb_eq. split; congruence.
  - split; discriminate.
Qed.

Lemma add_result_contribution (session : Session Pts) (driver : string)
      (points : Pts) (wins : Z) :
  let pw := add_result (driver_result session driver) (points, wins) in
  lookup_contribution session driver points wins (fst pw) (snd pw).
Proof.
  unfold lookup_contribution, add_result.
  destruct (driver_result session driver) as [|row rows] eqn:Hrows; simpl.
  - repeat split; auto.
    + intros row Hrow. discriminate.
    + intros Hw. lia.
    + intros (row & Hrow & _). discriminate.
  - assert (Hin : In row (results session) /\ Abbreviation row = driver).
    { assert (Hf : In row (driver_result session driver))
        by (rewrite Hrows; left; reflexivity).
      unfold driver_result in Hf. apply filter_In in Hf.
      destruct Hf as [Hin Heq]. apply String.eqb_eq in Heq. auto. }
    destruct Hin as [Hin Heq].
    split; [intros Habsent; destruct (Habsent row Hin Heq)|].
    split; [intros row' Hrow'; congruence|].
    destruct (position_is (Position row) 1) eqn:Hpos.
    + apply position_is_1 in Hpos.
      split; [left; reflexivity|]. split; [|reflexivity].
      intros _. exists row. auto.
    + split; [right; reflexivity|]. split; [intros Hw; lia|].
      intros (row' & Hrow' & Hone). injection Hrow' as <-.
      apply position_is_1 in Hone. congruence.
Qed.

(** C5: no completed round makes the loop body of [compare_drivers]
    raise; in a round that loads, if no row has exactly the driver's
    abbreviation, the driver's points and wins stay as they were, and a
    win is added exactly when the driver's row is there and has
    position 1; a round that does not load changes nothing. *)
Theorem compare_round_lookup (fastf1 : Provider Pts) (year : Z)
        (driver1 driver2 : string) (round_num : Z) (st : CompareVars Pts) :
  exists st',
    compare_round fastf1 year driver1 driver2 round_num st = (Ok tt, st') /\
    match get_session fastf1 year round_num with
    | Ok session =>
        lookup_contribution session driver1
          (driver1_points st) (driver1_wins st)
          (driver1_points st') (driver1_wins st') /\
        lookup_contribution session driver2
          (driver2_points st) (driver2_wins st)
          (driver2_points st') (driver2_wins st')
    | Raise _ => st' = st
    end.
Proof.
  rewrite compare_round_run. unfold on_round.
  eexists. split; [reflexivity|].
  destruct (get_session fastf1 year round_num) as [session|e];
    [|reflexivity].
  split; apply add_result_contribution.
Qed.

Lemma length_append (a b : string) :
  String.length (a ++ b) = (String.length a + String.length b)%nat.
Proof. induction a as [|c a IH]; simpl; congruence. Qed.

Lemma append_inv_head (a b c : string) :
  (a ++ b)%string = (a ++ c)%string -> b = c.
Proof.
  induction a as [|x a IH]; simpl; intros Heq.
  - exact Heq.
  - injection Heq as Heq. apply IH, Heq.
Qed.

Lemma points_key_not_year (d : string) :
  String.eqb (d ++ " Points") "Year" = false.
Proof.
  apply String.eqb_neq. intros Heq.
  apply (f_equal String.length) in Heq. rewrite length_append in Heq.
  simpl in Heq. lia.
Qed.

Lemma wins_key_not_year (d : string) :
  String.eqb (d ++ " Wins") "Year" = false.
Proof.
  apply String.eqb_neq. intros Heq.
  apply (f_equal String.length) in Heq. rewrite length_append in Heq.
  simpl in Heq. lia.
Qed.

Lemma wins_key_not_points (d : string) :
  String.eqb (d ++ " Wins") (d ++ " Points") = false.
Proof.
  apply String.eqb_neq. intros Heq. apply append_inv_head in Heq.
  discriminate.
Qed.

Lemma dict_get_set_other {V : Type} (k k' : string) (v : V) (d : dict V) :
  String.eqb k k' = false -> dict_get k (dict_set k' v d) = dict_get k d.
Proof.
  intros Hne. induction d as [|[k0 v0] d IH]; simpl.
  - rewrite Hne. reflexivity.
  - destruct (String.eqb k' k0) eqn:E; simpl.
    + apply String.eqb_eq in E. subst k0. rewrite Hne. reflexivity.
    + rewrite IH. reflexivity.
Qed.

Lemma season_record_year (year : Z) (driver1 driver2 : string)
      (st : CompareVars Pts) :
  dict_get "Year" (season_record year driver1 driver2 st) =
  Some (IntCell year).
Proof.
  unfold season_record, dict_literal. cbn [fold_left fst snd].
  do 4 (rewrite dict_get_set_other
         by (rewrite String.eqb_sym;
             auto using points_key_not_year, wins_key_not_year)).
  reflexivity.
Qed.

(** With one driver named twice the display has the same key twice and
    the later value stays: the record has one points and one wins cell. *)
Lemma season_record_same_driver (year : Z) (driver : string)
      (st : CompareVars Pts) :
  season_record year driver driver st =
  [ ("Year"%string, IntCell year);
    ((driver ++ " Points")%string, PtsCell (driver2_points st));
    ((driver ++ " Wins")%string, IntCell (driver2_wins st)) ].
Proof.
  unfold season_record, dict_literal. simpl.
  repeat (progress (rewrite ?points_key_not_year, ?wins_key_not_year,
                      ?wins_key_not_points, ?String.eqb_refl; simpl)).
  reflexivity.
Qed.

Lemma season_totals_same_driver (fastf1 : Provider Pts) (year : Z)
      (driver : string) (rounds : list Z) :
  let totals := season_totals fastf1 year driver driver rounds in
  driver1_points totals = driver2_points totals /\
  driver1_wins totals = driver2_wins totals.
Proof.
  unfold season_totals.
  assert (Hinit : driver1_points compare_init = driver2_points compare_init
                  /\ driver1_wins compare_init = driver2_wins compare_init)
    by (split; reflexivity).
  revert Hinit. generalize (@compare_init Pts _) as st.
  induction rounds as [|r rounds IH]; intros st Hst; simpl.
  - exact Hst.
  - apply IH. unfold on_round.
    destruct (get_session fastf1 year r) as [session|e]; [|exact Hst].
    destruct Hst as [Hp Hw]. unfold compare_session. simpl.
    rewrite Hp, Hw. split; reflexivity.
Qed.

Lemma In_year_records (self : F1Dashboard) (fastf1 : Provider Pts)
      (clock : nat -> Z) (driver1 driver2 : string) (years : list Z)
      (start : nat) (record : dict (cell Pts)) :
  In record
     (List.concat
        (map (fun iy => year_records self fastf1 driver1 driver2
                          (clock (fst iy)) (snd iy))
             (enumerate start years))) ->
  exists year rounds,
    record = season_record year driver1 driver2
               (season_totals fastf1 year driver1 driver2 rounds).
Proof.
  intros Hin. apply in_concat in Hin. destruct Hin as (l & Hl & Hin).
  apply in_map_iff in Hl. destruct Hl as ([i year] & <- & _).
  unfold year_records in Hin. simpl in Hin.
  destruct (get_event_schedule fastf1 _) as [race_schedule|e];
    [|destruct Hin].
  destruct Hin as [<-|[]]. eauto.
Qed.

(** C8: when the same abbreviation is given for both drivers, every
    yearly record is built from two pairs of counters that are equal,
    points with points and wins with wins, and shows them under the
    driver's points and wins columns. *)
Theorem compare_driver_with_itself (self : F1Dashboard)
        (fastf1 : Provider Pts) (clock : nat -> Z) (driver : string)
        (years : list Z) :
  exists df,
    compare_drivers self fastf1 clock driver driver years = Ok df /\
    forall record, In record df ->
      exists year totals,
        record = season_record year driver driver totals /\
        driver1_points totals = driver2_points totals /\
        driver1_wins totals = driver2_wins totals /\
        dict_get (driver ++ " Points") record =
          Some (PtsCell (driver1_points totals)) /\
        dict_get (driver ++ " Wins") record =
          Some (IntCell (driver1_wins totals)).
Proof.
  rewrite compare_drivers_run. eexists. split; [reflexivity|].
  intros record Hin. apply In_year_records in Hin.
  destruct Hin as (year & rounds & ->).
  destruct (season_totals_same_driver fastf1 year driver rounds)
    as [Hp Hw].
  exists year, (season_totals fastf1 year driver driver rounds).
  split; [reflexivity|]. split; [exact Hp|]. split; [exact Hw|].
  rewrite season_record_same_driver, Hp, Hw. simpl.
  rewrite points_key_not_year, wins_key_not_year, wins_key_not_points,
    !String.eqb_refl.
  split; reflexivity.
Qed.

Lemma year_records_years (self : F1Dashboard) (fastf1 : Provider Pts)
      (clock : nat -> Z) (driver1 driver2 : string) (years : list Z) :
  forall start,
    map (dict_get "Year")
        (List.concat
           (map (fun iy => year_records self fastf1 driver1 driver2
                             (clock (fst iy)) (snd iy))
                (enumerate start years))) =
    map (fun year => Some (IntCell year)) (listed_years self fastf1 years).
Proof.
  induction years as [|year years IH]; intros start; simpl.
  - reflexivity.
  - rewrite map_app, IH. unfold year_records.
    destruct (get_event_schedule fastf1 (effective_year self year));
      simpl; [|reflexivity].
    rewrite season_record_year. reflexivity.
Qed.

(** C7 (as the code has it): [compare_drivers] returns, in the order of
    [years], one record for every year whose rounds the provider can
    list and none for a year whose rounds it cannot; the record of a
    year holds the counters started from zero and run over the completed
    rounds of that year alone. *)
Theorem compare_drivers_by_year (self : F1Dashboard) (fastf1 : Provider Pts)
        (clock : nat -> Z) (driver1 driver2 : string) (years : list Z) :
  exists df,
    compare_drivers self fastf1 clock driver1 driver2 years = Ok df /\
    df = List.concat
           (map (fun iy => year_records self fastf1 driver1 driver2
                             (clock (fst iy)) (snd iy))
                (enumerate 0 years)) /\
    map (dict_get "Year") df =
    map (fun year => Some (IntCell year)) (listed_years self fastf1 years).
Proof.
  rewrite compare_drivers_run. eexists. split; [reflexivity|].
  split; [reflexivity|]. apply year_records_years.
Qed.

(** ** No failure of a round leaves a method *)

(** C6: every loop over rounds ends normally and has gone through every
    round whatever rounds failed; [count_podiums], [count_dnfs] and
    [export_full_season_details] return a table when the rounds of the
    year can be listed and return nothing, without raising, when they
    cannot; [compare_drivers] always returns its table, with a record
    for each year whose rounds can be listed. *)
Theorem round_failures_never_abort (self : F1Dashboard)
        (fastf1 : Provider Pts) :
  (forall year,
      runs_every_round fastf1 year (podium_round fastf1 year)
                       podium_session /\
      runs_every_round fastf1 year (dnf_round fastf1 year) dnf_session /\
      runs_every_round fastf1 year (export_round fastf1 year)
                       export_session /\
      (forall driver1 driver2,
          runs_every_round fastf1 year
            (compare_round fastf1 year driver1 driver2)
            (compare_session driver1 driver2))) /\
  (forall now year,
      match get_event_schedule fastf1 (effective_year self year) with
      | Ok _ =>
          (exists t, count_podiums self fastf1 now year = Ok (Some t)) /\
          (exists t, count_dnfs self fastf1 now year = Ok (Some t)) /\
          (exists t,
              export_full_season_details self fastf1 now year = Ok (Some t))
      | Raise _ =>
          count_podiums self fastf1 now year = Ok None /\
          count_dnfs self fastf1 now year = Ok None /\
          export_full_season_details self fastf1 now year = Ok None
      end) /\
  (forall clock driver1 driver2 years,
      exists df,
        compare_drivers self fastf1 clock driver1 driver2 years = Ok df /\
        len df = len (listed_years self fastf1 years)).
Proof.
  split; [|split].
  - intros year. unfold runs_every_round.
    repeat split; intros; apply for_each_steps; intros.
    + apply podium_round_run.
    + apply dnf_round_run.
    + apply export_round_run.
    + apply compare_round_run.
  - intros now year.
    rewrite count_podiums_run, count_dnfs_run,
      export_full_season_details_run.
    destruct (get_event_schedule fastf1 (effective_year self year));
      repeat split; eexists; reflexivity.
  - intros clock driver1 driver2 years.
    rewrite compare_drivers_run. eexists. split; [reflexivity|].
    unfold len. f_equal.
    rewrite <- (length_map (dict_get "Year")), year_records_years.
    apply length_map.
Qed.

(** ** Cumulative points in the season export *)

Lemma driver_sum_snoc (d : string) (rows : list (ResultRow Pts))
      (x : ResultRow Pts) :
  driver_sum d (rows ++ [x]) =
  if String.eqb (Abbreviation x) d
  then pts_add (driver_sum d rows) (Points x)
  else driver_sum d rows.
Proof.
  unfold driver_sum. rewrite filter_app. simpl.
  destruct (String.eqb (Abbreviation x) d).
  - rewrite map_app, fold_left_app. reflexivity.
  - rewrite app_nil_r. reflexivity.
Qed.

Lemma driver_sum_app_absent (d : string) (rows rows' : list (ResultRow Pts)) :
  (forall y, In y rows' -> Abbreviation y <> d) ->
  driver_sum d (rows ++ rows') = driver_sum d rows.
Proof.
  intros Habsent. unfold driver_sum. rewrite filter_app.
  replace (filter (fun r => String.eqb (Abbreviation r) d) rows')
    with (@nil (ResultRow Pts)); [rewrite app_nil_r; reflexivity|].
  symmetry. induction rows' as [|y rows' IH]; simpl; [reflexivity|].
  destruct (String.eqb_spec (Abbreviation y) d) as [Heq|Hne].
  - destruct (Habsent y (or_introl eq_refl) Heq).
  - apply IH. intros z Hz. apply Habsent. right. exact Hz.
Qed.

Lemma driver_sum_no_rows (d : string) (rows : list (ResultRow Pts)) :
  has_driver d rows = false -> driver_sum d rows = pts_zero.
Proof.
  intros Hno. rewrite <- (app_nil_l rows).
  apply driver_sum_app_absent. intros y Hy Heq.
  assert (Hyes : has_driver d rows = true).
  { apply existsb_exists. exists y. split; [exact Hy|].
    apply String.eqb_eq, Heq. }
  congruence.
Qed.

Lemma has_driver_snoc (d : string) (rows : list (ResultRow Pts))
      (x : ResultRow Pts) :
  has_driver d (rows ++ [x]) =
  has_driver d rows || String.eqb (Abbreviation x) d.
Proof.
  unfold has_driver. rewrite existsb_app. simpl.
  rewrite orb_false_r. reflexivity.
Qed.

Lemma add_points_keys (k : string) (p : Pts) (d : dict Pts) :
  NoDup (map fst d) -> NoDup (map fst (add_points k p d)).
Proof.
  assert (Hset : forall v, NoDup (map fst d) ->
                           NoDup (map fst (dict_set k v d))).
  { intros v. induction d as [|[k' v'] d IH]; simpl; intros Hnd.
    - constructor; [intros []|constructor].
    - inversion Hnd as [|? ? Hnotin Hrest]; subst.
      destruct (String.eqb_spec k k') as [->|Hne]; simpl.
      + constructor; assumption.
      + constructor; [|apply IH, Hrest].
        intros Hin. apply Hnotin. clear - Hin Hne.
        induction d as [|[k0 v0] d IHd]; simpl in *.
        * destruct Hin as [Hin|[]]. congruence.
        * destruct (String.eqb k k0); simpl in Hin; intuition. }
  unfold add_points. destruct (dict_get k d); apply Hset.
Qed.

Lemma dict_get_add_points_other (k k' : string) (p : Pts) (d : dict Pts) :
  String.eqb k k' = false ->
  dict_get k (add_points k' p d) = dict_get k d.
Proof.
  intros Hne. unfold add_points.
  destruct (dict_get k' d); apply dict_get_set_other, Hne.
Qed.

Lemma dict_get_In {V : Type} (k : string) (v : V) (d : dict V) :
  dict_get k d = Some v -> In (k, v) d.
Proof.
  induction d as [|[k' v'] d IH]; simpl; [discriminate|].
  destruct (String.eqb_spec k k') as [->|Hne].
  - intros [= ->]. left. reflexivity.
  - intros Hget. right. apply IH, Hget.
Qed.

Lemma In_dict_get {V : Type} (k : string) (v : V) (d : dict V) :
  NoDup (map fst d) -> In (k, v) d -> dict_get k d = Some v.
Proof.
  induction d as [|[k' v'] d IH]; simpl; intros Hnd Hin; [destruct Hin|].
  inversion Hnd as [|? ? Hnotin Hrest]; subst.
  destruct Hin as [[= -> ->]|Hin].
  - rewrite String.eqb_refl. reflexivity.
  - destruct (String.eqb_spec k k') as [->|Hne].
    + destruct Hnotin. apply (in_map fst) in Hin. exact Hin.
    + apply IH; assumption.
Qed.

Lemma export_invariant_init : export_invariant [] export_init.
Proof.
  unfold export_invariant. simpl. repeat split; try constructor.
  intros [|n] row Hn; discriminate.
Qed.

Lemma export_invariant_row (log : list (Z * ResultRow Pts))
      (st : ExportVars Pts) (round_num : Z) (race_name : string)
      (x : ResultRow Pts) :
  export_invariant log st ->
  export_invariant (log ++ [(round_num, x)])
                   (export_row_step round_num race_name st x).
Proof.
  unfold export_invariant.
  intros (Hdict & Hkeys & Hround & Hdriver & Hpoints & Hcum).
  rewrite !map_app. simpl map.
  set (rows := map snd log) in *.
  assert (Hnew : dict_get (Abbreviation x)
                   (add_points (Abbreviation x) (Points x)
                               (driver_points st)) =
                 Some (driver_sum (Abbreviation x) (rows ++ [x]))).
  { rewrite dict_get_add_points, driver_sum_snoc, String.eqb_refl, Hdict.
    destruct (has_driver (Abbreviation x) rows) eqn:Hhas; [reflexivity|].
    rewrite (driver_sum_no_rows _ _ Hhas). reflexivity. }
  unfold export_row_step. cbn [all_results driver_points team_points].
  split; [|split; [|split; [|split; [|split]]]].
  - intros d. rewrite has_driver_snoc, driver_sum_snoc.
    destruct (String.eqb_spec (Abbreviation x) d) as [<-|Hne].
    + rewrite orb_true_r. rewrite Hnew, driver_sum_snoc, String.eqb_refl.
      reflexivity.
    + rewrite orb_false_r, dict_get_add_points_other; [apply Hdict|].
      apply String.eqb_neq. congruence.
  - apply add_points_keys, Hkeys.
  - rewrite map_app, Hround. reflexivity.
  - rewrite map_app, Hdriver. reflexivity.
  - rewrite map_app, Hpoints. reflexivity.
  - intros n row Hn.
    assert (Hlen : List.length (all_results st) = List.length rows)
      by (rewrite <- (length_map Driver), Hdriver, length_map; reflexivity).
    destruct (Nat.lt_ge_cases n (List.length (all_results st))) as [Hlt|Hge].
    + rewrite nth_error_app1 in Hn by exact Hlt.
      rewrite firstn_app.
      replace (S n - List.length rows)%nat with 0%nat by lia.
      simpl firstn. rewrite app_nil_r. apply Hcum, Hn.
    + rewrite nth_error_app2 in Hn by exact Hge.
      destruct (n - List.length (all_results st))%nat as [|m] eqn:Hm;
        [|destruct m; discriminate].
      injection Hn as <-. cbn [CumulativePoints Driver].
      rewrite Hnew. f_equal.
      rewrite firstn_all2; [reflexivity|].
      rewrite length_app. simpl. lia.
Qed.

Lemma export_invariant_session (round_num : Z) (session : Session Pts) :
  forall (log : list (Z * ResultRow Pts)) (st : ExportVars Pts),
    export_invariant log st ->
    export_invariant (log ++ map (pair round_num) (results session))
                     (export_session round_num session st).
Proof.
  unfold export_session. generalize (results session) as rows.
  induction rows as [|x rows IH]; intros log st Hinv; simpl.
  - rewrite app_nil_r. exact Hinv.
  - replace (log ++ (round_num, x) :: map (pair round_num) rows)
      with ((log ++ [(round_num, x)]) ++ map (pair round_num) rows)
      by (rewrite <- app_assoc; reflexivity).
    apply IH, export_invariant_row, Hinv.
Qed.

Lemma export_invariant_rounds (fastf1 : Provider Pts) (year : Z)
      (rounds : list Z) :
  forall (log : list (Z * ResultRow Pts)) (st : ExportVars Pts),
    export_invariant log st ->
    export_invariant (log ++ season_log fastf1 year rounds)
      (fold_left (on_round fastf1 year export_session) rounds st).
Proof.
  induction rounds as [|r rounds IH]; intros log st Hinv; simpl.
  - rewrite app_nil_r. exact Hinv.
  - rewrite app_assoc. apply IH. unfold on_round.
    destruct (get_session fastf1 year r) as [session|e].
    + apply export_invariant_session, Hinv.
    + rewrite app_nil_r. exact Hinv.
Qed.

Lemma season_log_rows (fastf1 : Provider Pts) (year : Z) (rounds : list Z) :
  map snd (season_log fastf1 year rounds) =
  season_rows (loaded_sessions fastf1 year rounds).
Proof.
  unfold season_log, season_rows, loaded_sessions.
  induction rounds as [|r rounds IH]; simpl; [reflexivity|].
  rewrite map_app, flat_map_app, IH. f_equal.
  destruct (get_session fastf1 year r) as [session|e]; simpl.
  - rewrite map_map, map_id, app_nil_r. reflexivity.
  - reflexivity.
Qed.

Lemma later_rows_other_drivers (rows : list (ResultRow Pts)) :
  NoDup (map Abbreviation rows) ->
  forall k x, nth_error rows k = Some x ->
  forall y, In y (skipn (S k) rows) -> Abbreviation y <> Abbreviation x.
Proof.
  induction rows as [|a rows IH]; intros Hnd k x Hk y Hy.
  - destruct k; discriminate.
  - inversion Hnd as [|? ? Hnotin Hrest]; subst.
    destruct k as [|k]; simpl in Hk, Hy.
    + injection Hk as <-. intros Heq. apply Hnotin. rewrite <- Heq.
      apply in_map, Hy.
    + apply (IH Hrest k x Hk y Hy).
Qed.

Lemma nth_error_of_map {A B : Type} (f : A -> B) (l : list A) (n : nat)
      (b : B) :
  nth_error (map f l) n = Some b ->
  exists a, nth_error l n = Some a /\ f a = b.
Proof.
  rewrite nth_error_map. destruct (nth_error l n) as [a|]; simpl.
  - intros [= <-]. exists a. auto.
  - discriminate.
Qed.

(** The row exported for the [k]-th result of a round whose drivers are
    all different. *)
Lemma export_invariant_round_row
      (log_before log_after : list (Z * ResultRow Pts))
      (round_num : Z) (rows : list (ResultRow Pts)) (st : ExportVars Pts)
      (k : nat) (x : ResultRow Pts) :
  export_invariant (log_before ++ map (pair round_num) rows ++ log_after)
                   st ->
  NoDup (map Abbreviation rows) ->
  nth_error rows k = Some x ->
  exists row,
    nth_error (all_results st) (List.length log_before + k) = Some row /\
    Round row = round_num /\
    Driver row = Abbreviation x /\
    row_Points row = Points x /\
    CumulativePoints row =
    driver_sum (Abbreviation x) (map snd log_before ++ rows).
Proof.
  intros (_ & _ & Hround & Hdriver & Hpoints & Hcum) Hnd Hk.
  set (n := (List.length log_before + k)%nat).
  assert (Hklt : (k < List.length rows)%nat)
    by (apply nth_error_Some; congruence).
  assert (Hlog : nth_error (log_before ++ map (pair round_num) rows
                              ++ log_after) n = Some (round_num, x)).
  { unfold n. rewrite nth_error_app2 by lia.
    replace (List.length log_before + k - List.length log_before)%nat
      with k by lia.
    rewrite nth_error_app1 by (rewrite length_map; exact Hklt).
    rewrite nth_error_map, Hk. reflexivity. }
  assert (Hfst : nth_error (map Round (all_results st)) n = Some round_num)
    by (rewrite Hround, nth_error_map, Hlog; reflexivity).
  apply nth_error_of_map in Hfst. destruct Hfst as (row & Hrow & Hr).
  exists row. split; [exact Hrow|]. split; [exact Hr|].
  assert (Hd : Driver row = Abbreviation x).
  { assert (Hm : nth_error (map Driver (all_results st)) n =
                 Some (Abbreviation x))
      by (rewrite Hdriver, !nth_error_map, Hlog; reflexivity).
    rewrite nth_error_map, Hrow in Hm. simpl in Hm. congruence. }
  split; [exact Hd|]. split.
  - assert (Hm : nth_error (map row_Points (all_results st)) n =
                 Some (Points x))
      by (rewrite Hpoints, !nth_error_map, Hlog; reflexivity).
    rewrite nth_error_map, Hrow in Hm. simpl in Hm. congruence.
  - rewrite (Hcum n row Hrow), Hd.
    assert (Hsnd : map snd (map (pair round_num) rows) = rows)
      by (rewrite map_map; apply map_id).
    rewrite !map_app, Hsnd.
    unfold n. rewrite firstn_app, length_map.
    rewrite firstn_all2 by (rewrite length_map; lia).
    replace (S (List.length log_before + k) - List.length log_before)%nat
      with (S k) by lia.
    rewrite firstn_app.
    replace (S k - List.length rows)%nat with 0%nat by lia.
    simpl firstn at 2. rewrite app_nil_r.
    rewrite <- (firstn_skipn (S k) rows) at 2.
    rewrite app_assoc. symmetry. apply driver_sum_app_absent.
    apply (later_rows_other_drivers rows Hnd k x Hk).
Qed.

(** The last row exported for a driver carries the driver's entry of
    [driver_points]. *)
Lemma export_invariant_last_row (log : list (Z * ResultRow Pts))
      (st : ExportVars Pts) (rows_before rows_after : list (ExportRow Pts))
      (row : ExportRow Pts) :
  export_invariant log st ->
  all_results st = rows_before ++ row :: rows_after ->
  (forall later, In later rows_after -> Driver later <> Driver row) ->
  dict_get (Driver row) (driver_points st) = Some (CumulativePoints row).
Proof.
  intros (Hdict & _ & _ & Hdriver & _ & Hcum) Hall Hlast.
  set (rows := map snd log) in *.
  set (n := List.length rows_before).
  assert (Hrow : nth_error (all_results st) n = Some row).
  { rewrite Hall. unfold n. rewrite nth_error_app2 by lia.
    rewrite Nat.sub_diag. reflexivity. }
  assert (Hx : exists x, nth_error rows n = Some x /\
                         Abbreviation x = Driver row).
  { apply nth_error_of_map. rewrite <- Hdriver, nth_error_map, Hrow.
    reflexivity. }
  destruct Hx as (x & Hx & Hxd).
  assert (Hhas : has_driver (Driver row) rows = true).
  { apply existsb_exists. exists x. split.
    - eapply nth_error_In, Hx.
    - apply String.eqb_eq, Hxd. }
  rewrite Hdict, Hhas. f_equal.
  rewrite (Hcum n row Hrow).
  rewrite <- (firstn_skipn (S n) rows) at 1.
  apply driver_sum_app_absent. intros y Hy Heq.
  assert (Hin : In (Abbreviation y) (map Driver rows_after)).
  { replace (map Driver rows_after)
      with (skipn (S n) (map Driver (all_results st))).
    - rewrite Hdriver, skipn_map. apply in_map, Hy.
    - rewrite Hall, map_app. simpl map. unfold n.
      rewrite skipn_app, length_map.
      rewrite skipn_all2 by (rewrite length_map; lia).
      replace (S (List.length rows_before) - List.length rows_before)%nat
        with 1%nat by lia.
      reflexivity. }
  apply in_map_iff in Hin. destruct Hin as (later & Hl & Hin).
  apply (Hlast later Hin). congruence.
Qed.

Lemma season_log_app (fastf1 : Provider Pts) (year : Z)
      (rounds rounds' : list Z) :
  season_log fastf1 year (rounds ++ rounds') =
  season_log fastf1 year rounds ++ season_log fastf1 year rounds'.
Proof. apply flat_map_app. Qed.

(** C10: in the season export, the row of a driver for a loaded round
    whose rows name each driver once carries, as [CumulativePoints], the
    driver's points added up over the loaded rounds up to and including
    that round (every exported row carries the driver's points added up
    over the rows up to and including itself); and the last row exported
    for a driver carries exactly the total the driver standings give for
    that driver. *)
Theorem cumulative_points_reach_the_standings (self : F1Dashboard)
        (fastf1 : Provider Pts) (now year : Z) (race_schedule : list Event)
        (before after : list Z) (round_num : Z) (session : Session Pts) :
  get_event_schedule fastf1 (effective_year self year) = Ok race_schedule ->
  completed_rounds race_schedule now = before ++ round_num :: after ->
  get_session fastf1 year round_num = Ok session ->
  exists results_df driver_standings team_standings,
    export_full_season_details self fastf1 now year =
      Ok (Some (results_df, driver_standings, team_standings)) /\
    (NoDup (map Abbreviation (results session)) ->
     forall k x,
       nth_error (results session) k = Some x ->
       exists row,
         nth_error results_df
           (List.length (season_rows (loaded_sessions fastf1 year before))
            + k) = Some row /\
         Round row = round_num /\
         Driver row = Abbreviation x /\
         row_Points row = Points x /\
         CumulativePoints row =
         driver_sum (Abbreviation x)
           (season_rows
              (loaded_sessions fastf1 year (before ++ [round_num])))) /\
    (forall n row,
        nth_error results_df n = Some row ->
        CumulativePoints row =
        driver_sum (Driver row)
          (firstn (S n)
             (season_rows
                (loaded_sessions fastf1 year
                   (before ++ round_num :: after))))) /\
    (forall rows_before row rows_after,
        results_df = rows_before ++ row :: rows_after ->
        (forall later, In later rows_after -> Driver later <> Driver row) ->
        In (Driver row, CumulativePoints row) driver_standings /\
        forall p, In (Driver row, p) driver_standings ->
                  p = CumulativePoints row).
Proof.
  intros Hsched Hrounds Hload.
  rewrite export_full_season_details_run, Hsched.
  cbv zeta. rewrite Hrounds.
  set (st := fold_left (on_round fastf1 year export_session)
                       (before ++ round_num :: after) export_init).
  assert (Hinv : export_invariant
                   (season_log fastf1 year (before ++ round_num :: after))
                   st)
    by apply (export_invariant_rounds fastf1 year _ [] export_init
                export_invariant_init).
  do 3 eexists. split; [reflexivity|]. split; [|split].
  - intros Hnd k x Hk.
    assert (Hsplit : season_log fastf1 year (before ++ round_num :: after) =
                     season_log fastf1 year before ++
                     map (pair round_num) (results session) ++
                     season_log fastf1 year after).
    { rewrite season_log_app. f_equal.
      change (round_num :: after) with ([round_num] ++ after).
      rewrite season_log_app. f_equal.
      unfold season_log. simpl. rewrite Hload. apply app_nil_r. }
    rewrite Hsplit in Hinv.
    destruct (export_invariant_round_row _ _ _ _ _ k x Hinv Hnd Hk)
      as (row & Hrow & Hr & Hd & Hp & Hc).
    exists row.
    rewrite <- season_log_rows, length_map.
    split; [exact Hrow|]. split; [exact Hr|]. split; [exact Hd|].
    split; [exact Hp|].
    rewrite Hc, <- season_log_rows, season_log_app, map_app. f_equal.
    f_equal. unfold season_log. simpl. rewrite Hload, app_nil_r.
    rewrite map_map. symmetry. apply map_id.
  - intros n row Hn. rewrite <- season_log_rows.
    destruct Hinv as (_ & _ & _ & _ & _ & Hcum). apply Hcum, Hn.
  - intros rows_before row rows_after Hall Hlast.
    assert (Hget := export_invariant_last_row _ _ _ _ _ Hinv Hall Hlast).
    destruct Hinv as (_ & Hkeys & _).
    assert (Hperm := sorted_reverse_perm snd pts_ltb (driver_points st)).
    split.
    + eapply Permutation_in; [apply Permutation_sym, Hperm|].
      apply dict_get_In, Hget.
    + intros p Hp.
      assert (Hin : In (Driver row, p) (driver_points st))
        by (eapply Permutation_in; [apply Hperm | exact Hp]).
      apply (In_dict_get _ _ _ Hkeys) in Hin. congruence.
Qed.

(** ** More on the tallies *)

Lemma bump_get (d k : string) (counts : dict Z) :
  dict_get d (bump k counts) =
  if String.eqb d k
  then Some match dict_get d counts with Some n => n + 1 | None => 1 end
  else dict_get d counts.
Proof.
  induction counts as [|[k0 n] counts IH]; simpl.
  - destruct (String.eqb d k); reflexivity.
  - destruct (String.eqb_spec k k0) as [->|Hne]; simpl.
    + destruct (String.eqb d k0); reflexivity.
    + rewrite IH.
      destruct (String.eqb_spec d k0) as [->|Hne'].
      * destruct (String.eqb_spec k0 k) as [Heq|_]; [congruence|].
        reflexivity.
      * reflexivity.
Qed.

Lemma bump_NoDup (k : string) (counts : dict Z) :
  NoDup (map fst counts) -> NoDup (map fst (bump k counts)).
Proof.
  induction counts as [|[k0 n] counts IH]; simpl; intros Hnd.
  - constructor; [intros []|constructor].
  - inversion Hnd as [|? ? Hnotin Hrest]; subst.
    destruct (String.eqb_spec k k0) as [->|Hne]; simpl.
    + constructor; assumption.
    + constructor; [|apply IH, Hrest].
      rewrite bump_keys. intros [Heq|Hin]; [congruence|auto].
Qed.

Lemma bump_all_NoDup (drivers : list string) (counts : dict Z) :
  NoDup (map fst counts) -> NoDup (map fst (bump_all drivers counts)).
Proof.
  revert counts. unfold bump_all.
  induction drivers as [|d drivers IH]; intros counts Hnd; simpl.
  - exact Hnd.
  - apply IH, bump_NoDup, Hnd.
Qed.

Lemma occurrences_nonneg (d : string) (drivers : list string) :
  0 <= occurrences d drivers.
Proof. unfold occurrences. apply len_nonneg. Qed.

Lemma occurrences_cons (d k : string) (drivers : list string) :
  occurrences d (k :: drivers) =
  (if String.eqb d k then 1 else 0) + occurrences d drivers.
Proof.
  unfold occurrences, len. simpl.
  destruct (String.eqb d k); simpl List.length; lia.
Qed.

Lemma bump_all_get (d : string) (drivers : list string) :
  forall counts,
    dict_get d (bump_all drivers counts) =
    if occurrences d drivers =? 0 then dict_get d counts
    else Some (match dict_get d counts with Some n => n | None => 0 end
               + occurrences d drivers).
Proof.
  unfold bump_all.
  induction drivers as [|k drivers IH]; intros counts; simpl fold_left.
  - reflexivity.
  - rewrite IH, bump_get, occurrences_cons.
    pose proof (occurrences_nonneg d drivers) as Hpos.
    destruct (String.eqb d k).
    + destruct (Z.eqb_spec (occurrences d drivers) 0) as [Hz|Hz];
        destruct (Z.eqb_spec (1 + occurrences d drivers) 0) as [Hz'|Hz'];
        try lia; destruct (dict_get d counts); f_equal; lia.
    + destruct (Z.eqb_spec (occurrences d drivers) 0) as [Hz|Hz];
        destruct (Z.eqb_spec (0 + occurrences d drivers) 0) as [Hz'|Hz'];
        try lia; reflexivity.
Qed.

(** The table a counting method returns holds, for each driver counted,
    one row with the number of times the driver was counted. *)
Lemma returned_tally_rows (drivers : list string) :
  let tally := sorted_reverse snd Z.ltb (bump_all drivers []) in
  NoDup (map fst tally) /\
  forall d n, In (d, n) tally <-> n = occurrences d drivers /\ 1 <= n.
Proof.
  intros tally.
  assert (Hperm : Permutation tally (bump_all drivers []))
    by apply sorted_reverse_perm.
  assert (Hnd : NoDup (map fst (bump_all drivers [])))
    by (apply bump_all_NoDup; constructor).
  split.
  - eapply Permutation_NoDup;
      [apply Permutation_map, Permutation_sym, Hperm | exact Hnd].
  - intros d n.
    pose proof (bump_all_get d drivers []) as Hget. simpl in Hget.
    pose proof (occurrences_nonneg d drivers) as Hpos.
    split.
    + intros Hin.
      assert (Hin' : In (d, n) (bump_all drivers []))
        by (eapply Permutation_in; eassumption).
      apply (In_dict_get _ _ _ Hnd) in Hin'. rewrite Hget in Hin'.
      destruct (Z.eqb_spec (occurrences d drivers) 0); [discriminate|].
      injection Hin' as <-. lia.
    + intros [-> Hone].
      eapply Permutation_in; [apply Permutation_sym, Hperm|].
      apply dict_get_In. rewrite Hget.
      destruct (Z.eqb_spec (occurrences d drivers) 0); [lia|reflexivity].
Qed.

(** X1: the podium table has one row for each driver who was among the
    first three of a loaded round, holding the number of such rounds
    (rows); the DNF table likewise for the rows whose status is not
    [Finished]. *)
Theorem tally_rows_count_each_driver (self : F1Dashboard)
        (fastf1 : Provider Pts) (now year : Z) (race_schedule : list Event) :
  get_event_schedule fastf1 (effective_year self year) = Ok race_schedule ->
  let sessions :=
    loaded_sessions fastf1 year (completed_rounds race_schedule now) in
  (exists tally,
      count_podiums self fastf1 now year = Ok (Some tally) /\
      NoDup (map fst tally) /\
      forall d n,
        In (d, n) tally <->
        n = occurrences d (flat_map podium_drivers sessions) /\ 1 <= n) /\
  (exists tally,
      count_dnfs self fastf1 now year = Ok (Some tally) /\
      NoDup (map fst tally) /\
      forall d n,
        In (d, n) tally <->
        n = occurrences d (flat_map dnf_drivers sessions) /\ 1 <= n).
Proof.
  intros Hsched sessions. split.
  - rewrite count_podiums_run, Hsched.
    eexists. split; [reflexivity|].
    unfold podium_session. rewrite rounds_tally. fold sessions.
    apply (returned_tally_rows (flat_map podium_drivers sessions)).
  - rewrite count_dnfs_run, Hsched.
    eexists. split; [reflexivity|].
    unfold dnf_session. rewrite rounds_tally. fold sessions.
    apply (returned_tally_rows (flat_map dnf_drivers sessions)).
Qed.

Lemma insert_desc_descending (x : string * Z) (l : list (string * Z)) :
  descending l -> descending (insert_desc snd Z.ltb x l).
Proof.
  unfold descending. induction 1 as [|y l Hl IH Hy]; simpl.
  - constructor; constructor.
  - destruct (Z.ltb_spec (snd x) (snd y)) as [Hlt|Hge].
    + constructor; [exact IH|].
      eapply Permutation_Forall;
        [apply Permutation_sym, insert_desc_perm|].
      constructor; [lia|exact Hy].
    + constructor; [constructor; assumption|].
      constructor; [exact Hge|].
      eapply Forall_impl; [|exact Hy]. intros z Hz. simpl in Hz. lia.
Qed.

Lemma sorted_reverse_descending (l : list (string * Z)) :
  descending (sorted_reverse snd Z.ltb l).
Proof.
  induction l as [|x l IH]; simpl.
  - constructor.
  - apply insert_desc_descending, IH.
Qed.

(** X2: the tables [count_podiums] and [count_dnfs] return are in
    non-increasing order of count. *)
Theorem tallies_are_descending (self : F1Dashboard) (fastf1 : Provider Pts)
        (now year : Z) (tally : list (string * Z)) :
  count_podiums self fastf1 now year = Ok (Some tally) \/
  count_dnfs self fastf1 now year = Ok (Some tally) ->
  descending tally.
Proof.
  rewrite count_podiums_run, count_dnfs_run.
  destruct (get_event_schedule fastf1 (effective_year self year));
    intros [Heq|Heq]; try discriminate;
    injection Heq as <-; apply sorted_reverse_descending.
Qed.

(** ** More on the season export *)

Lemma key_sum_snoc (key : ResultRow Pts -> string) (k : string)
      (rows : list (ResultRow Pts)) (x : ResultRow Pts) :
  key_sum key k (rows ++ [x]) =
  if String.eqb (key x) k
  then pts_add (key_sum key k rows) (Points x)
  else key_sum key k rows.
Proof.
  unfold key_sum. rewrite filter_app. simpl.
  destruct (String.eqb (key x) k).
  - rewrite map_app, fold_left_app. reflexivity.
  - rewrite app_nil_r. reflexivity.
Qed.

Lemma key_sum_no_rows (key : ResultRow Pts -> string) (k : string)
      (rows : list (ResultRow Pts)) :
  has_key key k rows = false -> key_sum key k rows = pts_zero.
Proof.
  unfold has_key, key_sum. intros Hno.
  replace (filter (fun r => String.eqb (key r) k) rows)
    with (@nil (ResultRow Pts)); [reflexivity|].
  symmetry. induction rows as [|y rows IH]; simpl in *; [reflexivity|].
  apply orb_false_iff in Hno. destruct Hno as [Hy Hrows].
  rewrite Hy. apply IH, Hrows.
Qed.

Lemma has_key_snoc (key : ResultRow Pts -> string) (k : string)
      (rows : list (ResultRow Pts)) (x : ResultRow Pts) :
  has_key key k (rows ++ [x]) = has_key key k rows || String.eqb (key x) k.
Proof.
  unfold has_key. rewrite existsb_app. simpl.
  rewrite orb_false_r. reflexivity.
Qed.

Lemma points_table_row (key : ResultRow Pts -> string)
      (rows : list (ResultRow Pts)) (table : dict Pts) (x : ResultRow Pts) :
  points_table key rows table ->
  points_table key (rows ++ [x]) (add_points (key x) (Points x) table).
Proof.
  intros [Hnd Hget]. split; [apply add_points_keys, Hnd|].
  intros k. rewrite has_key_snoc, key_sum_snoc.
  destruct (String.eqb_spec (key x) k) as [<-|Hne].
  - rewrite orb_true_r, dict_get_add_points, Hget.
    destruct (has_key key (key x) rows) eqn:Hhas; [reflexivity|].
    rewrite (key_sum_no_rows _ _ _ Hhas). reflexivity.
  - rewrite orb_false_r, dict_get_add_points_other; [apply Hget|].
    apply String.eqb_neq. congruence.
Qed.

Lemma export_session_tables (round_num : Z) (session : Session Pts) :
  forall (rows : list (ResultRow Pts)) (st : ExportVars Pts),
    points_table Abbreviation rows (driver_points st) /\
    points_table TeamName rows (team_points st) ->
    points_table Abbreviation (rows ++ results session)
      (driver_points (export_session round_num session st)) /\
    points_table TeamName (rows ++ results session)
      (team_points (export_session round_num session st)).
Proof.
  unfold export_session. generalize (results session) as xs.
  induction xs as [|x xs IH]; intros rows st [Hd Ht]; simpl.
  - rewrite app_nil_r. auto.
  - replace (rows ++ x :: xs) with ((rows ++ [x]) ++ xs)
      by (rewrite <- app_assoc; reflexivity).
    apply IH. split; apply points_table_row; assumption.
Qed.

Lemma export_rounds_tables (fastf1 : Provider Pts) (year : Z)
      (rounds : list Z) :
  forall (rows : list (ResultRow Pts)) (st : ExportVars Pts),
    points_table Abbreviation rows (driver_points st) /\
    points_table TeamName rows (team_points st) ->
    let st' := fold_left (on_round fastf1 year export_session) rounds st in
    let rows' := rows ++ season_rows (loaded_sessions fastf1 year rounds) in
    points_table Abbreviation rows' (driver_points st') /\
    points_table TeamName rows' (team_points st').
Proof.
  induction rounds as [|r rounds IH]; intros rows st Htables; simpl.
  - rewrite app_nil_r. exact Htables.
  - unfold on_round at 2 4.
    destruct (get_session fastf1 year r) as [session|e]; simpl.
    + unfold season_rows in *. rewrite app_assoc.
      apply IH, export_session_tables, Htables.
    + apply IH, Htables.
Qed.

Lemma points_table_entries (key : ResultRow Pts -> string)
      (rows : list (ResultRow Pts)) (table standings : dict Pts) :
  points_table key rows table ->
  Permutation standings table ->
  NoDup (map fst standings) /\
  forall k p, In (k, p) standings <->
              has_key key k rows = true /\ p = key_sum key k rows.
Proof.
  intros [Hnd Hget] Hperm. split.
  - eapply Permutation_NoDup;
      [apply Permutation_map, Permutation_sym, Hperm | exact Hnd].
  - intros k p. split.
    + intros Hin.
      assert (Hin' : In (k, p) table)
        by (eapply Permutation_in; eassumption).
      apply (In_dict_get _ _ _ Hnd) in Hin'. rewrite Hget in Hin'.
      destruct (has_key key k rows); [|discriminate].
      injection Hin' as <-. auto.
    + intros [Hhas ->].
      eapply Permutation_in; [apply Permutation_sym, Hperm|].
      apply dict_get_In. rewrite Hget, Hhas. reflexivity.
Qed.

(** X3: the driver standings of the season export list each driver who
    has a result row in a loaded round exactly once, with the driver's
    points added up over all those rows; the team standings do the same
    for each team. *)
Theorem standings_hold_the_totals (self : F1Dashboard)
        (fastf1 : Provider Pts) (now year : Z) (race_schedule : list Event) :
  get_event_schedule fastf1 (effective_year self year) = Ok race_schedule ->
  let rows :=
    season_rows
      (loaded_sessions fastf1 year (completed_rounds race_schedule now)) in
  exists results_df driver_standings team_standings,
    export_full_season_details self fastf1 now year =
      Ok (Some (results_df, driver_standings, team_standings)) /\
    NoDup (map fst driver_standings) /\
    (forall d p,
        In (d, p) driver_standings <->
        has_key Abbreviation d rows = true /\
        p = key_sum Abbreviation d rows) /\
    NoDup (map fst team_standings) /\
    (forall t p,
        In (t, p) team_standings <->
        has_key TeamName t rows = true /\ p = key_sum TeamName t rows).
Proof.
  intros Hsched rows.
  rewrite export_full_season_details_run, Hsched. cbv zeta.
  do 3 eexists. split; [reflexivity|].
  destruct (export_rounds_tables fastf1 year
              (completed_rounds race_schedule now) [] export_init)
    as [Hd Ht].
  { split; split; simpl; auto; constructor. }
  simpl app in Hd, Ht. fold rows in Hd, Ht.
  destruct (points_table_entries _ _ _ _ Hd
              (sorted_reverse_perm snd pts_ltb _)) as [Hnd Hin].
  destruct (points_table_entries _ _ _ _ Ht
              (sorted_reverse_perm snd pts_ltb _)) as [Hnt Hit].
  auto.
Qed.

Lemma export_session_copies (round_num : Z) (session : Session Pts) :
  forall st : ExportVars Pts,
    map forget_cumulative
        (all_results (export_session round_num session st)) =
    map forget_cumulative (all_results st) ++
    map (copied_row round_num (EventName session)) (results session).
Proof.
  unfold export_session. generalize (results session) as xs.
  induction xs as [|x xs IH]; intros st; simpl.
  - rewrite app_nil_r. reflexivity.
  - rewrite IH. unfold export_row_step. cbn [all_results].
    rewrite map_app, <- app_assoc. reflexivity.
Qed.

Lemma export_rounds_copies (fastf1 : Provider Pts) (year : Z)
      (rounds : list Z) :
  forall st : ExportVars Pts,
    map forget_cumulative
        (all_results
           (fold_left (on_round fastf1 year export_session) rounds st)) =
    map forget_cumulative (all_results st) ++
    copied_rows fastf1 year rounds.
Proof.
  induction rounds as [|r rounds IH]; intros st; simpl.
  - rewrite app_nil_r. reflexivity.
  - rewrite IH. unfold on_round.
    destruct (get_session fastf1 year r) as [session|e]; simpl.
    + rewrite export_session_copies, <- app_assoc. reflexivity.
    + reflexivity.
Qed.

(** X4: the result table of the season export has one row for each
    result row of each loaded completed round, in the order of the
    rounds and of the provider's rows, with the round number, the event
    name and the driver, name, team, position, points and status of
    that row. *)
Theorem export_copies_every_result_row (self : F1Dashboard)
        (fastf1 : Provider Pts) (now year : Z) (race_schedule : list Event) :
  get_event_schedule fastf1 (effective_year self year) = Ok race_schedule ->
  exists results_df driver_standings team_standings,
    export_full_season_details self fastf1 now year =
      Ok (Some (results_df, driver_standings, team_standings)) /\
    map forget_cumulative results_df =
    copied_rows fastf1 year (completed_rounds race_schedule now).
Proof.
  intros Hsched.
  rewrite export_full_season_details_run, Hsched. cbv zeta.
  do 3 eexists. split; [reflexivity|].
  apply (export_rounds_copies fastf1 year _ export_init).
Qed.

(** ** The table of races *)

Lemma for_each_appends {St A B : Type} (body : A -> M St unit)
      (out : St -> list B) (f : A -> list B) :
  (forall x s, exists s', body x s = (Ok tt, s') /\ out s' = out s ++ f x) ->
  forall l s,
  exists s', for_each l body s = (Ok tt, s') /\
             out s' = out s ++ flat_map f l.
Proof.
  intros Hbody l. induction l as [|x l IH]; intros s; simpl.
  - exists s. split; [reflexivity|]. symmetry. apply app_nil_r.
  - unfold bind. destruct (Hbody x s) as (s1 & Hrun & Hout). rewrite Hrun.
    destruct (IH s1) as (s2 & Hrun2 & Hout2).
    exists s2. split; [exact Hrun2|].
    rewrite Hout2, Hout, <- app_assoc. reflexivity.
Qed.

Lemma for_each_from_appends {St A B : Type} (body : nat -> A -> M St unit)
      (out : St -> list B) (f : nat -> A -> list B) :
  (forall i x s,
      exists s', body i x s = (Ok tt, s') /\ out s' = out s ++ f i x) ->
  forall l start s,
  exists s', for_each_from start l body s = (Ok tt, s') /\
             out s' =
             out s ++ List.concat (map (fun ix => f (fst ix) (snd ix))
                                       (enumerate start l)).
Proof.
  intros Hbody l. induction l as [|x l IH]; intros start s; simpl.
  - exists s. split; [reflexivity|]. symmetry. apply app_nil_r.
  - unfold bind. destruct (Hbody start x s) as (s1 & Hrun & Hout).
    rewrite Hrun.
    destruct (IH (S start) s1) as (s2 & Hrun2 & Hout2).
    exists s2. split; [exact Hrun2|].
    rewrite Hout2, Hout, <- app_assoc. reflexivity.
Qed.

Lemma all_time_round_run (fastf1 : RaceProvider Pts) (str : Z -> string)
      (year round_num : Z) (st : AllTimeVars) :
  exists st',
    all_time_round fastf1 str year round_num st = (Ok tt, st') /\
    all_races st' = all_races st ++ round_races fastf1 str year round_num.
Proof.
  unfold all_time_round, round_races, race_info_of, fastest_cells,
    event_fields, try_except, bind, call, get, put, set_info, ret,
    dict_getitem.
  destruct (race_session_of fastf1 year round_num) as [session|e];
    [|eexists; split; [reflexivity|symmetry; apply app_nil_r]].
  destruct (dict_get "EventDate" (event session)) as [date|];
    [|eexists; split; [reflexivity|symmetry; apply app_nil_r]].
  destruct (dict_get "CircuitName" (event session)) as [circuit|];
    [|eexists; split; [reflexivity|symmetry; apply app_nil_r]].
  destruct (dict_get "Country" (event session)) as [country|];
    [|eexists; split; [reflexivity|symmetry; apply app_nil_r]].
  destruct (sort_values_Position (results (race session)))
    as [|winner rest]; simpl;
    [eexists; split; [reflexivity|symmetry; apply app_nil_r]|].
  destruct (pick_fastest session) as [fastest|e]; simpl;
    eexists; split; reflexivity.
Qed.

Lemma all_time_year_run (self : F1Dashboard) (fastf1 : RaceProvider Pts)
      (str : Z -> string) (now year : Z) (st : AllTimeVars) :
  exists st',
    all_time_year self fastf1 str now year st = (Ok tt, st') /\
    all_races st' = all_races st ++ year_races self fastf1 str now year.
Proof.
  unfold all_time_year, year_races, try_except, bind.
  rewrite get_race_schedule_run.
  change (get_event_schedule (provider_of fastf1))
    with (race_schedule_of fastf1).
  destruct (race_schedule_of fastf1 (effective_year self year))
    as [race_schedule|e].
  - destruct (for_each_appends (all_time_round fastf1 str year) all_races
                (round_races fastf1 str year)
                (all_time_round_run fastf1 str year)
                (completed_rounds race_schedule now) st)
      as (st' & Hrun & Hout).
    cbv beta iota zeta. rewrite Hrun.
    exists st'. split; [reflexivity|exact Hout].
  - exists st. split; [reflexivity|]. symmetry. apply app_nil_r.
Qed.

Lemma export_all_time_race_data_run (self : F1Dashboard)
      (fastf1 : RaceProvider Pts) (str : Z -> string) (clock : nat -> Z)
      (start_year : Z) (end_year : option Z) :
  export_all_time_race_data self fastf1 str clock start_year end_year =
  Ok (List.concat
        (map (fun iy => year_races self fastf1 str (clock (fst iy)) (snd iy))
             (enumerate 0
                (range start_year (last_year self end_year + 1))))).
Proof.
  unfold export_all_time_race_data, export_all_time_race_data_body, bind.
  destruct (for_each_from_appends
              (fun i year => all_time_year self fastf1 str (clock i) year)
              all_races
              (fun i year => year_races self fastf1 str (clock i) year)
              (fun i year s =>
                 all_time_year_run self fastf1 str (clock i) year s)
              (range start_year (last_year self end_year + 1)) 0%nat
              all_time_init)
    as (st & Hrun & Hout).
  cbv zeta. rewrite Hrun. simpl. rewrite Hout. reflexivity.
Qed.

Lemma sort_values_Position_nil (rows : list (ResultRow Pts)) :
  sort_values_Position rows = [] <-> rows = [].
Proof.
  split.
  - intros Hnil.
    apply Permutation_nil. rewrite <- Hnil. apply sort_values_Position_perm.
  - intros ->. apply Permutation_nil, Permutation_sym.
    apply (sort_values_Position_perm []).
Qed.

Lemma round_races_key (fastf1 : RaceProvider Pts) (str : Z -> string)
      (year round_num : Z) :
  map (fun row => (dict_get "Year" row, dict_get "Round" row))
      (round_races fastf1 str year round_num) =
  if gets_a_row fastf1 year round_num
  then [(Some (InfoInt year), Some (InfoInt round_num))]
  else [].
Proof.
  unfold round_races, gets_a_row.
  destruct (race_session_of fastf1 year round_num) as [session|e];
    [|reflexivity].
  destruct (event_fields session) as [fields|]; [|reflexivity].
  destruct (sort_values_Position (results (race session)))
    as [|winner rest] eqn:Hsort.
  - apply (proj1 (sort_values_Position_nil _)) in Hsort.
    rewrite Hsort. reflexivity.
  - destruct (results (race session)) as [|x xs] eqn:Hrows.
    + rewrite (proj2 (sort_values_Position_nil [])) in Hsort by reflexivity.
      discriminate Hsort.
    + reflexivity.
Qed.

Lemma event_fields_none (session : RaceSession Pts) :
  dict_get "CircuitName" (event session) = None ->
  event_fields session = None.
Proof.
  unfold event_fields. intros ->.
  destruct (dict_get "EventDate" (event session)); reflexivity.
Qed.

Lemma range_empty (lo hi : Z) : hi <= lo -> range lo hi = [].
Proof.
  intros Hle. unfold range.
  replace (Z.to_nat (hi - lo)) with 0%nat by lia. reflexivity.
Qed.

Lemma year_races_without_circuit (self : F1Dashboard)
      (fastf1 : RaceProvider Pts) (str : Z -> string) (now year : Z) :
  (forall y r session,
      race_session_of fastf1 y r = Ok session ->
      dict_get "CircuitName" (event session) = None) ->
  year_races self fastf1 str now year = [].
Proof.
  intros Hplain. unfold year_races.
  destruct (race_schedule_of fastf1 (effective_year self year))
    as [race_schedule|e]; [|reflexivity].
  generalize (completed_rounds race_schedule now) as rounds.
  induction rounds as [|r rounds IH]; simpl; [reflexivity|].
  rewrite IH, app_nil_r. unfold round_races.
  destruct (race_session_of fastf1 year r) as [session|e] eqn:Hload;
    [|reflexivity].
  rewrite (event_fields_none session (Hplain year r session Hload)).
  reflexivity.
Qed.

(** X5: [export_all_time_race_data] never raises; its table has one row
    for each completed round, of each year from [start_year] to the end
    year whose rounds can be listed, that loads, whose event has the
    labels [EventDate], [CircuitName] and [Country], and that has at
    least one result row, in the order of the years and rounds; any
    other round gets no row.  When the end year is before [start_year]
    the table is empty, and so it is when no event of the provider has
    the label [CircuitName]. *)
Theorem all_time_rows_follow_the_rounds (self : F1Dashboard)
        (fastf1 : RaceProvider Pts) (str : Z -> string) (clock : nat -> Z)
        (start_year : Z) (end_year : option Z) :
  exists races_df,
    export_all_time_race_data self fastf1 str clock start_year end_year =
      Ok races_df /\
    map (fun row => (dict_get "Year" row, dict_get "Round" row)) races_df =
    map (fun yr => (Some (InfoInt (fst yr)), Some (InfoInt (snd yr))))
        (recorded_rounds self fastf1 clock
           (enumerate 0
              (range start_year (last_year self end_year + 1)))) /\
    (last_year self end_year < start_year -> races_df = []) /\
    ((forall y r session,
         race_session_of fastf1 y r = Ok session ->
         dict_get "CircuitName" (event session) = None) ->
     races_df = []).
Proof.
  rewrite export_all_time_race_data_run. eexists. split; [reflexivity|].
  split; [|split].
  - generalize (enumerate 0
                  (range start_year (last_year self end_year + 1))) as years.
    induction years as [|[i year] years IH]; simpl; [reflexivity|].
    rewrite !map_app, IH. f_equal. clear IH.
    unfold year_races.
    destruct (race_schedule_of fastf1 (effective_year self year))
      as [race_schedule|e]; [|reflexivity].
    generalize (completed_rounds race_schedule (clock i)) as rounds.
    induction rounds as [|r rounds IHr]; simpl; [reflexivity|].
    rewrite map_app, IHr, round_races_key.
    destruct (gets_a_row fastf1 year r); reflexivity.
  - intros Hlt. rewrite range_empty by lia. reflexivity.
  - intros Hplain.
    generalize (enumerate 0
                  (range start_year (last_year self end_year + 1))) as years.
    induction years as [|[i year] years IH]; simpl; [reflexivity|].
    rewrite IH, app_nil_r.
    apply year_races_without_circuit, Hplain.
Qed.

Lemma position_ltb_irrefl (p : option Z) : position_ltb p p = false.
Proof. destruct p; simpl; [apply Z.ltb_irrefl|reflexivity]. Qed.

Lemma position_ltb_asym (p q : option Z) :
  position_ltb p q = true -> position_ltb q p = false.
Proof.
  destruct p, q; simpl; try reflexivity; try discriminate.
  rewrite Z.ltb_lt, Z.ltb_ge. lia.
Qed.

Lemma position_ltb_between (p q r : option Z) :
  position_ltb p q = false -> position_ltb q r = false ->
  position_ltb p r = false.
Proof.
  destruct p, q, r; simpl; try reflexivity; try discriminate.
  rewrite !Z.ltb_ge. lia.
Qed.

Lemma insert_asc_sorted (x : ResultRow Pts) (l : list (ResultRow Pts)) :
  StronglySorted
    (fun a b => position_ltb (Position b) (Position a) = false) l ->
  StronglySorted
    (fun a b => position_ltb (Position b) (Position a) = false)
    (insert_asc Position position_ltb x l).
Proof.
  induction 1 as [|y l Hl IH Hy]; simpl.
  - constructor; constructor.
  - destruct (position_ltb (Position y) (Position x)) eqn:Hyx.
    + constructor; [exact IH|].
      eapply Permutation_Forall;
        [apply Permutation_sym, insert_asc_perm|].
      constructor; [apply position_ltb_asym, Hyx|exact Hy].
    + constructor; [constructor; assumption|].
      constructor; [exact Hyx|].
      eapply Forall_impl; [|exact Hy]. intros z Hz. simpl in Hz.
      eapply position_ltb_between; eassumption.
Qed.

Lemma sort_values_Position_sorted (rows : list (ResultRow Pts)) :
  StronglySorted
    (fun a b => position_ltb (Position b) (Position a) = false)
    (sort_values_Position rows).
Proof.
  unfold sort_values_Position. generalize (tie_order rows) as l.
  induction l as [|x l IH]; simpl.
  - constructor.
  - apply insert_asc_sorted, IH.
Qed.

Lemma sorted_fixes_sorted (l : list (ResultRow Pts)) :
  StronglySorted
    (fun a b => position_ltb (Position b) (Position a) = false) l ->
  sorted Position position_ltb l = l.
Proof.
  induction 1 as [|x l Hl IH Hx]; simpl; [reflexivity|].
  rewrite IH. destruct l as [|y l]; [reflexivity|]. simpl.
  inversion Hx as [|? ? Hxy _]; subst. rewrite Hxy. reflexivity.
Qed.

(** Whatever sorted rearrangement of the rows the sorting algorithm
    returns, [sort_values_Position] is that algorithm for the
    [tie_order] it induces. *)
Lemma sort_values_Position_any
      (sort : list (ResultRow Pts) -> list (ResultRow Pts))
      (Hperm : forall rows, Permutation (sort rows) rows) :
  (forall rows,
      StronglySorted
        (fun a b => position_ltb (Position b) (Position a) = false)
        (sort rows)) ->
  forall rows,
    @sort_values_Position Pts
      {| tie_order := sort; tie_order_perm := Hperm |} rows = sort rows.
Proof.
  intros Hsorted rows. unfold sort_values_Position. simpl.
  apply sorted_fixes_sorted, Hsorted.
Qed.

(** The first row after sorting by position: no row comes before it. *)
Lemma sort_values_Position_first (rows : list (ResultRow Pts))
      (first : ResultRow Pts) (rest : list (ResultRow Pts)) :
  sort_values_Position rows = first :: rest ->
  In first rows /\
  forall x, In x rows ->
            position_ltb (Position x) (Position first) = false.
Proof.
  intros Hsort.
  pose proof (sort_values_Position_perm rows) as Hperm.
  pose proof (sort_values_Position_sorted rows) as Hsorted.
  rewrite Hsort in Hperm, Hsorted. split.
  - eapply Permutation_in; [exact Hperm|]. left. reflexivity.
  - intros x Hx.
    assert (Hx' : In x (first :: rest))
      by (eapply Permutation_in; [apply Permutation_sym, Hperm|exact Hx]).
    inversion Hsorted as [|? ? _ Hall]; subst.
    destruct Hx' as [<-|Hx']; [apply position_ltb_irrefl|].
    rewrite Forall_forall in Hall. apply Hall, Hx'.
Qed.

Lemma In_all_time_rows (self : F1Dashboard) (fastf1 : RaceProvider Pts)
      (str : Z -> string) (clock : nat -> Z) (years : list (nat * Z))
      (row : dict info) :
  In row
     (List.concat
        (map (fun iy => year_races self fastf1 str (clock (fst iy)) (snd iy))
             years)) ->
  exists year round_num session fields winner rest,
    race_session_of fastf1 year round_num = Ok session /\
    sort_values_Position (results (race session)) = winner :: rest /\
    row = race_info_of str year round_num session fields winner.
Proof.
  intros Hin. apply in_concat in Hin. destruct Hin as (l & Hl & Hin).
  apply in_map_iff in Hl. destruct Hl as ([i year] & <- & _).
  unfold year_races in Hin. simpl in Hin.
  destruct (race_schedule_of fastf1 (effective_year self year))
    as [race_schedule|e]; [|destruct Hin].
  apply in_flat_map in Hin. destruct Hin as (r & _ & Hin).
  unfold round_races in Hin.
  destruct (race_session_of fastf1 year r) as [session|e] eqn:Hload;
    [|destruct Hin].
  destruct (event_fields session) as [fields|]; [|destruct Hin].
  destruct (sort_values_Position (results (race session)))
    as [|winner rest] eqn:Hsort; [destruct Hin|].
  destruct Hin as [<-|[]].
  exists year, r, session, fields, winner, rest. auto.
Qed.

(** X6: every row of the table of races names as winner a result row of
    its session that no row of the session precedes in position (a row
    without a position precedes none), and gives that row's team. *)
Theorem all_time_winner_is_first (self : F1Dashboard)
        (fastf1 : RaceProvider Pts) (str : Z -> string) (clock : nat -> Z)
        (start_year : Z) (end_year : option Z) (races_df : list (dict info))
        (row : dict info) :
  export_all_time_race_data self fastf1 str clock start_year end_year =
    Ok races_df ->
  In row races_df ->
  exists year round_num session winner,
    race_session_of fastf1 year round_num = Ok session /\
    In winner (results (race session)) /\
    (forall x, In x (results (race session)) ->
               position_ltb (Position x) (Position winner) = false) /\
    dict_get "Year" row = Some (InfoInt year) /\
    dict_get "Round" row = Some (InfoInt round_num) /\
    dict_get "Winner" row = Some (InfoStr (FullName winner)) /\
    dict_get "WinningTeam" row = Some (InfoStr (TeamName winner)).
Proof.
  rewrite export_all_time_race_data_run. intros [= <-] Hin.
  apply In_all_time_rows in Hin.
  destruct Hin
    as (year & r & session & fields & winner & rest & Hload & Hsort & ->).
  destruct (sort_values_Position_first _ _ _ Hsort) as [Hin Hfirst].
  exists year, r, session, winner. repeat split; auto.
Qed.

Lemma In_enumerate {A : Type} (l : list A) :
  forall (start i : nat) (x : A),
    nth_error l i = Some x -> In ((start + i)%nat, x) (enumerate start l).
Proof.
  induction l as [|a l IH]; intros start i x Hi.
  - destruct i; discriminate.
  - destruct i as [|i]; simpl in *.
    + injection Hi as <-. left. f_equal. lia.
    + right. replace (start + S i)%nat with (S start + i)%nat by lia.
      apply IH, Hi.
Qed.

(** X7: a completed round of a year asked for that loads, whose event
    has the three labels and that has a result row is listed in the
    table of races whether or not a fastest lap can be picked: its row
    carries the driver and the time of the fastest lap when one can be
    picked and ["N/A"] in both cells when picking it raises; and every
    row of the table is of that kind. *)
Theorem all_time_fastest_lap_or_na (self : F1Dashboard)
        (fastf1 : RaceProvider Pts) (str : Z -> string) (clock : nat -> Z)
        (start_year : Z) (end_year : option Z) (races_df : list (dict info)) :
  export_all_time_race_data self fastf1 str clock start_year end_year =
    Ok races_df ->
  (forall i year race_schedule round_num session,
      nth_error (range start_year (last_year self end_year + 1)) i =
        Some year ->
      race_schedule_of fastf1 (effective_year self year) =
        Ok race_schedule ->
      In round_num (completed_rounds race_schedule (clock i)) ->
      race_session_of fastf1 year round_num = Ok session ->
      event_fields session <> None ->
      results (race session) <> [] ->
      exists row,
        In row races_df /\
        dict_get "Year" row = Some (InfoInt year) /\
        dict_get "Round" row = Some (InfoInt round_num) /\
        dict_get "FastestLapDriver" row =
          Some (InfoStr (fst (fastest_cells str session))) /\
        dict_get "FastestLapTime" row =
          Some (InfoStr (snd (fastest_cells str session)))) /\
  (forall row,
      In row races_df ->
      exists year round_num session,
        race_session_of fastf1 year round_num = Ok session /\
        dict_get "Year" row = Some (InfoInt year) /\
        dict_get "Round" row = Some (InfoInt round_num) /\
        match pick_fastest session with
        | Ok fastest =>
            dict_get "FastestLapDriver" row =
              Some (InfoStr (lap_Driver fastest)) /\
            dict_get "FastestLapTime" row =
              Some (InfoStr (str (LapTime fastest)))
        | Raise _ =>
            dict_get "FastestLapDriver" row = Some (InfoStr "N/A") /\
            dict_get "FastestLapTime" row = Some (InfoStr "N/A")
        end).
Proof.
  rewrite export_all_time_race_data_run. intros [= <-]. split.
  - intros i year race_schedule r session Hyear Hsched Hr Hload Hfields
           Hrows.
    destruct (event_fields session) as [fields|] eqn:Hf;
      [|destruct (Hfields eq_refl)].
    destruct (sort_values_Position (results (race session)))
      as [|winner rest] eqn:Hsort;
      [apply (proj1 (sort_values_Position_nil _)) in Hsort;
       destruct (Hrows Hsort)|].
    exists (race_info_of str year r session fields winner).
    split; [|repeat split].
    apply in_concat.
    exists (year_races self fastf1 str (clock i) year). split.
    + apply in_map_iff. exists (i, year). split; [reflexivity|].
      apply (In_enumerate _ 0%nat i year Hyear).
    + unfold year_races. rewrite Hsched. apply in_flat_map.
      exists r. split; [exact Hr|].
      unfold round_races. rewrite Hload, Hf, Hsort. left. reflexivity.
  - intros row Hin. apply In_all_time_rows in Hin.
    destruct Hin
      as (year & r & session & fields & winner & rest & Hload & Hsort & ->).
    exists year, r, session. split; [exact Hload|].
    split; [reflexivity|]. split; [reflexivity|].
    unfold race_info_of, fastest_cells.
    destruct (pick_fastest session); split; reflexivity.
Qed.

(** ** Reading an answer, the next race, the fastest lap *)

Lemma get_valid_input_ranged (int : string -> option Z) (lo hi : Z)
      (stdin : list string) :
  match get_valid_input int (Some (lo, hi)) stdin with
  | (Ok a, rest) =>
      exists skipped line v,
        stdin = skipped ++ line :: rest /\
        Forall (rejected int lo hi) skipped /\
        int line = Some v /\ a = Number v /\ lo <= v <= hi
  | (Raise _, rest) => rest = [] /\ Forall (rejected int lo hi) stdin
  end.
Proof.
  induction stdin as [|line stdin IH]; simpl.
  - split; [reflexivity|constructor].
  - destruct (int line) as [v|] eqn:Hint.
    + destruct ((lo <=? v) && (v <=? hi)) eqn:Hin.
      * apply andb_true_iff in Hin. destruct Hin as [Hlo Hhi].
        apply Z.leb_le in Hlo. apply Z.leb_le in Hhi.
        exists [], line, v. repeat split; auto.
      * assert (Hrej : rejected int lo hi line).
        { unfold rejected. rewrite Hint. intros [Hlo Hhi].
          apply Z.leb_le in Hlo. apply Z.leb_le in Hhi.
          rewrite Hlo, Hhi in Hin. discriminate. }
        destruct (get_valid_input int (Some (lo, hi)) stdin)
          as [[a|e] rest].
        -- destruct IH as (skipped & l & w & -> & Hsk & Hl & Ha & Hw).
           exists (line :: skipped), l, w.
           split; [reflexivity|]. split; [constructor; assumption|]. auto.
        -- destruct IH as [-> Hall]. split; [reflexivity|].
           constructor; assumption.
    + assert (Hrej : rejected int lo hi line)
        by (unfold rejected; rewrite Hint; exact I).
      destruct (get_valid_input int (Some (lo, hi)) stdin) as [[a|e] rest].
      * destruct IH as (skipped & l & w & -> & Hsk & Hl & Ha & Hw).
        exists (line :: skipped), l, w.
        split; [reflexivity|]. split; [constructor; assumption|]. auto.
      * destruct IH as [-> Hall]. split; [reflexivity|].
        constructor; assumption.
Qed.

(** X8: without a range [get_valid_input] returns the first line as it
    is; with a range it returns the first line that parses to a number
    within the bounds, both included, having read and rejected every
    line before it, and the number it returns is within the bounds; it
    raises only when every line left is rejected. *)
Theorem get_valid_input_first_valid (int : string -> option Z) :
  (forall line stdin,
      get_valid_input int None (line :: stdin) = (Ok (Text line), stdin)) /\
  (forall lo hi stdin a rest,
      get_valid_input int (Some (lo, hi)) stdin = (Ok a, rest) ->
      exists skipped line v,
        stdin = skipped ++ line :: rest /\
        Forall (rejected int lo hi) skipped /\
        int line = Some v /\ a = Number v /\ lo <= v <= hi) /\
  (forall lo hi stdin e rest,
      get_valid_input int (Some (lo, hi)) stdin = (Raise e, rest) ->
      rest = [] /\ Forall (rejected int lo hi) stdin).
Proof.
  split; [reflexivity|]. split.
  - intros lo hi stdin a rest Hrun.
    pose proof (get_valid_input_ranged int lo hi stdin) as Hspec.
    rewrite Hrun in Hspec. exact Hspec.
  - intros lo hi stdin e rest Hrun.
    pose proof (get_valid_input_ranged int lo hi stdin) as Hspec.
    rewrite Hrun in Hspec. exact Hspec.
Qed.

Lemma In_firstn {A : Type} (n : nat) (x : A) (l : list A) :
  In x (firstn n l) -> In x l.
Proof.
  intros Hin. rewrite <- (firstn_skipn n l). apply in_or_app. left. exact Hin.
Qed.

Lemma upcoming_skips (before : list Event) (now : Z) :
  (forall e, In e before -> EventDate e <= now) ->
  forall after, upcoming (before ++ after) now = upcoming after now.
Proof.
  unfold upcoming. intros Hpast after. rewrite filter_app.
  replace (filter (fun ev => now <? EventDate ev) before)
    with (@nil Event); [reflexivity|].
  symmetry. induction before as [|e before IH]; simpl; [reflexivity|].
  destruct (Z.ltb_spec now (EventDate e)) as [Hlt|_].
  - specialize (Hpast e (or_introl eq_refl)). lia.
  - apply IH. intros e' He'. apply Hpast. right. exact He'.
Qed.

(** X9: [display_race_schedule] returns the schedule it could fetch, or
    nothing; the race it shows as next is the first event of the
    schedule dated strictly after the clock reading, and there is none
    when no event is; an event shown as next is never among the
    completed rounds, and an event dated exactly at the clock reading
    is neither completed nor shown as next. *)
Theorem upcoming_is_first_after_now (self : F1Dashboard)
        (fastf1 : Provider Pts) (year : Z) (race_schedule : list Event)
        (now : Z) :
  display_race_schedule self fastf1 year =
    Ok match get_event_schedule fastf1 (effective_year self year) with
       | Ok race_schedule => Some race_schedule
       | Raise _ => None
       end /\
  (forall before ev after,
      race_schedule = before ++ ev :: after ->
      (forall e, In e before -> EventDate e <= now) ->
      now < EventDate ev ->
      upcoming race_schedule now = [ev]) /\
  ((forall e, In e race_schedule -> EventDate e <= now) ->
   upcoming race_schedule now = []) /\
  (forall ev, In ev (upcoming race_schedule now) ->
              In ev race_schedule /\ completed_rounds [ev] now = []) /\
  (forall ev, EventDate ev = now ->
              ~ In ev (upcoming race_schedule now) /\
              completed_rounds [ev] now = []).
Proof.
  split; [|split; [|split; [|split]]].
  - unfold display_race_schedule, bind. rewrite get_race_schedule_run.
    destruct (get_event_schedule fastf1 _); reflexivity.
  - intros before ev after -> Hpast Hlt.
    rewrite (upcoming_skips before now Hpast). unfold upcoming. simpl.
    destruct (Z.ltb_spec now (EventDate ev)); [reflexivity|lia].
  - intros Hpast. rewrite <- (app_nil_r race_schedule).
    rewrite (upcoming_skips race_schedule now Hpast). reflexivity.
  - intros ev Hin. unfold upcoming in Hin. apply In_firstn in Hin.
    apply filter_In in Hin. destruct Hin as [Hin Hlt].
    apply Z.ltb_lt in Hlt. split; [exact Hin|].
    unfold completed_rounds. simpl.
    destruct (Z.ltb_spec (EventDate ev) now); [lia|reflexivity].
  - intros ev Hnow. split.
    + intros Hin. unfold upcoming in Hin. apply In_firstn in Hin.
      apply filter_In in Hin. destruct Hin as [_ Hlt].
      apply Z.ltb_lt in Hlt. lia.
    + unfold completed_rounds. simpl.
      destruct (Z.ltb_spec (EventDate ev) now); [lia|reflexivity].
Qed.

(** X10: [get_fastest_lap] never raises; it returns a lap exactly when
    the session loads and a fastest lap can be picked, and that lap is
    the one picked. *)
Theorem get_fastest_lap_or_nothing (fastf1 : RaceProvider Pts)
        (year race_round : Z) :
  (exists r, get_fastest_lap fastf1 year race_round = Ok r) /\
  (forall lap,
      get_fastest_lap fastf1 year race_round = Ok (Some lap) <->
      exists session,
        race_session_of fastf1 year race_round = Ok session /\
        pick_fastest session = Ok lap).
Proof.
  unfold get_fastest_lap, get_fastest_lap_body, get_race_results,
    try_except, bind, call, ret.
  destruct (race_session_of fastf1 year race_round) as [session|e]; simpl.
  - destruct (pick_fastest session) as [fastest|e] eqn:Hpick; simpl.
    + split; [eexists; reflexivity|]. intros lap. split.
      * intros [= <-]. exists session. auto.
      * intros (s & [= <-] & Hlap). congruence.
    + split; [eexists; reflexivity|]. intros lap. split.
      * discriminate.
      * intros (s & [= <-] & Hlap). congruence.
  - split; [eexists; reflexivity|]. intros lap. split.
    + discriminate.
    + intros (s & Hs & _). discriminate.
Qed.

(** ** Season totals of a driver, and who is on the podium *)

Lemma wins_of_app (rows rows' : list (ResultRow Pts)) :
  wins_of (rows ++ rows') = wins_of rows + wins_of rows'.
Proof. unfold wins_of. rewrite filter_app. apply len_app. Qed.

Lemma points_of_app (rows rows' : list (ResultRow Pts)) :
  points_of (rows ++ rows') =
  fold_left pts_add (map Points rows') (points_of rows).
Proof. unfold points_of. rewrite map_app, fold_left_app. reflexivity. Qed.

Lemma add_result_first_row (rows : list (ResultRow Pts))
      (seen : list (ResultRow Pts)) :
  add_result rows (points_of seen, wins_of seen) =
  (points_of (seen ++ firstn 1 rows), wins_of (seen ++ firstn 1 rows)).
Proof.
  destruct rows as [|r rows]; simpl.
  - rewrite app_nil_r. reflexivity.
  - rewrite points_of_app, wins_of_app. unfold wins_of. simpl.
    destruct (position_is (Position r) 1); unfold len; simpl;
      f_equal; lia.
Qed.

Lemma season_totals_from (fastf1 : Provider Pts) (year : Z)
      (driver1 driver2 : string) (rounds : list Z) :
  forall (seen : list (Session Pts)) (st : CompareVars Pts),
    driver1_points st = points_of (first_rows driver1 seen) ->
    driver1_wins st = wins_of (first_rows driver1 seen) ->
    driver2_points st = points_of (first_rows driver2 seen) ->
    driver2_wins st = wins_of (first_rows driver2 seen) ->
    let st' := fold_left (on_round fastf1 year
                            (compare_session driver1 driver2)) rounds st in
    let all := seen ++ loaded_sessions fastf1 year rounds in
    driver1_points st' = points_of (first_rows driver1 all) /\
    driver1_wins st' = wins_of (first_rows driver1 all) /\
    driver2_points st' = points_of (first_rows driver2 all) /\
    driver2_wins st' = wins_of (first_rows driver2 all).
Proof.
  induction rounds as [|r rounds IH]; intros seen st Hp1 Hw1 Hp2 Hw2; simpl.
  - rewrite app_nil_r. auto.
  - unfold on_round at 2 4 6 8.
    destruct (get_session fastf1 year r) as [session|e]; simpl.
    + replace (seen ++ session :: loaded_sessions fastf1 year rounds)
        with ((seen ++ [session]) ++ loaded_sessions fastf1 year rounds)
        by (rewrite <- app_assoc; reflexivity).
      assert (Hfirst : forall d,
                 first_rows d (seen ++ [session]) =
                 first_rows d seen ++ firstn 1 (driver_result session d)).
      { intros d. unfold first_rows. rewrite flat_map_app. simpl.
        rewrite app_nil_r. reflexivity. }
      apply IH; unfold compare_session; cbn [driver1_points driver1_wins
                                              driver2_points driver2_wins];
        rewrite ?Hp1, ?Hw1, ?Hp2, ?Hw2, add_result_first_row, Hfirst;
        reflexivity.
    + apply IH; assumption.
Qed.

Lemma StronglySorted_split {A : Type} (R : A -> A -> Prop) (l1 l2 : list A) :
  StronglySorted R (l1 ++ l2) ->
  forall x y, In x l1 -> In y l2 -> R x y.
Proof.
  induction l1 as [|a l1 IH]; simpl; intros Hs x y Hx Hy; [destruct Hx|].
  inversion Hs as [|? ? Hrest Hall]; subst.
  destruct Hx as [<-|Hx].
  - rewrite Forall_forall in Hall. apply Hall, in_or_app. right. exact Hy.
  - apply (IH Hrest x y Hx Hy).
Qed.

(** X12: the drivers [count_podiums] counts for a loaded round are those
    of up to three of its result rows, and no row left out has a
    position before that of a row counted (a row without a position is
    before none). *)
Theorem podium_rows_come_first (session : Session Pts) :
  exists counted left_out,
    Permutation (counted ++ left_out) (results session) /\
    podium_drivers session = map Abbreviation counted /\
    len counted = Z.min 3 (len (results session)) /\
    forall x y, In x counted -> In y left_out ->
                position_ltb (Position y) (Position x) = false.
Proof.
  exists (firstn 3 (sort_values_Position (results session))),
         (skipn 3 (sort_values_Position (results session))).
  split; [rewrite firstn_skipn; apply sort_values_Position_perm|].
  split; [reflexivity|]. split.
  - rewrite <- len_podium_drivers. unfold podium_drivers, len.
    rewrite length_map. reflexivity.
  - apply StronglySorted_split. rewrite firstn_skipn.
    apply sort_values_Position_sorted.
Qed.

(** ** Each driver's season, and the rounds that are processed *)

Lemma season_record_counters (year : Z) (driver1 driver2 : string)
      (st st' : CompareVars Pts) :
  driver1_points st = driver1_points st' ->
  driver1_wins st = driver1_wins st' ->
  driver2_points st = driver2_points st' ->
  driver2_wins st = driver2_wins st' ->
  season_record year driver1 driver2 st =
  season_record year driver1 driver2 st'.
Proof.
  destruct st, st'. simpl. intros -> -> -> ->. reflexivity.
Qed.

(** X11: the record [compare_drivers] returns for a year holds, for each
    driver, the points of the driver's row (the first with the
    abbreviation) in each loaded completed round of the year, added up
    in order from [0], and as wins the number of those rows with
    position 1: what it gives one driver does not depend on who the
    other driver is.  The loop over the rounds leaves exactly these
    values in the four counters. *)
Theorem season_totals_of_each_driver (self : F1Dashboard)
        (fastf1 : Provider Pts) (clock : nat -> Z)
        (driver1 driver2 : string) :
  (forall years,
      compare_drivers self fastf1 clock driver1 driver2 years =
      Ok (List.concat
            (map (fun iy =>
                    match get_event_schedule fastf1
                            (effective_year self (snd iy)) with
                    | Ok race_schedule =>
                        [ season_record (snd iy) driver1 driver2
                            (counters_of driver1 driver2
                               (loaded_sessions fastf1 (snd iy)
                                  (completed_rounds race_schedule
                                     (clock (fst iy))))) ]
                    | Raise _ => []
                    end)
                 (enumerate 0 years)))) /\
  (forall year rounds,
      exists st,
        for_each rounds (compare_round fastf1 year driver1 driver2)
                 compare_init = (Ok tt, st) /\
        let sessions := loaded_sessions fastf1 year rounds in
        driver1_points st = points_of (first_rows driver1 sessions) /\
        driver1_wins st = wins_of (first_rows driver1 sessions) /\
        driver2_points st = points_of (first_rows driver2 sessions) /\
        driver2_wins st = wins_of (first_rows driver2 sessions)).
Proof.
  split.
  - intros years. rewrite compare_drivers_run. do 2 f_equal.
    apply map_ext. intros [i year]. unfold year_records. simpl.
    destruct (get_event_schedule fastf1 (effective_year self year))
      as [race_schedule|e]; [|reflexivity].
    f_equal.
    destruct (season_totals_from fastf1 year driver1 driver2
                (completed_rounds race_schedule (clock i)) [] compare_init
                eq_refl eq_refl eq_refl eq_refl)
      as (Hp1 & Hw1 & Hp2 & Hw2).
    apply season_record_counters; assumption.
  - intros year rounds.
    rewrite (for_each_steps _ _
               (compare_round_run fastf1 year driver1 driver2)).
    eexists. split; [reflexivity|].
    apply (season_totals_from fastf1 year driver1 driver2 rounds []
             compare_init); reflexivity.
Qed.

Lemma In_loaded_sessions (fastf1 : Provider Pts) (year : Z)
      (rounds : list Z) (r : Z) (session : Session Pts) :
  In r rounds -> get_session fastf1 year r = Ok session ->
  In session (loaded_sessions fastf1 year rounds).
Proof.
  intros Hr Hload. unfold loaded_sessions. apply in_flat_map.
  exists r. split; [exact Hr|]. rewrite Hload. left. reflexivity.
Qed.

Lemma returned_tally_has (drivers : list string) (d : string) :
  In d drivers ->
  exists n, In (d, n) (sorted_reverse snd Z.ltb (bump_all drivers [])).
Proof.
  intros Hd. destruct (returned_tally drivers) as (_ & _ & Hkeys).
  apply Hkeys in Hd. apply in_map_iff in Hd.
  destruct Hd as ([k n] & Hk & Hin). simpl in Hk. subst k.
  exists n. exact Hin.
Qed.

(** C4: the loops of [count_podiums], [count_dnfs] and
    [export_full_season_details] go over exactly the rounds whose
    [EventDate] is strictly earlier than the clock reading: the methods
    return what processing those rounds in turn leaves, every such round
    that loads shows in the result (its podium drivers and its DNF
    drivers have a row in the tallies, each of its result rows has a row
    in the export), and what the provider holds for any other round has
    no influence on the result. *)
Theorem only_completed_rounds_are_processed :
  (forall (race_schedule : list Event) (now r : Z),
      In r (completed_rounds race_schedule now) <->
      exists ev,
        In ev race_schedule /\ RoundNumber ev = r /\ EventDate ev < now) /\
  (forall (self : F1Dashboard) (fastf1 fastf1' : Provider Pts)
          (now year : Z) (race_schedule : list Event),
      get_event_schedule fastf1 (effective_year self year) =
        Ok race_schedule ->
      get_event_schedule fastf1' (effective_year self year) =
        Ok race_schedule ->
      (forall ev, In ev race_schedule -> EventDate ev < now ->
                  get_session fastf1' year (RoundNumber ev) =
                  get_session fastf1 year (RoundNumber ev)) ->
      count_podiums self fastf1 now year =
        count_podiums self fastf1' now year /\
      count_dnfs self fastf1 now year = count_dnfs self fastf1' now year /\
      export_full_season_details self fastf1 now year =
        export_full_season_details self fastf1' now year) /\
  (forall (self : F1Dashboard) (fastf1 : Provider Pts) (now year : Z)
          (race_schedule : list Event),
      get_event_schedule fastf1 (effective_year self year) =
        Ok race_schedule ->
      let rounds := completed_rounds race_schedule now in
      count_podiums self fastf1 now year =
        Ok (Some (sorted_reverse snd Z.ltb
                    (fold_left (on_round fastf1 year podium_session)
                               rounds []))) /\
      count_dnfs self fastf1 now year =
        Ok (Some (sorted_reverse snd Z.ltb
                    (fold_left (on_round fastf1 year dnf_session)
                               rounds []))) /\
      (exists results_df driver_standings team_standings,
          export_full_season_details self fastf1 now year =
            Ok (Some (results_df, driver_standings, team_standings)) /\
          results_df =
          all_results (fold_left (on_round fastf1 year export_session)
                                 rounds export_init)) /\
      (forall r session,
          In r rounds ->
          get_session fastf1 year r = Ok session ->
          (forall d, In d (podium_drivers session) ->
                     exists tally n,
                       count_podiums self fastf1 now year =
                         Ok (Some tally) /\
                       In (d, n) tally) /\
          (forall d, In d (dnf_drivers session) ->
                     exists tally n,
                       count_dnfs self fastf1 now year = Ok (Some tally) /\
                       In (d, n) tally) /\
          (forall x, In x (results session) ->
                     exists results_df driver_standings team_standings row,
                       export_full_season_details self fastf1 now year =
                         Ok (Some (results_df, driver_standings,
                                   team_standings)) /\
                       In row results_df /\
                       Round row = r /\
                       Driver row = Abbreviation x /\
                       row_Points row = Points x))).
Proof.
  split; [exact completed_rounds_In|]. split.
  - intros self fastf1 fastf1' now year race_schedule Hsched Hsched' Hsame.
    assert (Hloop : forall (St : Type) (f : Z -> Session Pts -> St -> St) st,
               season_loop self fastf1 f now year st =
               season_loop self fastf1' f now year st).
    { intros St f st. unfold season_loop. rewrite Hsched, Hsched'. f_equal.
      symmetry. apply rounds_same_sessions. intros r Hr.
      apply completed_rounds_In in Hr. destruct Hr as (ev & Hin & <- & Hlt).
      apply Hsame; assumption. }
    rewrite !count_podiums_loop, !count_dnfs_loop,
      !export_full_season_details_loop, !Hloop.
    repeat split.
  - intros self fastf1 now year race_schedule Hsched rounds.
    rewrite count_podiums_run, count_dnfs_run,
      export_full_season_details_run, Hsched. cbv zeta.
    split; [reflexivity|]. split; [reflexivity|].
    split; [do 3 eexists; split; reflexivity|].
    intros r session Hr Hload.
    pose proof (In_loaded_sessions fastf1 year rounds r session Hr Hload)
      as Hsession.
    split; [|split].
    + intros d Hd. unfold podium_session. rewrite rounds_tally.
      destruct (returned_tally_has
                  (flat_map podium_drivers
                            (loaded_sessions fastf1 year rounds)) d)
        as (n & Hn).
      { apply in_flat_map. exists session. auto. }
      eexists. exists n. split; [reflexivity|exact Hn].
    + intros d Hd. unfold dnf_session. rewrite rounds_tally.
      destruct (returned_tally_has
                  (flat_map dnf_drivers
                            (loaded_sessions fastf1 year rounds)) d)
        as (n & Hn).
      { apply in_flat_map. exists session. auto. }
      eexists. exists n. split; [reflexivity|exact Hn].
    + intros x Hx.
      assert (Hcopy : In (copied_row r (EventName session) x)
                         (copied_rows fastf1 year rounds)).
      { unfold copied_rows. apply in_flat_map. exists r.
        split; [exact Hr|]. rewrite Hload. apply in_map, Hx. }
      pose proof (export_rounds_copies fastf1 year rounds export_init)
        as Hrows.
      simpl in Hrows. rewrite <- Hrows in Hcopy.
      apply in_map_iff in Hcopy. destruct Hcopy as (row & Hrow & Hin).
      do 3 eexists. exists row. split; [reflexivity|].
      split; [exact Hin|].
      split; [exact (f_equal Round Hrow)|].
      split; [exact (f_equal Driver Hrow)|exact (f_equal row_Points Hrow)].
Qed.

End Properties.

(** ** The methods on the sample provider *)

(** The round of the podium example: its first three rows are counted,
    no row is a DNF. *)
Example bahrain_round :
  podium_session 1 Sample.bahrain [] =
    [("VER"%string, 1); ("HAM"%string, 1); ("PER"%string, 1)] /\
  dnf_session 1 Sample.bahrain [] = [].
Proof. split; reflexivity. Qed.

(** Two seasons each won once by VER: two records, one win in each. *)
Example two_seasons :
  compare_drivers Sample.dashboard Sample.fastf1 (fun _ => Sample.now)
                  "VER" "HAM" [2021; 2022] =
  Ok [ [ ("Year"%string, IntCell 2021);
         ("VER Points"%string, PtsCell 25);
         ("HAM Points"%string, PtsCell 18);
         ("VER Wins"%string, IntCell 1);
         ("HAM Wins"%string, IntCell 0) ];
       [ ("Year"%string, IntCell 2022);
         ("VER Points"%string, PtsCell 25);
         ("HAM Points"%string, PtsCell 0);
         ("VER Wins"%string, IntCell 1);
         ("HAM Wins"%string, IntCell 0) ] ].
Proof. reflexivity. Qed.

(** In 2021 one round loads, with four rows: the podium counts add up
    to three. *)
Lemma count_podiums_sum_2021 :
  get_event_schedule Sample.fastf1 (effective_year Sample.dashboard 2021) =
    Ok Sample.calendar_2021 /\
  exists tally,
    count_podiums Sample.dashboard Sample.fastf1 Sample.now 2021 =
      Ok (Some tally) /\
    tally_sum tally = 3 * 1.
Proof.
  split; [reflexivity|].
  destruct (count_podiums_sum Sample.dashboard Sample.fastf1 Sample.now 2021
              Sample.calendar_2021 eq_refl)
    as (tally & Hrun & _ & Hthree).
  exists tally. split; [exact Hrun|].
  apply Hthree. intros s [<-|[]]. unfold len. simpl. lia.
Defined.

(** In 2022 the one round that loads has two rows: two podiums are
    counted, not three. *)
Lemma count_podiums_sum_short_grid :
  get_event_schedule Sample.fastf1 (effective_year Sample.dashboard 2022) =
    Ok Sample.calendar_2022 /\
  loaded_sessions Sample.fastf1 2022
    (completed_rounds Sample.calendar_2022 Sample.now) = [Sample.imola] /\
  count_podiums Sample.dashboard Sample.fastf1 Sample.now 2022 =
    Ok (Some [("VER"%string, 1); ("HAM"%string, 1)]) /\
  tally_sum [("VER"%string, 1); ("HAM"%string, 1)] <>
    3 * len [Sample.imola].
Proof.
  split; [reflexivity|]. split; [reflexivity|]. split; [reflexivity|].
  vm_compute. discriminate.
Qed.

Lemma count_dnfs_sum_2023 :
  get_event_schedule Sample.fastf1 (effective_year Sample.dashboard 2023) =
    Ok Sample.calendar_2023 /\
  exists tally,
    count_dnfs Sample.dashboard Sample.fastf1 Sample.now 2023 =
      Ok (Some tally) /\
    tally_sum tally = 1.
Proof.
  split; [reflexivity|].
  destruct (count_dnfs_sum Sample.dashboard Sample.fastf1 Sample.now 2023
              Sample.calendar_2023 eq_refl)
    as (tally & Hrun & Hsum).
  exists tally. split; [exact Hrun|]. rewrite Hsum. reflexivity.
Defined.

Lemma tallies_hold_no_zero_2023 :
  get_event_schedule Sample.fastf1 (effective_year Sample.dashboard 2023) =
    Ok Sample.calendar_2023 /\
  (exists tally,
      count_podiums Sample.dashboard Sample.fastf1 Sample.now 2023 =
        Ok (Some tally) /\
      (forall d n, In (d, n) tally -> 1 <= n) /\
      ~ In "ALO"%string (map fst tally)) /\
  (exists tally,
      count_dnfs Sample.dashboard Sample.fastf1 Sample.now 2023 =
        Ok (Some tally) /\
      (forall d n, In (d, n) tally -> 1 <= n) /\
      ~ In "VER"%string (map fst tally)).
Proof.
  split; [reflexivity|].
  destruct (tallies_hold_no_zero Sample.dashboard Sample.fastf1 Sample.now
              2023 Sample.calendar_2023 eq_refl)
    as [(podiums & Hrun & Hpos & Hkeys) (dnfs & Hrun' & Hpos' & Hkeys')].
  split.
  - exists podiums. split; [exact Hrun|]. split; [exact Hpos|].
    intros Hin. apply Hkeys in Hin. simpl in Hin.
    repeat (destruct Hin as [Hin|Hin]; [discriminate Hin|]). exact Hin.
  - exists dnfs. split; [exact Hrun'|]. split; [exact Hpos'|].
    intros Hin. apply Hkeys' in Hin. simpl in Hin.
    repeat (destruct Hin as [Hin|Hin]; [discriminate Hin|]). exact Hin.
Defined.

Lemma failed_round_2021 :
  get_session Sample.fastf1 2021 2 = Sample.unavailable /\
  count_podiums Sample.dashboard Sample.fastf1 Sample.now 2021 =
    count_podiums Sample.dashboard Sample.fastf1_without_round2
                  Sample.now 2021 /\
  export_full_season_details Sample.dashboard Sample.fastf1 Sample.now 2021 =
    export_full_season_details Sample.dashboard Sample.fastf1_without_round2
                               Sample.now 2021 /\
  compare_drivers Sample.dashboard Sample.fastf1 (fun _ => Sample.now)
                  "VER" "HAM" [2021; 2022] =
    compare_drivers Sample.dashboard Sample.fastf1_without_round2
                    (fun _ => Sample.now) "VER" "HAM" [2021; 2022].
Proof.
  split; [reflexivity|].
  assert (Hall := failed_round_contributes_nothing
            Sample.dashboard Sample.fastf1 Sample.fastf1_without_round2 2021
            [ {| RoundNumber := 1; EventDate := 100 |} ]
            [ {| RoundNumber := 3; EventDate := 900 |} ]
            {| RoundNumber := 2; EventDate := 200 |}).
  destruct Hall as [Hyear Hcompare].
  - intros y r. reflexivity.
  - intros y Hy. simpl.
    destruct (Z.eqb_spec y 2021) as [Heq|_]; [destruct (Hy Heq)|].
    reflexivity.
  - reflexivity.
  - reflexivity.
  - intros y Hy. exists (Exception "no data"). unfold effective_year in Hy.
    simpl in Hy. destruct (Z.eqb_spec y 0) as [_|_]; [discriminate Hy|].
    subst y. reflexivity.
  - destruct (Hyear Sample.now 2021) as (Hp & _ & He).
    split; [exact Hp|]. split; [exact He|]. apply Hcompare.
Defined.

Lemma round_not_yet_held_2021 :
  get_session Sample.fastf1_round3_known 2021 3 = Ok Sample.monza /\
  get_session Sample.fastf1 2021 3 = Sample.unavailable /\
  ~ In 3 (completed_rounds Sample.calendar_2021 Sample.now) /\
  count_podiums Sample.dashboard Sample.fastf1 Sample.now 2021 =
    count_podiums Sample.dashboard Sample.fastf1_round3_known
                  Sample.now 2021 /\
  export_full_season_details Sample.dashboard Sample.fastf1 Sample.now 2021 =
    export_full_season_details Sample.dashboard Sample.fastf1_round3_known
                               Sample.now 2021 /\
  In 1 (completed_rounds Sample.calendar_2021 Sample.now) /\
  get_session Sample.fastf1 2021 1 = Ok Sample.bahrain /\
  (exists tally n,
      count_podiums Sample.dashboard Sample.fastf1 Sample.now 2021 =
        Ok (Some tally) /\
      In ("VER"%string, n) tally) /\
  (exists results_df driver_standings team_standings row,
      export_full_season_details Sample.dashboard Sample.fastf1 Sample.now
                                 2021 =
        Ok (Some (results_df, driver_standings, team_standings)) /\
      In row results_df /\
      Round row = 1 /\ Driver row = "ALO"%string /\ row_Points row = 2).
Proof.
  destruct (@only_completed_rounds_are_processed Z _ _)
    as (Hin & Hsame & Hdone).
  split; [reflexivity|]. split; [reflexivity|]. split.
  - intros H3. apply Hin in H3. destruct H3 as (ev & Hev & Hr & Hlt).
    simpl in Hev.
    repeat (destruct Hev as [<-|Hev]; [simpl in Hr, Hlt;
                                      unfold Sample.now in Hlt; lia|]).
    exact Hev.
  - destruct (Hsame Sample.dashboard Sample.fastf1
                    Sample.fastf1_round3_known Sample.now 2021
                    Sample.calendar_2021 eq_refl eq_refl)
      as (Hp & _ & He).
    + intros ev Hev Hlt. simpl in Hev.
      repeat (destruct Hev as [<-|Hev]; [try reflexivity|]).
      * simpl in Hlt. unfold Sample.now in Hlt. lia.
      * destruct Hev.
    + split; [exact Hp|]. split; [exact He|].
      assert (H1 : In 1 (completed_rounds Sample.calendar_2021 Sample.now))
        by (left; reflexivity).
      split; [exact H1|]. split; [reflexivity|].
      destruct (Hdone Sample.dashboard Sample.fastf1 Sample.now 2021
                      Sample.calendar_2021 eq_refl)
        as (_ & _ & _ & Hshown).
      destruct (Hshown 1 Sample.bahrain H1 eq_refl)
        as (Hpodium & _ & Hrows).
      split.
      * apply (Hpodium "VER"%string). left. reflexivity.
      * apply (Hrows (Sample.row "ALO" "Alpine" (Some 9) "Finished" 2)).
        simpl. auto.
Defined.

Lemma compare_round_lookup_bahrain :
  get_session Sample.fastf1 2021 1 = Ok Sample.bahrain /\
  exists st',
    compare_round Sample.fastf1 2021 "VER" "SAI" 1 compare_init =
      (Ok tt, st') /\
    driver1_points st' = 25 /\ driver1_wins st' = 1 /\
    driver2_points st' = 0 /\ driver2_wins st' = 0.
Proof.
  split; [reflexivity|].
  destruct (compare_round_lookup Sample.fastf1 2021 "VER" "SAI" 1
              compare_init)
    as (st' & Hrun & Hround).
  change (get_session Sample.fastf1 2021 1) with (Ok Sample.bahrain)
    in Hround.
  destruct Hround as [(_ & Hpts & _ & Hwin) (Habsent & _)].
  exists st'. split; [exact Hrun|].
  split; [exact (Hpts _ eq_refl)|].
  split; [apply Hwin; eexists; split; reflexivity|].
  apply Habsent. intros r Hin Heq. simpl in Hin.
  repeat (destruct Hin as [<-|Hin]; [discriminate Heq|]). exact Hin.
Defined.

(** The rounds of 1949 cannot be listed: the comparison over two years
    has one record. *)
Lemma compare_drivers_unlisted_year :
  get_event_schedule Sample.fastf1 (effective_year Sample.dashboard 1949) =
    Sample.unavailable /\
  exists df,
    compare_drivers Sample.dashboard Sample.fastf1 (fun _ => Sample.now)
                    "VER" "HAM" [2021; 1949] = Ok df /\
    List.length df <> List.length [2021; 1949].
Proof.
  split; [reflexivity|]. eexists. split; [reflexivity|].
  simpl. discriminate.
Qed.

Lemma compare_driver_with_itself_2021 :
  exists df,
    compare_drivers Sample.dashboard Sample.fastf1 (fun _ => Sample.now)
                    "VER" "VER" [2021; 2022] = Ok df /\
    forall record, In record df ->
      exists year totals,
        record = season_record year "VER" "VER" totals /\
        driver1_points totals = driver2_points totals /\
        driver1_wins totals = driver2_wins totals /\
        dict_get "VER Points" record =
          Some (PtsCell (driver1_points totals)) /\
        dict_get "VER Wins" record = Some (IntCell (driver1_wins totals)).
Proof.
  exact (compare_driver_with_itself Sample.dashboard Sample.fastf1
           (fun _ => Sample.now) "VER" [2021; 2022]).
Defined.

(** In 2023 two rounds load; VER's row of round 2 is the sixth row of
    the export and carries 25 + 18 points, VER's total in the standings. *)
Lemma cumulative_points_2023 :
  completed_rounds Sample.calendar_2023 Sample.now = [1] ++ 2 :: [] /\
  NoDup (map Abbreviation (results Sample.spa)) /\
  exists results_df driver_standings team_standings,
    export_full_season_details Sample.dashboard Sample.fastf1 Sample.now
                               2023 =
      Ok (Some (results_df, driver_standings, team_standings)) /\
    (exists row,
        nth_error results_df 5 = Some row /\
        Round row = 2 /\ Driver row = "VER"%string /\
        CumulativePoints row = 43) /\
    In ("VER"%string, 43) driver_standings.
Proof.
  assert (Hnd : NoDup (map Abbreviation (results Sample.spa))).
  { simpl. repeat constructor; simpl; intuition discriminate. }
  split; [reflexivity|]. split; [exact Hnd|].
  destruct (cumulative_points_reach_the_standings
              Sample.dashboard Sample.fastf1 Sample.now 2023
              Sample.calendar_2023 [1] [] 2 Sample.spa
              eq_refl eq_refl eq_refl)
    as (df & ds & ts & Hrun & Hrow & _ & Hlast).
  exists df, ds, ts. split; [exact Hrun|].
  destruct (Hrow Hnd 1%nat _ eq_refl) as (row & Hnth & Hr & Hd & _ & Hc).
  split.
  - exists row. split; [exact Hnth|]. split; [exact Hr|].
    split; [exact Hd|]. rewrite Hc. reflexivity.
  - vm_compute in Hrun. injection Hrun as Hdf _ _. subst df.
    refine (proj1 (Hlast [_; _; _; _; _] _ [_] eq_refl _)).
    intros later [<-|[]]. simpl. discriminate.
Defined.

(** ** The rest on the sample providers *)

Lemma tally_rows_count_2023 :
  get_event_schedule Sample.fastf1 (effective_year Sample.dashboard 2023) =
    Ok Sample.calendar_2023 /\
  (exists tally,
      count_podiums Sample.dashboard Sample.fastf1 Sample.now 2023 =
        Ok (Some tally) /\
      In ("VER"%string, 2) tally) /\
  (exists tally,
      count_dnfs Sample.dashboard Sample.fastf1 Sample.now 2023 =
        Ok (Some tally) /\
      In ("PER"%string, 1) tally).
Proof.
  split; [reflexivity|].
  destruct (tally_rows_count_each_driver Sample.dashboard Sample.fastf1
              Sample.now 2023 Sample.calendar_2023 eq_refl)
    as [(podiums & Hrun & _ & Hrows) (dnfs & Hrun' & _ & Hrows')].
  split.
  - exists podiums. split; [exact Hrun|].
    apply Hrows. split; [reflexivity|lia].
  - exists dnfs. split; [exact Hrun'|].
    apply Hrows'. split; [reflexivity|lia].
Defined.

Lemma tallies_are_descending_2021 :
  count_podiums Sample.dashboard Sample.fastf1 Sample.now 2021 =
    Ok (Some [("VER"%string, 1); ("HAM"%string, 1); ("PER"%string, 1)]) /\
  descending [("VER"%string, 1); ("HAM"%string, 1); ("PER"%string, 1)].
Proof.
  split; [reflexivity|].
  apply (tallies_are_descending Sample.dashboard Sample.fastf1 Sample.now
           2021).
  left. reflexivity.
Defined.

Lemma standings_2023 :
  get_event_schedule Sample.fastf1 (effective_year Sample.dashboard 2023) =
    Ok Sample.calendar_2023 /\
  exists results_df driver_standings team_standings,
    export_full_season_details Sample.dashboard Sample.fastf1 Sample.now
                               2023 =
      Ok (Some (results_df, driver_standings, team_standings)) /\
    In ("VER"%string, 43) driver_standings /\
    In ("Red Bull"%string, 58) team_standings.
Proof.
  split; [reflexivity|].
  destruct (standings_hold_the_totals Sample.dashboard Sample.fastf1
              Sample.now 2023 Sample.calendar_2023 eq_refl)
    as (df & ds & ts & Hrun & _ & Hd & _ & Ht).
  exists df, ds, ts. split; [exact Hrun|]. split.
  - apply Hd. split; reflexivity.
  - apply Ht. split; reflexivity.
Defined.

Lemma export_copies_2021 :
  get_event_schedule Sample.fastf1 (effective_year Sample.dashboard 2021) =
    Ok Sample.calendar_2021 /\
  exists results_df driver_standings team_standings,
    export_full_season_details Sample.dashboard Sample.fastf1 Sample.now
                               2021 =
      Ok (Some (results_df, driver_standings, team_standings)) /\
    map forget_cumulative results_df =
    map (copied_row 1 "Bahrain Grand Prix") (results Sample.bahrain).
Proof.
  split; [reflexivity|].
  exact (export_copies_every_result_row Sample.dashboard Sample.fastf1
           Sample.now 2021 Sample.calendar_2021 eq_refl).
Defined.

(** Of the five rounds of 2023, two get a row: the third loads with no
    result row, the fourth is dated at the clock reading, the fifth
    later.  Asked for 2024 down to 2023, the table is empty; and it is
    empty when the events have no label [CircuitName]. *)
Lemma all_time_rows_2023 :
  (exists races_df,
      export_all_time_race_data Sample.dashboard SampleRaces.fastf1
        SampleRaces.str (fun _ => Sample.now) 2023 (Some 2023) =
        Ok races_df /\
      map (fun row => (dict_get "Year" row, dict_get "Round" row)) races_df =
      [ (Some (InfoInt 2023), Some (InfoInt 1));
        (Some (InfoInt 2023), Some (InfoInt 2)) ]) /\
  export_all_time_race_data Sample.dashboard SampleRaces.fastf1
    SampleRaces.str (fun _ => Sample.now) 2024 (Some 2023) = Ok [] /\
  export_all_time_race_data Sample.dashboard SampleRaces.fastf1_plain
    SampleRaces.str (fun _ => Sample.now) 2023 (Some 2023) = Ok [].
Proof.
  split; [|split].
  - destruct (all_time_rows_follow_the_rounds Sample.dashboard
                SampleRaces.fastf1 SampleRaces.str (fun _ => Sample.now)
                2023 (Some 2023))
      as (df & Hrun & Hrows & _).
    exists df. split; [exact Hrun|]. rewrite Hrows. reflexivity.
  - destruct (all_time_rows_follow_the_rounds Sample.dashboard
                SampleRaces.fastf1 SampleRaces.str (fun _ => Sample.now)
                2024 (Some 2023))
      as (df & Hrun & _ & Hempty & _).
    rewrite Hrun. f_equal. apply Hempty. reflexivity.
  - destruct (all_time_rows_follow_the_rounds Sample.dashboard
                SampleRaces.fastf1_plain SampleRaces.str
                (fun _ => Sample.now) 2023 (Some 2023))
      as (df & Hrun & _ & _ & Hplain).
    rewrite Hrun. f_equal. apply Hplain.
    intros y r session Hload. simpl in Hload.
    destruct (SampleRaces.race_session_of_fastf1 y r) as [s0|e];
      [|discriminate Hload].
    injection Hload as <-. reflexivity.
Defined.

Lemma all_time_winner_2023 :
  exists races_df row,
    export_all_time_race_data Sample.dashboard SampleRaces.fastf1
      SampleRaces.str (fun _ => Sample.now) 2023 (Some 2023) = Ok races_df /\
    In row races_df /\
    dict_get "Round" row = Some (InfoInt 2) /\
    exists winner,
      In winner (results Sample.spa) /\
      (forall x, In x (results Sample.spa) ->
                 position_ltb (Position x) (Position winner) = false) /\
      dict_get "Winner" row = Some (InfoStr (FullName winner)).
Proof.
  destruct (export_all_time_race_data Sample.dashboard SampleRaces.fastf1
              SampleRaces.str (fun _ => Sample.now) 2023 (Some 2023))
    as [df|e] eqn:Hrun.
  - assert (Hdf := Hrun). vm_compute in Hdf. injection Hdf as Hdf.
    assert (Hin : In (nth 1 df []) df)
      by (rewrite <- Hdf; right; left; reflexivity).
    destruct (all_time_winner_is_first _ _ _ _ _ _ _ _ Hrun Hin)
      as (year & r & session & winner & Hload & Hw & Hfirst & Hy & Hr
          & Hname & _).
    assert (Hyear : year = 2023)
      by (rewrite <- Hdf in Hy; simpl in Hy; congruence).
    assert (Hround : r = 2)
      by (rewrite <- Hdf in Hr; simpl in Hr; congruence).
    subst year r. injection Hload as <-.
    exists df, (nth 1 df []). split; [reflexivity|]. split; [exact Hin|].
    split; [rewrite <- Hdf; reflexivity|].
    exists winner. auto.
  - vm_compute in Hrun. discriminate Hrun.
Defined.

(** Round 2 of 2023 has results and no lap data: it is listed, with
    ["N/A"] for the fastest lap. *)
Lemma all_time_fastest_lap_2023 :
  exists races_df row,
    export_all_time_race_data Sample.dashboard SampleRaces.fastf1
      SampleRaces.str (fun _ => Sample.now) 2023 (Some 2023) = Ok races_df /\
    In row races_df /\
    dict_get "Year" row = Some (InfoInt 2023) /\
    dict_get "Round" row = Some (InfoInt 2) /\
    dict_get "FastestLapDriver" row = Some (InfoStr "N/A") /\
    dict_get "FastestLapTime" row = Some (InfoStr "N/A").
Proof.
  destruct (export_all_time_race_data Sample.dashboard SampleRaces.fastf1
              SampleRaces.str (fun _ => Sample.now) 2023 (Some 2023))
    as [df|e] eqn:Hrun.
  - destruct (all_time_fastest_lap_or_na _ _ _ _ _ _ _ Hrun)
      as [Hlisted _].
    destruct (Hlisted 0%nat 2023 SampleRaces.calendar 2 SampleRaces.spa)
      as (row & Hin & Hy & Hr & Hd & Ht).
    + reflexivity.
    + reflexivity.
    + right. left. reflexivity.
    + reflexivity.
    + discriminate.
    + discriminate.
    + exists df, row. split; [reflexivity|]. split; [exact Hin|].
      split; [exact Hy|]. split; [exact Hr|]. split; [exact Hd|exact Ht].
  - vm_compute in Hrun. discriminate Hrun.
Defined.

Lemma get_valid_input_third_line :
  get_valid_input SampleRaces.int (Some (1, 5)) ["abc"; "7"; "3"; "x"]%string
    = (Ok (Number 3), ["x"%string]) /\
  exists skipped line v,
    ["abc"; "7"; "3"; "x"]%string = skipped ++ line :: ["x"%string] /\
    Forall (rejected SampleRaces.int 1 5) skipped /\
    SampleRaces.int line = Some v /\ Number 3 = Number v /\ 1 <= v <= 5.
Proof.
  split; [reflexivity|].
  destruct (get_valid_input_first_valid SampleRaces.int) as (_ & Hok & _).
  apply (Hok 1 5 ["abc"; "7"; "3"; "x"]%string (Number 3) ["x"%string]
             eq_refl).
Defined.

Lemma upcoming_2023 :
  upcoming SampleRaces.calendar Sample.now =
    [ {| RoundNumber := 5; EventDate := 900 |} ] /\
  ~ In {| RoundNumber := 4; EventDate := 500 |}
       (upcoming SampleRaces.calendar Sample.now) /\
  completed_rounds [ {| RoundNumber := 4; EventDate := 500 |} ] Sample.now
    = [].
Proof.
  destruct (upcoming_is_first_after_now Sample.dashboard Sample.fastf1 2023
              SampleRaces.calendar Sample.now)
    as (_ & Hnext & _ & _ & Hnow).
  split.
  - apply (Hnext [ {| RoundNumber := 1; EventDate := 100 |};
                   {| RoundNumber := 2; EventDate := 200 |};
                   {| RoundNumber := 3; EventDate := 300 |};
                   {| RoundNumber := 4; EventDate := 500 |} ]
                 {| RoundNumber := 5; EventDate := 900 |} []).
    + reflexivity.
    + intros e He. simpl in He. unfold Sample.now.
      repeat (destruct He as [<-|He]; [simpl; lia|]). destruct He.
    + reflexivity.
  - apply (Hnow {| RoundNumber := 4; EventDate := 500 |}). reflexivity.
Defined.

Lemma get_fastest_lap_2023 :
  get_fastest_lap SampleRaces.fastf1 2023 1 = Ok (Some SampleRaces.lap) /\
  get_fastest_lap SampleRaces.fastf1 2023 2 = Ok None /\
  get_fastest_lap SampleRaces.fastf1 2023 9 = Ok None.
Proof.
  split; [|split; reflexivity].
  apply (proj2 (get_fastest_lap_or_nothing SampleRaces.fastf1 2023 1)).
  exists SampleRaces.bahrain. split; reflexivity.
Defined.

Lemma season_totals_2021_2022 :
  compare_drivers Sample.dashboard Sample.fastf1 (fun _ => Sample.now)
                  "VER" "HAM" [2021; 1949; 2022] =
  Ok [ season_record 2021 "VER" "HAM"
         (counters_of "VER" "HAM" [Sample.bahrain]);
       season_record 2022 "VER" "HAM"
         (counters_of "VER" "HAM" [Sample.imola]) ] /\
  points_of (first_rows "HAM" [Sample.bahrain]) = 18 /\
  wins_of (first_rows "VER" [Sample.imola]) = 1.
Proof.
  split; [|split; reflexivity].
  rewrite (proj1 (season_totals_of_each_driver Sample.dashboard
                    Sample.fastf1 (fun _ => Sample.now) "VER" "HAM")).
  reflexivity.
Defined.

Lemma podium_rows_of_spa :
  exists counted left_out,
    Permutation (counted ++ left_out) (results Sample.spa) /\
    podium_drivers Sample.spa = map Abbreviation counted /\
    len counted = Z.min 3 (len (results Sample.spa)) /\
    forall x y, In x counted -> In y left_out ->
                position_ltb (Position y) (Position x) = false.
Proof. exact (podium_rows_come_first Sample.spa). Defined.
